(** * Registration portal: the storage backends and the register handler

    A shallow embedding of [json_store.js] (class [DatabaseManager], the
    file-backed store), of the Mongo-backed store (class [MongoStore]) and of
    the [POST /api/register] and [POST /api/problem-statements] handlers of
    [app.js], together with the properties of the allocation core.

    Conventions of the embedding.
    - A JSON value is a [value]; a JavaScript number is the rational it
      denotes (no rounding, no overflow), the results of numeric conversions
      live in [number], which adds [NaN] and the two infinities.
    - Arrays inside values are arrays of strings; object-valued fields are
      not part of the model.
    - Strings are sequences of 8-bit characters; white space is the ASCII
      white space (TAB, LF, VT, FF, CR, SP).
    - The identifier of a problem statement and the four fields of a
      registration request are strings; a missing request field is the empty
      string (both are falsy in the handler's guard).
    - [await] is sequential composition: every store method is a function
      from the persisted data to the new data and the returned value.
    - [new Date().toISOString()] is an argument [now] of the function that
      reads the clock. *)

From Stdlib Require Import Ascii String QArith.
From stdpp Require Import base decidable option list strings gmap.

Local Open Scope string_scope.
Local Open Scope list_scope.
Local Open Scope stdpp_scope.
Local Open Scope Z_scope.

(** ** JavaScript values and numbers *)

Inductive number : Type :=
  | NaN
  | NegInf
  | Fin (q : Q)
  | PosInf.

Inductive value : Type :=
  | VUndef
  | VNull
  | VBool (b : bool)
  | VNum (q : Q)
  | VStr (s : string)
  | VArr (l : list string).

Definition Qltb (p q : Q) : bool := negb (Qle_bool q p).

(** [a < b] on numbers: any comparison with [NaN] is false. *)
Definition number_lt (a b : number) : bool :=
  match a, b with
  | NaN, _ | _, NaN => false
  | _, NegInf => false
  | NegInf, _ => true
  | PosInf, _ => false
  | Fin _, PosInf => true
  | Fin p, Fin q => Qltb p q
  end.

(** [a >= b] on numbers: false with [NaN], otherwise the negation of [a < b]. *)
Definition number_ge (a b : number) : bool :=
  match a, b with
  | NaN, _ | _, NaN => false
  | _, _ => negb (number_lt a b)
  end.

(** Truthiness, as used by [x || y] and [!x]. *)
Definition truthy (v : value) : bool :=
  match v with
  | VUndef | VNull => false
  | VBool b => b
  | VNum q => negb (Qeq_bool q 0)
  | VStr s => negb (String.eqb s "")
  | VArr _ => true
  end.

(** [a || b] *)
Definition or_else (a b : value) : value := if truthy a then a else b.

Definition isArray (v : value) : bool :=
  match v with VArr _ => true | _ => false end.

(** [Array.isArray(v) ? v : []] *)
Definition arrayOrEmpty (v : value) : list string :=
  match v with VArr l => l | _ => [] end.

(** ** Strings: white space, [trim], [parseInt], string to number *)

Definition is_ws (c : ascii) : bool :=
  let n := nat_of_ascii c in
  ((9 <=? n)%nat && (n <=? 13)%nat) || (n =? 32)%nat.

Fixpoint ltrim (s : string) : string :=
  match s with
  | EmptyString => EmptyString
  | String c r => if is_ws c then ltrim r else s
  end.

Fixpoint rtrim (s : string) : string :=
  match s with
  | EmptyString => EmptyString
  | String c r =>
      match rtrim r with
      | EmptyString => if is_ws c then EmptyString else String c EmptyString
      | r' => String c r'
      end
  end.

(** [s.trim()] *)
Definition trim (s : string) : string := rtrim (ltrim s).

(** The value of a digit in the given radix, if the character is one. *)
Definition digit_of (radix : Z) (c : ascii) : option Z :=
  let n := Z.of_nat (nat_of_ascii c) in
  let d :=
    if (48 <=? n) && (n <=? 57) then Some (n - 48)
    else if (97 <=? n) && (n <=? 102) then Some (n - 87)
    else if (65 <=? n) && (n <=? 70) then Some (n - 55)
    else None in
  match d with
  | Some k => if k <? radix then Some k else None
  | None => None
  end.

(** The longest prefix of digits, and what follows it. *)
Fixpoint read_digits (radix : Z) (s : string) : list Z * string :=
  match s with
  | EmptyString => ([], EmptyString)
  | String c r =>
      match digit_of radix c with
      | Some d => let '(ds, rest) := read_digits radix r in (d :: ds, rest)
      | None => ([], s)
      end
  end.

Definition digits_value (radix : Z) (ds : list Z) : Z :=
  fold_left (fun acc d => acc * radix + d) ds 0.

(** An optional sign: the sign and the rest of the string. *)
Definition read_sign (s : string) : Z * string :=
  match s with
  | String "+" r => (1, r)
  | String "-" r => (-1, r)
  | _ => (1, s)
  end.

(** [parseInt(s, 10)]: leading white space, a sign, then the longest run of
    decimal digits; [None] is [NaN]. *)
Definition parseInt (s : string) : option Z :=
  let '(sign, r) := read_sign (ltrim s) in
  match read_digits 10 r with
  | ([], _) => None
  | (ds, _) => Some (sign * digits_value 10 ds)
  end.

(** [10^e] as a rational. *)
Definition pow10 (e : Z) : Q := Qpower (10 # 1) e.

(** The exponent part of a decimal literal: [e], a sign, digits; nothing may
    follow. [None] when the text is not an exponent part. *)
Definition read_exponent (s : string) : option Z :=
  match s with
  | EmptyString => Some 0
  | String c r =>
      if (Ascii.eqb c "e" || Ascii.eqb c "E")%bool then
        let '(sign, r1) := read_sign r in
        match read_digits 10 r1 with
        | ([], _) => None
        | (ds, EmptyString) => Some (sign * digits_value 10 ds)
        | (_, _) => None
        end
      else None
  end.

(** An unsigned decimal literal: digits, an optional fraction, an optional
    exponent, with a digit on at least one side of the point. *)
Definition read_decimal (s : string) : option Q :=
  let '(ip, r) := read_digits 10 s in
  let '(fp, r1) :=
    match r with
    | String "." r0 => read_digits 10 r0
    | _ => ([], r)
    end in
  match ip, fp with
  | [], [] => None
  | _, _ =>
      match read_exponent r1 with
      | Some e =>
          let m := digits_value 10 (ip ++ fp) in
          Some (inject_Z m * pow10 (e - Z.of_nat (length fp)))%Q
      | None => None
      end
  end.

(** A literal [0x..], [0o..] or [0b..] in the given radix. *)
Definition read_radix (radix : Z) (s : string) : number :=
  match read_digits radix s with
  | ([], _) => NaN
  | (ds, EmptyString) => Fin (inject_Z (digits_value radix ds))
  | (_, _) => NaN
  end.

(** The conversion of a string to a number ([Number(s)], and the conversion
    the relational operators apply to a string operand). *)
Definition StringToNumber (s : string) : number :=
  match trim s with
  | EmptyString => Fin 0
  | String "0" (String "x" r) | String "0" (String "X" r) => read_radix 16 r
  | String "0" (String "o" r) | String "0" (String "O" r) => read_radix 8 r
  | String "0" (String "b" r) | String "0" (String "B" r) => read_radix 2 r
  | t =>
      let '(sign, r) := read_sign t in
      if String.eqb r "Infinity" then (if sign =? 1 then PosInf else NegInf)
      else match read_decimal r with
           | Some q => Fin (inject_Z sign * q)%Q
           | None => NaN
           end
  end.

(** [l.join(",")] *)
Definition join (l : list string) : string := String.concat "," l.

(** [String(v)] for the values that are not numbers (the only ones the
    stores convert); the text of a number is never consulted. *)
Definition ToString (v : value) : string :=
  match v with
  | VUndef => "undefined"
  | VNull => "null"
  | VBool true => "true"
  | VBool false => "false"
  | VNum _ => ""
  | VStr s => s
  | VArr l => join l
  end.

(** The conversion of a value to a number, as the relational operators
    apply it to an operand that is compared with a number. *)
Definition ToNumber (v : value) : number :=
  match v with
  | VUndef => NaN
  | VNull => Fin 0
  | VBool true => Fin 1
  | VBool false => Fin 0
  | VNum q => Fin q
  | VStr s => StringToNumber s
  | VArr l => StringToNumber (join l)
  end.

(** [n < v] and [n >= v] for a count [n] and a stored value [v]. *)
Definition count_lt (n : nat) (v : value) : bool :=
  number_lt (Fin (inject_Z (Z.of_nat n))) (ToNumber v).

Definition count_ge (n : nat) (v : value) : bool :=
  number_ge (Fin (inject_Z (Z.of_nat n))) (ToNumber v).

Definition number_eqb (a b : number) : bool :=
  match a, b with
  | NaN, NaN | NegInf, NegInf | PosInf, PosInf => true
  | Fin p, Fin q => Qeq_bool p q
  | _, _ => false
  end.

(** ** The data model *)

(** A stored problem statement (an element of [data.problemStatements], a
    document of the [problem_statements] collection). *)
Record ProblemStatement : Type := {
  id : string;
  title : value;
  description : value;
  maxSelections : value;
  category : value;
  difficulty : value;
  technologies : list string
}.

(** A stored registration. *)
Record Registration : Type := {
  teamNumber : string;
  teamName : string;
  teamLeader : string;
  problemStatementId : string;
  registrationDateTime : string
}.

(** The persisted state: the content of [data.json], or of the two
    collections, in insertion order. *)
Record Data : Type := {
  problemStatements : list ProblemStatement;
  registrations : list Registration
}.

(** The argument of [createProblemStatement] and an element of the list
    given to [importFromJSON]: the fields as the caller sent them. *)
Record ProblemInput : Type := {
  in_id : string;
  in_title : value;
  in_description : value;
  in_maxSelections : value;
  in_category : value;
  in_difficulty : value;
  in_technologies : value
}.

(** The argument [updates] of [updateProblemStatement]; an absent key is
    [VUndef]. *)
Record Updates : Type := {
  u_title : value;
  u_description : value;
  u_max_selections : value;
  u_maxSelections : value;
  u_category : value;
  u_difficulty : value;
  u_technologies : value
}.

(** The argument of [createRegistrationAtomic], and the body of
    [POST /api/register]. *)
Record RegistrationRequest : Type := {
  req_teamNumber : string;
  req_teamName : string;
  req_teamLeader : string;
  req_problemStatementId : string
}.

(** The object [{ id, changes }] the write methods return. *)
Record WriteResult : Type := {
  res_id : string;
  changes : nat
}.

(** An element of the result of [getAllProblemStatements]. *)
Record ProblemView : Type := {
  pv_id : string;
  pv_title : value;
  pv_description : value;
  max_selections : value;
  pv_category : value;
  pv_difficulty : value;
  pv_technologies : list string;
  selected_count : nat;
  is_available : bool
}.

(** An element of the result of [getAllRegistrations]. *)
Record RegistrationView : Type := {
  team_number : string;
  team_name : string;
  team_leader : string;
  problem_title : value;
  problem_category : value;
  problem_difficulty : value;
  registration_date_time : string
}.

(** [x !== undefined] *)
Definition defined (v : value) : bool :=
  match v with VUndef => false | _ => true end.

(** ** Array and [Map] helpers shared by the two stores *)

(** [l.some(P)] *)
Definition some {A} (P : A -> Prop) `{!forall x, Decision (P x)} (l : list A) : bool :=
  bool_decide (Exists P l).

(** [l.find(P)], and [collection.findOne(P)]: the first match. *)
Definition find {A} (P : A -> Prop) `{!forall x, Decision (P x)} (l : list A) : option A :=
  snd <$> list_find P l.

(** The [Map] built by
    [regs.forEach(r => m.set(r.problemStatementId, (m.get(r.problemStatementId) || 0) + 1))]. *)
Definition countByProblem (regs : list Registration) : gmap string nat :=
  fold_left
    (fun m r => <[problemStatementId r := (default 0 (m !! problemStatementId r) + 1)%nat]> m)
    regs ∅.

(** [new Map(problems.map(p => [p.id, p]))]: a later entry replaces an
    earlier one with the same key. *)
Definition problemById (problems : list ProblemStatement) : gmap string ProblemStatement :=
  fold_left (fun m p => <[id p := p]> m) problems ∅.

(** The joined view of a registration, common to the two stores. *)
Definition registrationView (idToPs : gmap string ProblemStatement) (r : Registration)
  : RegistrationView :=
  let ps := idToPs !! problemStatementId r in
  {| team_number := teamNumber r;
     team_name := teamName r;
     team_leader := teamLeader r;
     problem_title := or_else (from_option title VUndef ps) (VStr "");
     problem_category := or_else (from_option category VUndef ps) VNull;
     problem_difficulty := or_else (from_option difficulty VUndef ps) VNull;
     registration_date_time := registrationDateTime r |}.

(** The record [createRegistrationAtomic] inserts. *)
Definition newRegistration (team : string) (registration : RegistrationRequest)
    (now : string) : Registration :=
  {| teamNumber := team;
     teamName := req_teamName registration;
     teamLeader := req_teamLeader registration;
     problemStatementId := req_problemStatementId registration;
     registrationDateTime := now |}.

(** An element of the result of [getRegistrationsByProblemStatement]. *)
Record ProblemRegistrationView : Type := {
  prv_team_number : string;
  prv_team_name : string;
  prv_team_leader : string;
  prv_problem_title : value;
  prv_registration_date_time : string
}.

(** The view [getRegistrationsByProblemStatement] builds of a registration,
    [ps] being the problem statement found, if any. *)
Definition problemRegistrationView (ps : option ProblemStatement) (r : Registration)
  : ProblemRegistrationView :=
  {| prv_team_number := teamNumber r;
     prv_team_name := teamName r;
     prv_team_leader := teamLeader r;
     prv_problem_title := or_else (from_option title VUndef ps) (VStr "");
     prv_registration_date_time := registrationDateTime r |}.

(** The three problem statements both stores seed an empty catalog with. *)
Definition defaults : list ProblemStatement :=
  [ {| id := "ps001"; title := VStr "Secure Authentication System";
       description := VStr "Design and implement a multi-factor authentication system with biometric verification, OTP, and secure session management for a banking application.";
       maxSelections := VNum 2; category := VStr "Cybersecurity";
       difficulty := VStr "Advanced"; technologies := ["Node.js"; "React"; "JWT"] |};
    {| id := "ps002"; title := VStr "AI-Powered Code Review Assistant";
       description := VStr "Develop an intelligent code review tool that uses machine learning to detect bugs, security vulnerabilities, and suggest improvements in real-time.";
       maxSelections := VNum 2; category := VStr "Artificial Intelligence";
       difficulty := VStr "Advanced"; technologies := ["Python"; "TensorFlow"] |};
    {| id := "ps003"; title := VStr "Blockchain Supply Chain Tracker";
       description := VStr "Create a transparent supply chain management system using blockchain technology to track products from manufacturer to consumer.";
       maxSelections := VNum 2; category := VStr "Blockchain";
       difficulty := VStr "Intermediate"; technologies := ["Ethereum"; "Solidity"] |} ].

(** [this.defaultData] *)
Definition defaultData : Data := {| problemStatements := []; registrations := [] |}.

(** ** The file-backed store: class [DatabaseManager] of [json_store.js]

    Every method reads the whole file, works on the parsed object and, when
    it writes, replaces the file in a single rename ([#atomicWrite]). *)

Module JsonStore.

Definition getAllProblemStatements (data : Data) : list ProblemView :=
  let idToCount := countByProblem (registrations data) in
  fmap (fun ps =>
         let selected := default 0%nat (idToCount !! id ps) in
         {| pv_id := id ps;
            pv_title := title ps;
            pv_description := description ps;
            max_selections := maxSelections ps;
            pv_category := or_else (category ps) VNull;
            pv_difficulty := or_else (difficulty ps) VNull;
            pv_technologies := technologies ps;
            selected_count := selected;
            is_available := count_lt selected (maxSelections ps) |})
      (problemStatements data).

Definition getProblemStatementById (target : string) (data : Data)
  : option ProblemStatement :=
  find (fun p => id p = target) (problemStatements data).

(** The object pushed by [createProblemStatement] and [importFromJSON]. *)
Definition stored (p : ProblemInput) : ProblemStatement :=
  {| id := in_id p;
     title := in_title p;
     description := in_description p;
     maxSelections := in_maxSelections p;
     category := or_else (in_category p) VNull;
     difficulty := or_else (in_difficulty p) VNull;
     technologies := arrayOrEmpty (in_technologies p) |}.

Definition createProblemStatement (problemStatement : ProblemInput) (data : Data)
  : Data * WriteResult :=
  if some (fun p => id p = in_id problemStatement) (problemStatements data)
  then (data, {| res_id := in_id problemStatement; changes := 0 |})
  else
    ({| problemStatements := problemStatements data ++ [stored problemStatement];
        registrations := registrations data |},
     {| res_id := in_id problemStatement; changes := 1 |}).

(** [next], the copy of [current] with the provided fields replaced. *)
Definition merge (current : ProblemStatement) (updates : Updates) : ProblemStatement :=
  let maxSel1 :=
    if defined (u_max_selections updates) then u_max_selections updates
    else maxSelections current in
  {| id := id current;
     title := if defined (u_title updates) then u_title updates else title current;
     description :=
       if defined (u_description updates) then u_description updates
       else description current;
     maxSelections :=
       if defined (u_maxSelections updates) then u_maxSelections updates else maxSel1;
     category :=
       if defined (u_category updates) then u_category updates else category current;
     difficulty :=
       if defined (u_difficulty updates) then u_difficulty updates
       else difficulty current;
     technologies :=
       if defined (u_technologies updates) then arrayOrEmpty (u_technologies updates)
       else technologies current |}.

Definition updateProblemStatement (target : string) (updates : Updates) (data : Data)
  : Data * WriteResult :=
  match list_find (fun p => id p = target) (problemStatements data) with
  | None => (data, {| res_id := target; changes := 0 |})
  | Some (idx, current) =>
      ({| problemStatements := <[idx := merge current updates]> (problemStatements data);
          registrations := registrations data |},
       {| res_id := target; changes := 1 |})
  end.

Definition deleteProblemStatement (target : string) (data : Data) : Data * WriteResult :=
  let before := length (problemStatements data) in
  let remaining := filter (fun p => id p <> target) (problemStatements data) in
  ({| problemStatements := remaining;
      registrations :=
        filter (fun r => problemStatementId r <> target) (registrations data) |},
   {| res_id := target; changes := (before - length remaining)%nat |}).

(** The successive contents of the file during [deleteProblemStatement]:
    the two filters run in memory and one write follows. *)
Definition deleteProblemStatement_writes (target : string) (data : Data) : list Data :=
  [fst (deleteProblemStatement target data)].

Definition getAllRegistrations (data : Data) : list RegistrationView :=
  let idToPs := problemById (problemStatements data) in
  fmap (registrationView idToPs) (registrations data).

Definition isTeamNumberTaken (team : string) (data : Data) : bool :=
  some (fun r => teamNumber r = team) (registrations data).

Definition createRegistrationAtomic (registration : RegistrationRequest)
    (now : string) (data : Data) : Data * option WriteResult :=
  if some (fun r => teamNumber r = req_teamNumber registration) (registrations data)
  then (data, None)
  else
    match find (fun p => id p = req_problemStatementId registration)
               (problemStatements data) with
    | None => (data, None)
    | Some ps =>
        let current :=
          length (filter (fun r => problemStatementId r = id ps) (registrations data)) in
        if count_ge current (maxSelections ps) then (data, None)
        else
          let record := newRegistration (req_teamNumber registration) registration now in
          ({| problemStatements := problemStatements data;
              registrations := registrations data ++ [record] |},
           Some {| res_id := teamNumber record; changes := 1 |})
    end.

Definition deleteRegistration (team : string) (data : Data) : Data * nat :=
  let before := length (registrations data) in
  let remaining := filter (fun r => teamNumber r <> team) (registrations data) in
  ({| problemStatements := problemStatements data; registrations := remaining |},
   (before - length remaining)%nat).

(** [importFromJSON]: the set [newIds] is computed once, from the stored
    statements, before the loop. *)
Definition importFromJSON (items : list ProblemInput) (data : Data) : Data :=
  let newIds : gset string := list_to_set (fmap id (problemStatements data)) in
  {| problemStatements :=
       fold_left
         (fun (acc : list ProblemStatement) ps =>
            if decide (in_id ps ∈ newIds) then acc else acc ++ [stored ps])
         items (problemStatements data);
     registrations := registrations data |}.

Definition getRegistrationsByProblemStatement (target : string) (data : Data)
  : list ProblemRegistrationView :=
  let ps := find (fun p => id p = target) (problemStatements data) in
  fmap (problemRegistrationView ps)
       (filter (fun r => problemStatementId r = target) (registrations data)).

Definition seedProblemStatements (data : Data) : Data :=
  {| problemStatements := defaults; registrations := registrations data |}.

(** [init] on the local file: [file] is the content of [data.json], [None]
    when the file does not exist. The default data are written when the file
    is missing, and the catalog is seeded when it is empty. *)
Definition init (file : option Data) : Data :=
  let data := default defaultData file in
  if (length (problemStatements data) =? 0)%nat then seedProblemStatements data
  else data.

End JsonStore.

(** ** Collections of the document database

    The operations of the driver the Mongo-backed store calls, on a
    collection kept as the list of its documents in insertion order. *)

Module Collection.
Section Ops.
Context {A : Type}.

(** [findOne(P)] *)
Definition findOne (P : A -> Prop) `{!forall x, Decision (P x)} (docs : list A)
  : option A := find P docs.

(** [countDocuments(P)] *)
Definition countDocuments (P : A -> Prop) `{!forall x, Decision (P x)}
    (docs : list A) : nat := length (filter P docs).

(** [insertOne(doc)] under a unique index on [key]: [None] is the
    duplicate-key error (code 11000). *)
Definition insertOne (key : A -> string) (doc : A) (docs : list A)
  : option (list A) :=
  if some (fun d => key d = key doc) docs then None else Some (docs ++ [doc]).

(** Ordered [insertMany(new)] under a unique index on [key]: the
    documents are inserted one by one and the first duplicate key stops
    the insertion (the error is then thrown to the caller). *)
Fixpoint insertMany (key : A -> string) (new : list A) (docs : list A) : list A :=
  match new with
  | [] => docs
  | doc :: rest =>
      match insertOne key doc docs with
      | Some docs' => insertMany key rest docs'
      | None => docs
      end
  end.

(** [deleteOne(P)]: the first match is removed; the collection and
    [deletedCount]. *)
Definition deleteOne (P : A -> Prop) `{!forall x, Decision (P x)} (docs : list A)
  : list A * nat :=
  match list_find P docs with
  | Some (i, _) => (delete i docs, 1%nat)
  | None => (docs, 0%nat)
  end.

(** [deleteMany(P)] *)
Definition deleteMany (P : A -> Prop) `{!forall x, Decision (P x)} (docs : list A)
  : list A := filter (fun d => ~ P d) docs.

(** [updateOne(P, { $set })]: the first match is replaced by [set] of
    it; [modifiedCount] counts the documents the update changed: it is 1
    when a document matched and [set] of it differs from it (the judgement
    of [same]), and 0 otherwise. A [$set] without fields changes nothing. *)
Definition updateOne (P : A -> Prop) `{!forall x, Decision (P x)}
    (set : A -> A) (same : A -> A -> bool) (docs : list A) : list A * nat :=
  match list_find P docs with
  | Some (i, doc) =>
      (<[i := set doc]> docs, if same doc (set doc) then 0%nat else 1%nat)
  | None => (docs, 0%nat)
  end.
End Ops.
End Collection.

(** Equality of stored values, numbers compared as numbers. *)
Definition value_eqb (a b : value) : bool :=
  match a, b with
  | VUndef, VUndef | VNull, VNull => true
  | VBool x, VBool y => Bool.eqb x y
  | VNum p, VNum q => Qeq_bool p q
  | VStr s, VStr t => String.eqb s t
  | VArr l, VArr m => bool_decide (l = m)
  | _, _ => false
  end.

Definition ProblemStatement_eqb (p q : ProblemStatement) : bool :=
  String.eqb (id p) (id q) && value_eqb (title p) (title q)
  && value_eqb (description p) (description q)
  && value_eqb (maxSelections p) (maxSelections q)
  && value_eqb (category p) (category q)
  && value_eqb (difficulty p) (difficulty q)
  && bool_decide (technologies p = technologies q).

(** ** The Mongo-backed store: class [MongoStore]

    The collections [ps] and [regs] carry the unique indexes on [id] and
    on [teamNumber] that [init] creates. The body of [withTransaction] in
    [createRegistrationAtomic] is run as a sequential procedure. *)

Module MongoStore.
Import Collection.

(** [typeof v === 'number' ? v : parseInt(v || '0', 10) || 0] *)
Definition parsedMax (v : value) : Q :=
  match v with
  | VNum q => q
  | _ =>
      match parseInt (ToString (or_else v (VStr "0"))) with
      | Some z => inject_Z z
      | None => 0%Q
      end
  end.

(** [Math.max(1, q)] *)
Definition max1 (q : Q) : Q := if Qle_bool q 1 then 1%Q else q.

Definition maxSel (v : value) : Q := max1 (parsedMax v).

Definition getAllProblemStatements (data : Data) : list ProblemView :=
  let idToCount := countByProblem (registrations data) in
  fmap (fun p =>
         let maxSel := maxSel (maxSelections p) in
         let selected := default 0%nat (idToCount !! id p) in
         {| pv_id := id p;
            pv_title := title p;
            pv_description := description p;
            max_selections := VNum maxSel;
            pv_category := or_else (category p) VNull;
            pv_difficulty := or_else (difficulty p) VNull;
            pv_technologies := technologies p;
            selected_count := selected;
            is_available := count_lt selected (VNum maxSel) |})
      (problemStatements data).

Definition getProblemStatementById (target : string) (data : Data)
  : option ProblemStatement :=
  findOne (fun p => id p = target) (problemStatements data).

(** The document [createProblemStatement] and [importFromJSON] insert. *)
Definition stored (p : ProblemInput) : ProblemStatement :=
  {| id := in_id p;
     title := in_title p;
     description := in_description p;
     maxSelections := VNum (maxSel (in_maxSelections p));
     category := or_else (in_category p) VNull;
     difficulty := or_else (in_difficulty p) VNull;
     technologies := arrayOrEmpty (in_technologies p) |}.

Definition createProblemStatement (problemStatement : ProblemInput) (data : Data)
  : Data * WriteResult :=
  match insertOne id (stored problemStatement) (problemStatements data) with
  | Some ps' =>
      ({| problemStatements := ps'; registrations := registrations data |},
       {| res_id := in_id problemStatement; changes := 1 |})
  | None => (data, {| res_id := in_id problemStatement; changes := 0 |})
  end.

(** [a ?? b] *)
Definition nullish_or (a b : value) : value :=
  match a with VUndef | VNull => b | _ => a end.

(** The effect of [{ $set: doc }] on a document, [doc] built from
    [updates]. *)
Definition applySet (updates : Updates) (current : ProblemStatement) : ProblemStatement :=
  {| id := id current;
     title := if defined (u_title updates) then u_title updates else title current;
     description :=
       if defined (u_description updates) then u_description updates
       else description current;
     maxSelections :=
       if defined (u_max_selections updates) || defined (u_maxSelections updates)
       then VNum (maxSel (nullish_or (u_max_selections updates) (u_maxSelections updates)))
       else maxSelections current;
     category :=
       if defined (u_category updates) then u_category updates else category current;
     difficulty :=
       if defined (u_difficulty updates) then u_difficulty updates
       else difficulty current;
     technologies :=
       if defined (u_technologies updates) then arrayOrEmpty (u_technologies updates)
       else technologies current |}.

Definition updateProblemStatement (target : string) (updates : Updates) (data : Data)
  : Data * WriteResult :=
  let '(ps', modifiedCount) :=
    updateOne (fun p => id p = target) (applySet updates) ProblemStatement_eqb
              (problemStatements data) in
  ({| problemStatements := ps'; registrations := registrations data |},
   {| res_id := target; changes := modifiedCount |}).

(** The successive states of the database during [deleteProblemStatement]:
    after [ps.deleteOne] and after [regs.deleteMany]. *)
Definition deleteProblemStatement_writes (target : string) (data : Data) : list Data :=
  let '(ps', _) := deleteOne (fun p => id p = target) (problemStatements data) in
  let afterDeleteOne := {| problemStatements := ps'; registrations := registrations data |} in
  let afterDeleteMany :=
    {| problemStatements := ps';
       registrations :=
         deleteMany (fun r => problemStatementId r = target) (registrations data) |} in
  [afterDeleteOne; afterDeleteMany].

Definition deleteProblemStatement (target : string) (data : Data) : Data * WriteResult :=
  let '(ps', deletedCount) :=
    deleteOne (fun p => id p = target) (problemStatements data) in
  ({| problemStatements := ps';
      registrations :=
        deleteMany (fun r => problemStatementId r = target) (registrations data) |},
   {| res_id := target; changes := deletedCount |}).

Definition getAllRegistrations (data : Data) : list RegistrationView :=
  let idToPs := problemById (problemStatements data) in
  fmap (registrationView idToPs) (registrations data).

Definition isTeamNumberTaken (team : string) (data : Data) : bool :=
  let target := trim team in
  match findOne (fun r => teamNumber r = target) (registrations data) with
  | Some _ => true
  | None => false
  end.

Definition createRegistrationAtomic (registration : RegistrationRequest)
    (now : string) (data : Data) : Data * option WriteResult :=
  let target := trim (req_teamNumber registration) in
  match findOne (fun r => teamNumber r = target) (registrations data) with
  | Some _ => (data, None)
  | None =>
      match findOne (fun p => id p = req_problemStatementId registration)
                    (problemStatements data) with
      | None => (data, None)
      | Some problem =>
          let maxSel := maxSel (maxSelections problem) in
          let current :=
            countDocuments (fun r => problemStatementId r = id problem)
                           (registrations data) in
          if count_ge current (VNum maxSel) then (data, None)
          else
            let record := newRegistration target registration now in
            match insertOne teamNumber record (registrations data) with
            | Some regs' =>
                ({| problemStatements := problemStatements data;
                    registrations := regs' |},
                 Some {| res_id := teamNumber record; changes := 1 |})
            | None => (data, None)
            end
      end
  end.

Definition deleteRegistration (team : string) (data : Data) : Data * nat :=
  let target := trim team in
  let '(regs', deletedCount) :=
    deleteOne (fun r => teamNumber r = target) (registrations data) in
  ({| problemStatements := problemStatements data; registrations := regs' |},
   deletedCount).

Definition importFromJSON (items : list ProblemInput) (data : Data) : Data :=
  let existingIds : gset string := list_to_set (fmap id (problemStatements data)) in
  let toInsert :=
    fold_left
      (fun (acc : list ProblemStatement) psItem =>
         if decide (in_id psItem ∈ existingIds) then acc
         else acc ++ [stored psItem])
      items [] in
  {| problemStatements := insertMany id toInsert (problemStatements data);
     registrations := registrations data |}.

Definition getRegistrationsByProblemStatement (target : string) (data : Data)
  : list ProblemRegistrationView :=
  let problem := findOne (fun p => id p = target) (problemStatements data) in
  let list := filter (fun r => problemStatementId r = target) (registrations data) in
  fmap (problemRegistrationView problem) list.

(** [init]: [connected] tells whether [this.db] is set. A connected store
    returns at once; otherwise the store connects and, when the catalog is
    empty, inserts the defaults. After [init] the store is connected. *)
Definition init (connected : bool) (data : Data) : Data :=
  if connected then data
  else if (length (problemStatements data) =? 0)%nat
       then {| problemStatements := insertMany id defaults (problemStatements data);
               registrations := registrations data |}
       else data.

(** [resetAll]: the store is initialised if it is not, both collections are
    emptied, and [init] is called again, on a store that is connected by
    then. *)
Definition resetAll (connected : bool) (data : Data) : Data * bool :=
  let data1 := if connected then data else init false data in
  let emptied :=
    {| problemStatements := deleteMany (fun _ => True) (problemStatements data1);
       registrations := deleteMany (fun _ => True) (registrations data1) |} in
  (init true emptied, true).

End MongoStore.

(** ** The interface the application programs against

    [app.js] holds one store object [db] and calls these methods on it; the
    two classes above implement them. *)

Record Store : Type := {
  getAllProblemStatements : Data -> list ProblemView;
  getProblemStatementById : string -> Data -> option ProblemStatement;
  createProblemStatement : ProblemInput -> Data -> Data * WriteResult;
  updateProblemStatement : string -> Updates -> Data -> Data * WriteResult;
  deleteProblemStatement : string -> Data -> Data * WriteResult;
  getAllRegistrations : Data -> list RegistrationView;
  isTeamNumberTaken : string -> Data -> bool;
  createRegistrationAtomic : RegistrationRequest -> string -> Data -> Data * option WriteResult;
  deleteRegistration : string -> Data -> Data * nat;
  importFromJSON : list ProblemInput -> Data -> Data
}.

Definition jsonStore : Store := {|
  getAllProblemStatements := JsonStore.getAllProblemStatements;
  getProblemStatementById := JsonStore.getProblemStatementById;
  createProblemStatement := JsonStore.createProblemStatement;
  updateProblemStatement := JsonStore.updateProblemStatement;
  deleteProblemStatement := JsonStore.deleteProblemStatement;
  getAllRegistrations := JsonStore.getAllRegistrations;
  isTeamNumberTaken := JsonStore.isTeamNumberTaken;
  createRegistrationAtomic := JsonStore.createRegistrationAtomic;
  deleteRegistration := JsonStore.deleteRegistration;
  importFromJSON := JsonStore.importFromJSON
|}.

Definition mongoStore : Store := {|
  getAllProblemStatements := MongoStore.getAllProblemStatements;
  getProblemStatementById := MongoStore.getProblemStatementById;
  createProblemStatement := MongoStore.createProblemStatement;
  updateProblemStatement := MongoStore.updateProblemStatement;
  deleteProblemStatement := MongoStore.deleteProblemStatement;
  getAllRegistrations := MongoStore.getAllRegistrations;
  isTeamNumberTaken := MongoStore.isTeamNumberTaken;
  createRegistrationAtomic := MongoStore.createRegistrationAtomic;
  deleteRegistration := MongoStore.deleteRegistration;
  importFromJSON := MongoStore.importFromJSON
|}.

(** ** The handlers of [app.js] *)

Module App.

(** The answers of the handlers below, by status and message. *)
Inductive Response : Type :=
  | MissingFields400
  | TeamAlreadyRegistered409
  | ProblemNotFound404
  | FullOrAlreadyRegistered409
  | RegistrationSuccessful200 (registration : WriteResult) (problemStatement : ProblemStatement)
  | ProblemCreated201 (created : string).

(** [!s] for a string *)
Definition missing (s : string) : bool := String.eqb s "".

(** [app.post('/api/register', ...)] *)
Definition register (db : Store) (body : RegistrationRequest) (now : string)
    (data : Data) : Data * Response :=
  if missing (req_teamNumber body) || missing (req_teamName body)
     || missing (req_teamLeader body) || missing (req_problemStatementId body)
  then (data, MissingFields400)
  else if isTeamNumberTaken db (req_teamNumber body) data
  then (data, TeamAlreadyRegistered409)
  else
    match getProblemStatementById db (req_problemStatementId body) data with
    | None => (data, ProblemNotFound404)
    | Some ps =>
        match createRegistrationAtomic db body now data with
        | (data', None) => (data', FullOrAlreadyRegistered409)
        | (data', Some registration) =>
            (data', RegistrationSuccessful200 registration ps)
        end
    end.

(** [app.post('/api/problem-statements', ...)]: the result of the store is
    dropped. *)
Definition postProblemStatement (db : Store) (problemStatement : ProblemInput)
    (data : Data) : Data * Response :=
  let '(data', _) := createProblemStatement db problemStatement data in
  (data', ProblemCreated201 (in_id problemStatement)).

(** The requests that change the stored data. *)
Inductive Mutation : Type :=
  | Register (body : RegistrationRequest) (now : string)
  | DeleteRegistration (team : string)
  | CreateProblem (problemStatement : ProblemInput)
  | UpdateProblem (target : string) (updates : Updates)
  | DeleteProblem (target : string)
  | Import (items : list ProblemInput).

Definition run (db : Store) (m : Mutation) (data : Data) : Data :=
  match m with
  | Register body now => fst (register db body now data)
  | DeleteRegistration team => fst (deleteRegistration db team data)
  | CreateProblem p => fst (postProblemStatement db p data)
  | UpdateProblem target updates => fst (updateProblemStatement db target updates data)
  | DeleteProblem target => fst (deleteProblemStatement db target data)
  | Import items => importFromJSON db items data
  end.

Definition runAll (db : Store) (ms : list Mutation) (data : Data) : Data :=
  fold_left (fun d m => run db m d) ms data.

End App.

(** ** The team list of [app.js] *)

Module Teams.

(** A row of [teams.csv]. *)
Record Team : Type := {
  team_teamNumber : string;
  team_teamName : string;
  team_teamLeader : string
}.

(** [s.split(sep)] for a separator of one character: at least one piece. *)
Fixpoint split (sep : ascii) (s : string) : list string :=
  match s with
  | EmptyString => [EmptyString]
  | String c r =>
      if Ascii.eqb c sep then EmptyString :: split sep r
      else match split sep r with
           | piece :: rest => String c piece :: rest
           | [] => [String c EmptyString]
           end
  end.

(** The string without its last character when that is a carriage return. *)
Fixpoint chopCR (s : string) : string :=
  match s with
  | EmptyString => EmptyString
  | String c EmptyString => if Ascii.eqb c "013" then EmptyString else s
  | String c r => String c (chopCR r)
  end.

Fixpoint chopAllButLast (pieces : list string) : list string :=
  match pieces with
  | [] => []
  | [piece] => [piece]
  | piece :: rest => chopCR piece :: chopAllButLast rest
  end.

(** [content.split(/\r?\n/)]: the pieces between line feeds, a carriage
    return just before a line feed belonging to the separator. *)
Definition splitLines (content : string) : list string :=
  chopAllButLast (split "010" content).

(** The body of [rows.forEach]: a row of fewer than three fields, or with
    an empty team number, is skipped. *)
Definition addRow (map : gmap string Team) (line : string) : gmap string Team :=
  match split "," line with
  | p0 :: p1 :: p2 :: _ =>
      let teamNumber := trim p0 in
      let teamName := trim p1 in
      let teamLeader := trim p2 in
      if String.eqb teamNumber "" then map
      else <[teamNumber := {| team_teamNumber := teamNumber; team_teamName := teamName;
                              team_teamLeader := teamLeader |}]> map
  | _ => map
  end.

(** The rows of the file: its non-empty lines without the first one, the
    header. *)
Definition rowsOf (content : string) : list string :=
  match filter (fun line => line <> EmptyString) (splitLines content) with
  | [] => []
  | header :: rows => rows
  end.

(** [loadTeamsCSV]: [file] is the content of [teams.csv], [None] when the
    file does not exist. A header that differs from the expected one is
    reported and the rows are loaded all the same. *)
Definition loadTeamsCSV (file : option string) : gmap string Team :=
  match file with
  | None => ∅
  | Some content => fold_left addRow (rowsOf content) ∅
  end.

(** The answer of [GET /api/teams/:teamNumber]: [None] is 404. *)
Definition getTeam (teamNumberToTeam : gmap string Team) (teamNumber : string)
  : option Team := teamNumberToTeam !! trim teamNumber.

End Teams.

(** ** The administration handlers of [app.js] *)

Module Admin.

Inductive Response : Type :=
  | RegistrationNotFound404
  | RegistrationDeleted200.

(** [app.delete('/api/registration/:teamNumber', ...)] *)
Definition removeRegistration (db : Store) (teamNumber : string) (data : Data)
  : Data * Response :=
  let '(data', changes) := deleteRegistration db teamNumber data in
  if (changes =? 0)%nat then (data', RegistrationNotFound404)
  else (data', RegistrationDeleted200).

(** The [summary] of [GET /api/export/all/json]. *)
Record Summary : Type := {
  totalProblems : nat;
  totalRegistrations : nat;
  availableProblems : nat;
  fullProblems : nat
}.

Definition exportSummary (db : Store) (data : Data) : Summary :=
  let problems := getAllProblemStatements db data in
  let registrations := getAllRegistrations db data in
  {| totalProblems := length problems;
     totalRegistrations := length registrations;
     availableProblems := length (filter (fun p => is_available p = true) problems);
     fullProblems := length (filter (fun p => is_available p <> true) problems) |}.

End Admin.

(** ** The start of [app.js] *)

(** [initializeDatabase]: [file] is what the store holds before [db.init()],
    [dataFile] the problem statements of [data.json] as parsed, [None] when
    the file does not exist. The store of [app.js] is the file store. *)
Definition initializeDatabase (file : option Data) (dataFile : option (list ProblemInput))
  : Data :=
  let initialised := JsonStore.init file in
  match dataFile with
  | None => initialised
  | Some items =>
      let existingProblems := JsonStore.getAllProblemStatements initialised in
      if (length existingProblems =? 0)%nat && (0 <? length items)%nat
      then JsonStore.importFromJSON items initialised
      else initialised
  end.

(** ** Sample data *)

Definition sampleProblem (pid : string) (max : value) : ProblemStatement :=
  {| id := pid; title := VStr "Secure Authentication System";
     description := VStr "Design and implement"; maxSelections := max;
     category := VStr "Cybersecurity"; difficulty := VStr "Advanced";
     technologies := ["Node.js"; "React"; "JWT"] |}.

Definition sampleInput (pid : string) (max : value) : ProblemInput :=
  {| in_id := pid; in_title := VStr "Secure Authentication System";
     in_description := VStr "Design and implement"; in_maxSelections := max;
     in_category := VStr "Cybersecurity"; in_difficulty := VStr "Advanced";
     in_technologies := VArr ["Node.js"; "React"; "JWT"] |}.

Definition sampleRegistration (team pid : string) : Registration :=
  {| teamNumber := team; teamName := "Alpha"; teamLeader := "Ada";
     problemStatementId := pid; registrationDateTime := "2025-01-01T00:00:00.000Z" |}.

Definition sampleRequest (team pid : string) : RegistrationRequest :=
  {| req_teamNumber := team; req_teamName := "Beta"; req_teamLeader := "Bob";
     req_problemStatementId := pid |}.

(** One statement with room for two teams, and both places taken. *)
Definition fullData : Data :=
  {| problemStatements := [sampleProblem "ps001" (VNum 2)];
     registrations := [sampleRegistration "T1" "ps001"; sampleRegistration "T2" "ps001"] |}.

(** The update [{ maxSelections: 1 }]. *)
Definition lowerTo1 : Updates :=
  {| u_title := VUndef; u_description := VUndef; u_max_selections := VUndef;
     u_maxSelections := VNum 1; u_category := VUndef; u_difficulty := VUndef;
     u_technologies := VUndef |}.

(** One statement with room for two teams and no registration yet. *)
Definition openData : Data :=
  {| problemStatements := [sampleProblem "ps001" (VNum 2)]; registrations := [] |}.

(** Two requests of team T1 for ps001 that differ in the team name. *)
Definition alphaRequest : RegistrationRequest :=
  {| req_teamNumber := "T1"; req_teamName := "Alpha"; req_teamLeader := "Ada";
     req_problemStatementId := "ps001" |}.

Definition gammaRequest : RegistrationRequest :=
  {| req_teamNumber := "T1"; req_teamName := "Gamma"; req_teamLeader := "Ada";
     req_problemStatementId := "ps001" |}.

(** The update [{ title: ... }] with the title ps001 already has. *)
Definition sameTitle : Updates :=
  {| u_title := VStr "Secure Authentication System"; u_description := VUndef;
     u_max_selections := VUndef; u_maxSelections := VUndef; u_category := VUndef;
     u_difficulty := VUndef; u_technologies := VUndef |}.

(** ps001 with room for two teams and team T1 registered. *)
Definition takenData : Data :=
  {| problemStatements := [sampleProblem "ps001" (VNum 2)];
     registrations := [sampleRegistration "T1" "ps001"] |}.

(** A statement stored with [maxSelections] 0 and no registration. *)
Definition zeroData : Data :=
  {| problemStatements := [sampleProblem "ps900" (VNum 0)]; registrations := [] |}.

(** ps001 with [maxSelections] 2.5 and two registrations. *)
Definition fractionData : Data :=
  {| problemStatements := [sampleProblem "ps001" (VNum (5 # 2))];
     registrations := [sampleRegistration "T1" "ps001"; sampleRegistration "T2" "ps001"] |}.

(** Two statements under the identifier ps001, with room for two teams and
    for one, and team T1 registered. *)
Definition doubleData : Data :=
  {| problemStatements := [sampleProblem "ps001" (VNum 2); sampleProblem "ps001" (VNum 1)];
     registrations := [sampleRegistration "T1" "ps001"] |}.

(** A [teams.csv] of a header and two rows, the first line ended by a
    carriage return and a line feed. *)
Definition sampleTeamsFile : string :=
  String.append "teamNumber,teamName,teamLeader"
    (String "013" (String "010"
       (String.append "T1, Alpha ,Ann" (String "010" "T2,Beta, Bob")))).

Definition teamT1 : Teams.Team :=
  {| Teams.team_teamNumber := "T1"; Teams.team_teamName := "Alpha";
     Teams.team_teamLeader := "Ann" |}.

(** ** Vocabulary of the properties *)

(** A store together with the way it writes a team number down: the file
    store as it came, the Mongo store trimmed. *)
Record Backend : Type := {
  store :> Store;
  storedTeamNumber : string -> string
}.

Definition jsonBackend : Backend :=
  {| store := jsonStore; storedTeamNumber := fun team => team |}.

Definition mongoBackend : Backend :=
  {| store := mongoStore; storedTeamNumber := trim |}.

(** The two implementations of the store interface. *)
Definition backends : list Backend := [jsonBackend; mongoBackend].

(** The number of Ledger entries that reference a problem statement. *)
Definition ledgerCount (pid : string) (data : Data) : nat :=
  length (filter (fun r => problemStatementId r = pid) (registrations data)).

(** [n <= v] for a count and a stored [maxSelections] that is a number. *)
Definition withinCapacity (n : nat) (v : value) : Prop :=
  exists q, v = VNum q /\ (inject_Z (Z.of_nat n) <= q)%Q.

(** Invariant 2 of the data model: no problem statement holds more
    registrations than its [maxSelections]. *)
Definition capacityInvariant (data : Data) : Prop :=
  forall p, p ∈ problemStatements data ->
    withinCapacity (ledgerCount (id p) data) (maxSelections p).

(** A [maxSelections] of the type the data model gives it: a positive
    integer. *)
Definition positiveInteger (v : value) : Prop :=
  exists q z, v = VNum q /\ (q == inject_Z z)%Q /\ 1 <= z.

(** A [maxSelections] that is a whole number. *)
Definition wholeNumber (v : value) : Prop :=
  exists q z, v = VNum q /\ (q == inject_Z z)%Q.

(** Some required field of the request is missing. *)
Definition incomplete (body : RegistrationRequest) : bool :=
  App.missing (req_teamNumber body) || App.missing (req_teamName body)
  || App.missing (req_teamLeader body) || App.missing (req_problemStatementId body).

(** The frame of an update: [p'] has the identifier of [p] and the value
    [p] has in every field [updates] does not provide ([max_selections] and
    [maxSelections] both name the field [maxSelections]). *)
Definition untouched (p : ProblemStatement) (updates : Updates) (p' : ProblemStatement)
  : Prop :=
  id p' = id p
  /\ (u_title updates = VUndef -> title p' = title p)
  /\ (u_description updates = VUndef -> description p' = description p)
  /\ (u_max_selections updates = VUndef -> u_maxSelections updates = VUndef ->
      maxSelections p' = maxSelections p)
  /\ (u_category updates = VUndef -> category p' = category p)
  /\ (u_difficulty updates = VUndef -> difficulty p' = difficulty p)
  /\ (u_technologies updates = VUndef -> technologies p' = technologies p).

(** The mutations that spare the registration [r]: every one except the
    deletion of [r]'s team and the deletion of the problem statement [r]
    refers to, which cascades to [r]. *)
Definition sparing (db : Backend) (r : Registration) (m : App.Mutation) : Prop :=
  match m with
  | App.DeleteRegistration team => storedTeamNumber db team <> teamNumber r
  | App.DeleteProblem target => target <> problemStatementId r
  | _ => True
  end.

(** Every team number in the Ledger is as the store writes team numbers
    down (on the Mongo store: trimmed). *)
Definition ledgerAsWritten (db : Backend) (data : Data) : Prop :=
  forall r, r ∈ registrations data -> storedTeamNumber db (teamNumber r) = teamNumber r.

(** Invariant 1 of the data model: one registration per team number. *)
Definition uniqueTeams (data : Data) : Prop :=
  NoDup (teamNumber <$> registrations data).

(** The identifiers of the Catalog are unique. *)
Definition uniqueIds (data : Data) : Prop :=
  NoDup (id <$> problemStatements data).

(** Invariant 3 of the data model: every registration refers to a stored
    problem statement. *)
Definition referentiallyValid (data : Data) : Prop :=
  forall r, r ∈ registrations data ->
    problemStatementId r ∈ (id <$> problemStatements data).

(** An import whose items carry different identifiers. *)
Definition distinctImport (m : App.Mutation) : Prop :=
  match m with
  | App.Import items => NoDup (in_id <$> items)
  | _ => True
  end.

(** Every stored [maxSelections] is a number that is at least 1. *)
Definition capacitiesNormalised (data : Data) : Prop :=
  forall p, p ∈ problemStatements data ->
    exists q, maxSelections p = VNum q /\ (1 <= q)%Q.

(** The states the capacity invariant is kept on: identifiers are unique,
    every [maxSelections] is a number of the kind [typed], and no problem
    statement holds more registrations than its [maxSelections]. *)
Definition capacitySound (typed : value -> Prop) (data : Data) : Prop :=
  uniqueIds data
  /\ (forall p, p ∈ problemStatements data -> typed (maxSelections p))
  /\ capacityInvariant data.

(** The mutations that write no [maxSelections] down but a number of the
    kind [typed] that is not below the number of registrations which refer
    to the identifier: [merge] and [stored] are the store's ways of building
    the updated and the new record, and a record is new when its identifier
    is not stored. *)
Definition keepsCapacity (typed : value -> Prop)
    (merge : ProblemStatement -> Updates -> ProblemStatement)
    (stored : ProblemInput -> ProblemStatement) (data : Data) (m : App.Mutation) : Prop :=
  match m with
  | App.UpdateProblem target updates =>
      forall p, p ∈ problemStatements data -> id p = target ->
        typed (maxSelections (merge p updates))
        /\ withinCapacity (ledgerCount target data) (maxSelections (merge p updates))
  | App.CreateProblem p =>
      in_id p ∉ (id <$> problemStatements data) ->
      typed (maxSelections (stored p))
      /\ withinCapacity (ledgerCount (in_id p) data) (maxSelections (stored p))
  | App.Import items =>
      forall p, p ∈ items -> in_id p ∉ (id <$> problemStatements data) ->
        typed (maxSelections (stored p))
        /\ withinCapacity (ledgerCount (in_id p) data) (maxSelections (stored p))
  | _ => True
  end.

(** On the file store, which keeps every number as it came and checks an
    import against the stored identifiers only. *)
Definition jsonKeeps (data : Data) (m : App.Mutation) : Prop :=
  keepsCapacity wholeNumber JsonStore.merge JsonStore.stored data m /\ distinctImport m.

(** On the Mongo store, which compares with [Math.max(1, maxSelections)]. *)
Definition mongoKeeps (data : Data) (m : App.Mutation) : Prop :=
  keepsCapacity positiveInteger (fun p u => MongoStore.applySet u p) MongoStore.stored data m.

(** A sequence of mutations each of which is of that kind in the state it
    is applied to. *)
Fixpoint keepsAll (keeps : Data -> App.Mutation -> Prop) (db : Store) (data : Data)
    (ms : list App.Mutation) : Prop :=
  match ms with
  | [] => True
  | m :: rest => keeps data m /\ keepsAll keeps db (App.run db m data) rest
  end.

(** The team list holds trimmed rows under their own team number. *)
Definition teamsWellFormed (map : gmap string Teams.Team) : Prop :=
  forall k team,
    map !! k = Some team ->
    Teams.team_teamNumber team = k /\ k <> "" /\ trim k = k
    /\ trim (Teams.team_teamName team) = Teams.team_teamName team
    /\ trim (Teams.team_teamLeader team) = Teams.team_teamLeader team.

(** ** Arrays, maps and white space: basic facts *)

Example parseInt_examples :
  parseInt "42" = Some 42 /\ parseInt "  -7abc" = Some (-7) /\
  parseInt "abc" = None /\ parseInt "" = None /\ parseInt "2.5" = Some 2 /\
  parseInt "1e3" = Some 1 /\ parseInt "true" = None /\ parseInt "+" = None.
Proof. repeat split; reflexivity. Qed.

Example trim_examples :
  trim "  T1 " = "T1" /\ trim "   " = "" /\ trim "a b" = "a b" /\
  trim "T1" = "T1".
Proof. repeat split; reflexivity. Qed.

Example StringToNumber_examples :
  number_eqb (StringToNumber "3") (Fin 3) = true /\
  number_eqb (StringToNumber " 12 ") (Fin 12) = true /\
  number_eqb (StringToNumber "") (Fin 0) = true /\
  StringToNumber "abc" = NaN /\ StringToNumber "3abc" = NaN /\
  number_eqb (StringToNumber "2.5") (Fin (5 # 2)) = true /\
  number_eqb (StringToNumber "-1e3") (Fin (-1000)) = true /\
  number_eqb (StringToNumber ".5e1") (Fin 5) = true /\
  number_eqb (StringToNumber "5.") (Fin 5) = true /\
  number_eqb (StringToNumber "0x1F") (Fin 31) = true /\
  StringToNumber "." = NaN /\ StringToNumber "e5" = NaN /\
  StringToNumber "-0x10" = NaN /\ StringToNumber "1e" = NaN /\
  StringToNumber "-Infinity" = NegInf /\ StringToNumber "Infinity" = PosInf.
Proof. repeat split; vm_compute; reflexivity. Qed.

Section ArrayFacts.
Context {A : Type} (P : A -> Prop) `{!forall x, Decision (P x)}.

Lemma some_true (l : list A) : some P l = true <-> exists x, x ∈ l /\ P x.
Proof. unfold some. rewrite bool_decide_eq_true, Exists_exists. done. Qed.

Lemma some_false (l : list A) : some P l = false <-> forall x, x ∈ l -> ~ P x.
Proof.
  unfold some. rewrite bool_decide_eq_false, Exists_exists. split.
  - intros Hno x Hx HP. apply Hno. eauto.
  - intros Hno (x & Hx & HP). by eapply Hno.
Qed.

Lemma find_Some (l : list A) (x : A) : find P l = Some x -> x ∈ l /\ P x.
Proof.
  unfold find. intros [[i y] [Hf ->]]%fmap_Some.
  apply list_find_Some in Hf as (Hl & HP & _).
  split; [by eapply list_elem_of_lookup_2 | done].
Qed.

Lemma find_None (l : list A) : find P l = None <-> forall x, x ∈ l -> ~ P x.
Proof.
  unfold find. rewrite fmap_None, list_find_None, Forall_forall. done.
Qed.

Lemma find_some (l : list A) : some P l = bool_decide (is_Some (find P l)).
Proof.
  destruct (find P l) as [x|] eqn:Hf.
  - apply find_Some in Hf. rewrite bool_decide_eq_true_2 by eauto.
    apply some_true. eauto.
  - rewrite bool_decide_eq_false_2 by (intros [? ?]; done).
    apply some_false. by apply find_None.
Qed.
End ArrayFacts.

Arguments some_true {A} P {_} l.
Arguments some_false {A} P {_} l.
Arguments find_Some {A} P {_} l x.
Arguments find_None {A} P {_} l.
Arguments find_some {A} P {_} l.

(** The entry of the counting [Map] is the number of matching entries. *)
Lemma countByProblem_fold (regs : list Registration) (m : gmap string nat) (k : string) :
  default 0%nat
    (fold_left
       (fun m r => <[problemStatementId r := (default 0 (m !! problemStatementId r) + 1)%nat]> m)
       regs m !! k)
  = (default 0 (m !! k)
     + length (filter (fun r => problemStatementId r = k) regs))%nat.
Proof.
  revert m. induction regs as [|r regs IH]; intros m; simpl.
  - lia.
  - rewrite IH. rewrite filter_cons. destruct (decide (problemStatementId r = k)) as [->|Hne].
    + rewrite lookup_insert_eq. simpl. lia.
    + rewrite lookup_insert_ne by done. lia.
Qed.

Lemma countByProblem_lookup (data : Data) (k : string) :
  default 0%nat (countByProblem (registrations data) !! k) = ledgerCount k data.
Proof.
  unfold countByProblem, ledgerCount. rewrite countByProblem_fold, lookup_empty. done.
Qed.

(** A property of both stores. *)
Lemma on_backends (P : Backend -> Prop) :
  P jsonBackend -> P mongoBackend -> Forall P backends.
Proof. intros Hj Hm. unfold backends. by repeat apply Forall_cons_2. Qed.

Lemma backends_json (P : Backend -> Prop) : Forall P backends -> P jsonBackend.
Proof. intros HP. by apply Forall_cons in HP as [HP _]. Qed.

Lemma backends_mongo (P : Backend -> Prop) : Forall P backends -> P mongoBackend.
Proof.
  intros HP. apply Forall_cons in HP as [_ HP]. by apply Forall_cons in HP as [HP _].
Qed.

Lemma in_backends (db : Backend) :
  db ∈ backends -> db = jsonBackend \/ db = mongoBackend.
Proof.
  unfold backends. intros [-> | Hdb]%elem_of_cons; [by left|].
  apply list_elem_of_singleton in Hdb. by right.
Qed.

(** ** Numbers and capacities: basic facts *)

Lemma Qltb_true (p q : Q) : Qltb p q = true <-> (p < q)%Q.
Proof.
  unfold Qltb. rewrite negb_true_iff. split.
  - intros Hb. apply Qnot_le_lt. intros Hle%Qle_bool_iff. congruence.
  - intros Hlt. apply not_true_is_false. intros Hle%Qle_bool_iff.
    by apply Qlt_not_le in Hlt.
Qed.

Lemma Qltb_false (p q : Q) : Qltb p q = false <-> (q <= p)%Q.
Proof.
  unfold Qltb. rewrite negb_false_iff. apply Qle_bool_iff.
Qed.

Lemma count_ge_num (n : nat) (q : Q) :
  count_ge n (VNum q) = negb (count_lt n (VNum q)).
Proof. reflexivity. Qed.

Lemma count_lt_num (n : nat) (q : Q) :
  count_lt n (VNum q) = true <-> (inject_Z (Z.of_nat n) < q)%Q.
Proof. apply Qltb_true. Qed.

Lemma withinCapacity_num (n : nat) (q : Q) :
  withinCapacity n (VNum q) <-> (inject_Z (Z.of_nat n) <= q)%Q.
Proof.
  split.
  - intros (q' & [= <-] & Hle). done.
  - intros Hle. by exists q.
Qed.

Lemma withinCapacity_mono (n n' : nat) (v : value) :
  (n' <= n)%nat -> withinCapacity n v -> withinCapacity n' v.
Proof.
  intros Hn (q & -> & Hle). exists q. split; [done|].
  eapply Qle_trans; [|exact Hle]. rewrite <- Zle_Qle. lia.
Qed.

(** One more registration fits under an integer capacity that the count has
    not reached. *)
Lemma withinCapacity_succ (n : nat) (q : Q) (z : Z) :
  (q == inject_Z z)%Q -> count_ge n (VNum q) = false ->
  withinCapacity (S n) (VNum q).
Proof.
  intros Hq Hge. rewrite count_ge_num, negb_false_iff, count_lt_num in Hge.
  apply withinCapacity_num. rewrite Hq in *. rewrite <- Zlt_Qlt in Hge.
  rewrite <- Zle_Qle. lia.
Qed.

Lemma max1_ge_1 (q : Q) : (1 <= MongoStore.max1 q)%Q.
Proof.
  unfold MongoStore.max1. destruct (Qle_bool q 1) eqn:Hb.
  - apply Qle_refl.
  - apply Qlt_le_weak, Qnot_le_lt. intros Hle%Qle_bool_iff. congruence.
Qed.

Lemma max1_id (q : Q) : (1 <= q)%Q -> (MongoStore.max1 q == q)%Q.
Proof.
  intros Hq. unfold MongoStore.max1. destruct (Qle_bool q 1) eqn:Hb; [|reflexivity].
  apply Qle_bool_iff in Hb. by apply Qle_antisym.
Qed.

Lemma positiveInteger_ge_1 (q : Q) : positiveInteger (VNum q) -> (1 <= q)%Q.
Proof.
  intros (q' & z & [= <-] & Hq & Hz). rewrite Hq.
  change (inject_Z 1 <= inject_Z z)%Q. by rewrite <- Zle_Qle.
Qed.

(** ** Projection correctness *)

(** C6, as the code has it. On either store, [getAllProblemStatements]
    returns one view per stored problem statement, in order, and the view's
    [selected_count] is the number of Ledger entries whose
    [problemStatementId] is its id. For a stored [maxSelections] that is a
    number [q]: the file store reports [max_selections] [q] and
    [is_available] true exactly when [selected_count < q]; the Mongo store
    reports [Math.max(1, q)] as [max_selections] and [is_available] true
    exactly when [selected_count] is below that, that is, when
    [selected_count < q] or nothing is selected. *)
Theorem projection_correct :
  Forall (fun db : Backend =>
    forall data : Data,
      pv_id <$> getAllProblemStatements db data = id <$> problemStatements data
      /\ Forall (fun v => selected_count v = ledgerCount (pv_id v) data)
                (getAllProblemStatements db data))
    backends
  /\ (forall data i p q,
        problemStatements data !! i = Some p -> maxSelections p = VNum q ->
        exists v,
          getAllProblemStatements jsonStore data !! i = Some v
          /\ selected_count v = ledgerCount (id p) data
          /\ max_selections v = VNum q
          /\ (is_available v = true
              <-> (inject_Z (Z.of_nat (selected_count v)) < q)%Q))
  /\ (forall data i p q,
        problemStatements data !! i = Some p -> maxSelections p = VNum q ->
        exists v m,
          getAllProblemStatements mongoStore data !! i = Some v
          /\ selected_count v = ledgerCount (id p) data
          /\ max_selections v = VNum m
          /\ ((1 <= q)%Q -> (m == q)%Q)
          /\ ((q <= 1)%Q -> (m == 1)%Q)
          /\ (is_available v = true
              <-> (inject_Z (Z.of_nat (selected_count v)) < m)%Q)
          /\ (is_available v = true
              <-> (inject_Z (Z.of_nat (selected_count v)) < q)%Q
                  \/ selected_count v = 0%nat)).
Proof.
  split_and!.
  - apply on_backends; intros data; split; simpl.
    + unfold JsonStore.getAllProblemStatements. rewrite <- list_fmap_compose. done.
    + unfold JsonStore.getAllProblemStatements. apply Forall_fmap, Forall_forall.
      intros p _. simpl. apply countByProblem_lookup.
    + unfold MongoStore.getAllProblemStatements. rewrite <- list_fmap_compose. done.
    + unfold MongoStore.getAllProblemStatements. apply Forall_fmap, Forall_forall.
      intros p _. simpl. apply countByProblem_lookup.
  - intros data i p q Hi Hq. simpl. unfold JsonStore.getAllProblemStatements.
    rewrite list_lookup_fmap, Hi. simpl. eexists. split; [done|]. simpl.
    rewrite Hq, countByProblem_lookup. split_and!; [done | done |].
    apply count_lt_num.
  - intros data i p q Hi Hq. simpl. unfold MongoStore.getAllProblemStatements.
    rewrite list_lookup_fmap, Hi. simpl. eexists. exists (MongoStore.max1 q).
    split; [done|]. simpl. rewrite Hq, countByProblem_lookup.
    change (MongoStore.maxSel (VNum q)) with (MongoStore.max1 q).
    split_and!; [done | done | apply max1_id | | apply count_lt_num |].
    + intros Hle. unfold MongoStore.max1. apply Qle_bool_iff in Hle. by rewrite Hle.
    + rewrite count_lt_num. unfold MongoStore.max1.
      destruct (Qle_bool q 1) eqn:Hb.
      * apply Qle_bool_iff in Hb.
        assert ((inject_Z (Z.of_nat (ledgerCount (id p) data)) < 1)%Q
                <-> ledgerCount (id p) data = 0%nat) as Hzero.
        { change 1%Q with (inject_Z 1). rewrite <- Zlt_Qlt. lia. }
        rewrite Hzero. split; [by right|]. intros [Hlt | Hz]; [|done].
        apply Hzero. by eapply Qlt_le_trans.
      * split; [by left|]. intros [Hlt | Hz]; [done|]. rewrite Hz.
        apply Qnot_le_lt. intros Hle. apply Qle_bool_iff in Hle.
        unfold Qle_bool in *. simpl in *. destruct q as [a b]. simpl in *.
        apply Z.leb_le in Hle. apply Z.leb_gt in Hb. lia.
Qed.

(** The theorem at ps001 of the sample with one registration, which has
    room for two: both stores list it as available. *)
Lemma projection_correct_witness :
  (exists v, getAllProblemStatements jsonStore takenData !! 0%nat = Some v
             /\ selected_count v = 1%nat /\ is_available v = true)
  /\ (exists v, getAllProblemStatements mongoStore takenData !! 0%nat = Some v
                /\ selected_count v = 1%nat /\ is_available v = true).
Proof.
  destruct projection_correct as (_ & Hjson & Hmongo). split.
  - destruct (Hjson takenData 0%nat (sampleProblem "ps001" (VNum 2)) 2%Q eq_refl eq_refl)
      as (v & Hv & Hcount & _ & Havailable).
    exists v. split_and!; [done | by rewrite Hcount |].
    apply Havailable. by rewrite Hcount.
  - destruct (Hmongo takenData 0%nat (sampleProblem "ps001" (VNum 2)) 2%Q eq_refl eq_refl)
      as (v & m & Hv & Hcount & _ & _ & _ & _ & Havailable).
    exists v. split_and!; [done | by rewrite Hcount |].
    apply Havailable. left. by rewrite Hcount.
Defined.

(** C6, as stated, fails on the Mongo store: a problem statement stored
    with [maxSelections] 0 and no registration is listed with
    [max_selections] 1 and [is_available] true, though 0 is not below 0. The
    file store lists it with [max_selections] 0 and [is_available]
    false. *)
Lemma mongo_lists_zero_as_available :
  maxSelections <$> problemStatements zeroData = [VNum 0]
  /\ (fun v => (selected_count v, max_selections v, is_available v))
       <$> getAllProblemStatements mongoStore zeroData
     = [(0%nat, VNum 1, true)]
  /\ (fun v => (selected_count v, max_selections v, is_available v))
       <$> getAllProblemStatements jsonStore zeroData
     = [(0%nat, VNum 0, false)]
  /\ ~ (inject_Z (Z.of_nat 0) < 0)%Q.
Proof. split_and!; [reflexivity | reflexivity | reflexivity | by intros Hlt]. Qed.

(** ** The Ledger count under the writes *)

Section Counting.
Context {A : Type} (P : A -> Prop) `{!forall x, Decision (P x)}.

Lemma filter_sublist_mono (l1 l2 : list A) :
  l1 `sublist_of` l2 -> filter P l1 `sublist_of` filter P l2.
Proof.
  induction 1 as [|x l1 l2 _ IH|x l1 l2 _ IH]; [done | |];
    rewrite ?filter_cons; destruct (decide (P x));
    auto using sublist_skip, sublist_cons.
Qed.

Lemma length_filter_sublist (l1 l2 : list A) :
  l1 `sublist_of` l2 -> (length (filter P l1) <= length (filter P l2))%nat.
Proof. intros Hs. by apply sublist_length, filter_sublist_mono. Qed.

Lemma length_filter_none (l : list A) :
  (forall x, x ∈ l -> ~ P x) -> length (filter P l) = 0%nat.
Proof.
  intros Hno. destruct (filter P l) as [|x k] eqn:Hf; [done|].
  assert (x ∈ filter P l) as [HP Hx]%list_elem_of_filter by (rewrite Hf; left).
  by destruct (Hno x Hx).
Qed.
End Counting.

Arguments filter_sublist_mono {A} P {_} l1 l2.
Arguments length_filter_sublist {A} P {_} l1 l2.
Arguments length_filter_none {A} P {_} l.

Lemma ledgerCount_push (ps : list ProblemStatement) (regs : list Registration)
    (r : Registration) (k : string) :
  ledgerCount k {| problemStatements := ps; registrations := regs ++ [r] |}
  = (ledgerCount k {| problemStatements := ps; registrations := regs |}
     + if decide (problemStatementId r = k) then 1 else 0)%nat.
Proof.
  unfold ledgerCount. simpl. rewrite filter_app, length_app, filter_cons.
  by destruct (decide (problemStatementId r = k)).
Qed.

(** Dropping statements and registrations keeps the invariant. *)
Lemma capacity_shrink (data data' : Data) :
  (forall p, p ∈ problemStatements data' -> p ∈ problemStatements data) ->
  registrations data' `sublist_of` registrations data ->
  capacityInvariant data -> capacityInvariant data'.
Proof.
  intros Hps Hregs Hinv p Hp. eapply withinCapacity_mono; [|by apply Hinv, Hps].
  by apply length_filter_sublist.
Qed.

(** Two stored statements with one identifier are one statement. *)
Lemma unique_id (data : Data) (p p' : ProblemStatement) :
  uniqueIds data -> p ∈ problemStatements data -> p' ∈ problemStatements data ->
  id p = id p' -> p = p'.
Proof.
  intros Hnd [i Hi]%list_elem_of_lookup_1 [j Hj]%list_elem_of_lookup_1 Hid.
  assert (i = j) as ->; [|congruence].
  eapply NoDup_lookup; [exact Hnd | |].
  - rewrite list_lookup_fmap, Hi. reflexivity.
  - rewrite list_lookup_fmap, Hj. simpl. by rewrite Hid.
Qed.

(** ** What [createRegistrationAtomic] does, case by case *)

(** The file store either returns [null] and writes nothing, or it found
    no registration of the team, found the statement [p] below its capacity,
    and pushed the new record. *)
Lemma json_register_outcome (body : RegistrationRequest) (now : string) (data : Data) :
  JsonStore.createRegistrationAtomic body now data = (data, None)
  \/ exists p,
      find (fun p => id p = req_problemStatementId body) (problemStatements data) = Some p
      /\ JsonStore.isTeamNumberTaken (req_teamNumber body) data = false
      /\ count_ge (ledgerCount (id p) data) (maxSelections p) = false
      /\ JsonStore.createRegistrationAtomic body now data
         = ({| problemStatements := problemStatements data;
               registrations :=
                 registrations data ++ [newRegistration (req_teamNumber body) body now] |},
            Some {| res_id := req_teamNumber body; changes := 1 |}).
Proof.
  unfold JsonStore.createRegistrationAtomic, JsonStore.isTeamNumberTaken.
  destruct (some _ (registrations data)) eqn:Htaken; [by left|].
  destruct (find _ (problemStatements data)) as [p|] eqn:Hfind; [|by left].
  fold (ledgerCount (id p) data).
  destruct (count_ge _ _) eqn:Hfull; [by left|].
  right. exists p. done.
Qed.

Lemma mongo_taken (team : string) (data : Data) :
  MongoStore.isTeamNumberTaken team data
  = some (fun r => teamNumber r = trim team) (registrations data).
Proof.
  unfold MongoStore.isTeamNumberTaken, Collection.findOne. rewrite find_some.
  destruct (find _ _); [by rewrite bool_decide_eq_true_2 by eauto|].
  by rewrite bool_decide_eq_false_2 by (intros [? ?]; done).
Qed.

(** The same for the Mongo store, with the trimmed team number and the
    clamped capacity; the unique index never fires after the lookup. *)
Lemma mongo_register_outcome (body : RegistrationRequest) (now : string) (data : Data) :
  MongoStore.createRegistrationAtomic body now data = (data, None)
  \/ exists p,
      find (fun p => id p = req_problemStatementId body) (problemStatements data) = Some p
      /\ MongoStore.isTeamNumberTaken (req_teamNumber body) data = false
      /\ count_ge (ledgerCount (id p) data)
                  (VNum (MongoStore.maxSel (maxSelections p))) = false
      /\ MongoStore.createRegistrationAtomic body now data
         = ({| problemStatements := problemStatements data;
               registrations :=
                 registrations data
                 ++ [newRegistration (trim (req_teamNumber body)) body now] |},
            Some {| res_id := trim (req_teamNumber body); changes := 1 |}).
Proof.
  rewrite mongo_taken.
  unfold MongoStore.createRegistrationAtomic, Collection.findOne,
    Collection.countDocuments, Collection.insertOne.
  destruct (find _ (registrations data)) as [r|] eqn:Htaken; [by left|].
  destruct (find _ (problemStatements data)) as [p|] eqn:Hfind; [|by left].
  fold (ledgerCount (id p) data).
  destruct (count_ge _ _) eqn:Hfull; [by left|].
  assert (some (fun r => teamNumber r = trim (req_teamNumber body)) (registrations data)
          = false) as Hfree.
  { apply some_false. exact (proj1 (find_None _ _) Htaken). }
  simpl. rewrite Hfree. right. exists p. done.
Qed.

(** Pushing a registration for a statement that has room keeps the
    invariant. *)
Lemma capacity_push (data : Data) (p : ProblemStatement) (r : Registration) :
  uniqueIds data -> capacityInvariant data ->
  p ∈ problemStatements data -> problemStatementId r = id p ->
  withinCapacity (S (ledgerCount (id p) data)) (maxSelections p) ->
  capacityInvariant
    {| problemStatements := problemStatements data;
       registrations := registrations data ++ [r] |}.
Proof.
  intros Hnd Hinv Hp Hr Hroom p' Hp'. simpl in Hp'. rewrite ledgerCount_push.
  destruct data as [ps regs]. simpl in *.
  destruct (decide (problemStatementId r = id p')) as [Heq|Hne].
  - assert (p' = p) as -> by (eapply unique_id; eauto; congruence).
    by rewrite Nat.add_1_r.
  - rewrite Nat.add_0_r. by apply Hinv.
Qed.

Lemma json_register_capacity (body : RegistrationRequest) (now : string) (data : Data) :
  uniqueIds data ->
  (forall p, p ∈ problemStatements data -> wholeNumber (maxSelections p)) ->
  capacityInvariant data ->
  capacityInvariant (fst (JsonStore.createRegistrationAtomic body now data)).
Proof.
  intros Hnd Htyped Hinv.
  destruct (json_register_outcome body now data)
    as [-> | (p & [Hp Hid]%find_Some & _ & Hroom & ->)]; [done|].
  simpl. apply capacity_push with p; [done..|].
  destruct (Htyped p Hp) as (q & z & Hq & Hz).
  rewrite Hq in *. by eapply withinCapacity_succ.
Qed.

Lemma mongo_register_capacity (body : RegistrationRequest) (now : string) (data : Data) :
  uniqueIds data ->
  (forall p, p ∈ problemStatements data -> positiveInteger (maxSelections p)) ->
  capacityInvariant data ->
  capacityInvariant (fst (MongoStore.createRegistrationAtomic body now data)).
Proof.
  intros Hnd Htyped Hinv.
  destruct (mongo_register_outcome body now data)
    as [-> | (p & [Hp Hid]%find_Some & _ & Hroom & ->)]; [done|].
  simpl. apply capacity_push with p; [done..|].
  pose proof (Htyped p Hp) as Hpos.
  destruct Hpos as (q & z & Hq & Hz & Hz1). rewrite Hq in *.
  assert (1 <= q)%Q as Hq1 by (apply positiveInteger_ge_1; by exists q, z).
  unfold MongoStore.maxSel in Hroom. simpl in Hroom.
  apply withinCapacity_num.
  rewrite <- (max1_id q Hq1). apply withinCapacity_num.
  eapply withinCapacity_succ; [|exact Hroom]. by rewrite max1_id.
Qed.

(** ** The capacity invariant under the other writes *)

Lemma elem_of_insert_inv {A} (l : list A) (i : nat) (x y : A) :
  y ∈ <[i := x]> l -> y = x \/ y ∈ l.
Proof.
  intros [j Hj]%list_elem_of_lookup_1.
  apply list_lookup_insert_Some in Hj as [(_ & -> & _) | (_ & Hj)]; [by left|].
  right. by eapply list_elem_of_lookup_2.
Qed.

(** Replacing the catalog by statements that are either stored already or
    within capacity keeps the invariant. *)
Lemma capacity_replace (data : Data) (ps' : list ProblemStatement) :
  capacityInvariant data ->
  (forall x, x ∈ ps' ->
     x ∈ problemStatements data
     \/ withinCapacity (ledgerCount (id x) data) (maxSelections x)) ->
  capacityInvariant {| problemStatements := ps'; registrations := registrations data |}.
Proof.
  intros Hinv Hps x Hx. change (withinCapacity (ledgerCount (id x) data) (maxSelections x)).
  destruct (Hps x Hx) as [Hold | Hnew]; [by apply Hinv | done].
Qed.

Lemma register_state (db : Store) (body : RegistrationRequest) (now : string)
    (data : Data) :
  fst (App.register db body now data) = data
  \/ fst (App.register db body now data) = fst (createRegistrationAtomic db body now data).
Proof.
  unfold App.register.
  destruct (_ || _); [by left|].
  destruct (isTeamNumberTaken db _ data); [by left|].
  destruct (getProblemStatementById db _ data); [|by left].
  right. by destruct (createRegistrationAtomic db body now data) as [d' [w|]].
Qed.

Lemma json_deleteRegistration_capacity (team : string) (data : Data) :
  capacityInvariant data ->
  capacityInvariant (fst (JsonStore.deleteRegistration team data)).
Proof. apply capacity_shrink; simpl; [done | apply sublist_filter]. Qed.

Lemma deleteOne_sublist {A} (P : A -> Prop) `{!forall x, Decision (P x)} (docs : list A) :
  fst (Collection.deleteOne P docs) `sublist_of` docs.
Proof.
  unfold Collection.deleteOne. destruct (list_find P docs) as [[i x]|]; simpl;
    [apply sublist_delete | done].
Qed.

Lemma mongo_deleteRegistration_capacity (team : string) (data : Data) :
  capacityInvariant data ->
  capacityInvariant (fst (MongoStore.deleteRegistration team data)).
Proof.
  unfold MongoStore.deleteRegistration.
  pose proof (deleteOne_sublist (fun r => teamNumber r = trim team) (registrations data)) as Hs.
  destruct (Collection.deleteOne _ _) as [regs' n]. by apply capacity_shrink.
Qed.

Lemma json_deleteProblem_capacity (target : string) (data : Data) :
  capacityInvariant data ->
  capacityInvariant (fst (JsonStore.deleteProblemStatement target data)).
Proof.
  apply capacity_shrink; simpl; [|apply sublist_filter].
  intros p Hp. by apply list_elem_of_filter in Hp as [_ Hp].
Qed.

Lemma mongo_deleteProblem_capacity (target : string) (data : Data) :
  capacityInvariant data ->
  capacityInvariant (fst (MongoStore.deleteProblemStatement target data)).
Proof.
  unfold MongoStore.deleteProblemStatement.
  pose proof (deleteOne_sublist (fun p => id p = target) (problemStatements data)) as Hs.
  destruct (Collection.deleteOne _ _) as [ps' n]. apply capacity_shrink; simpl.
  - intros p Hp. by eapply elem_of_sublist.
  - apply sublist_filter.
Qed.

Lemma json_update_capacity (typed : value -> Prop) (target : string) (updates : Updates)
    (data : Data) :
  capacityInvariant data ->
  keepsCapacity typed JsonStore.merge JsonStore.stored data
                (App.UpdateProblem target updates) ->
  capacityInvariant (fst (JsonStore.updateProblemStatement target updates data)).
Proof.
  intros Hinv Hkeep. unfold JsonStore.updateProblemStatement.
  destruct (list_find _ _) as [[i p]|] eqn:Hfind; [|done]. simpl.
  apply list_find_Some in Hfind as (Hi & Hid & _).
  apply capacity_replace; [done|]. intros x [-> | Hx]%elem_of_insert_inv; [|by left].
  right. simpl. rewrite Hid. apply (Hkeep p); [by eapply list_elem_of_lookup_2 | done].
Qed.

Lemma mongo_update_capacity (typed : value -> Prop) (target : string) (updates : Updates)
    (data : Data) :
  capacityInvariant data ->
  keepsCapacity typed (fun p u => MongoStore.applySet u p) MongoStore.stored data
                (App.UpdateProblem target updates) ->
  capacityInvariant (fst (MongoStore.updateProblemStatement target updates data)).
Proof.
  intros Hinv Hkeep. unfold MongoStore.updateProblemStatement, Collection.updateOne.
  destruct (list_find _ _) as [[i p]|] eqn:Hfind; [|by destruct data]. simpl.
  apply list_find_Some in Hfind as (Hi & Hid & _).
  apply capacity_replace; [done|]. intros x [-> | Hx]%elem_of_insert_inv; [|by left].
  right. simpl. rewrite Hid. apply (Hkeep p); [by eapply list_elem_of_lookup_2 | done].
Qed.

Lemma some_id_false (ps : list ProblemStatement) (k : string) :
  some (fun p => id p = k) ps = false -> k ∉ fmap id ps.
Proof.
  intros Hno [p [-> Hp]]%list_elem_of_fmap.
  by apply (proj1 (some_false _ _) Hno p).
Qed.

Lemma json_create_capacity (typed : value -> Prop) (p : ProblemInput) (data : Data) :
  capacityInvariant data ->
  keepsCapacity typed JsonStore.merge JsonStore.stored data (App.CreateProblem p) ->
  capacityInvariant (fst (JsonStore.createProblemStatement p data)).
Proof.
  intros Hinv Hkeep. unfold JsonStore.createProblemStatement.
  destruct (some _ _) eqn:Hsome; [done|]. simpl.
  apply capacity_replace; [done|].
  intros x [Hx | ->%list_elem_of_singleton]%elem_of_app; [by left|].
  right. apply Hkeep. by apply some_id_false.
Qed.

Lemma mongo_create_capacity (typed : value -> Prop) (p : ProblemInput) (data : Data) :
  capacityInvariant data ->
  keepsCapacity typed (fun p u => MongoStore.applySet u p) MongoStore.stored data
                (App.CreateProblem p) ->
  capacityInvariant (fst (MongoStore.createProblemStatement p data)).
Proof.
  intros Hinv Hkeep.
  unfold MongoStore.createProblemStatement, Collection.insertOne.
  destruct (some _ _) eqn:Hsome; [done|]. simpl.
  apply capacity_replace; [done|].
  intros x [Hx | ->%list_elem_of_singleton]%elem_of_app; [by left|].
  right. apply Hkeep. by apply some_id_false.
Qed.

Lemma import_fold_elems (stored : ProblemInput -> ProblemStatement) (ids : gset string)
    (items : list ProblemInput) (acc : list ProblemStatement) (x : ProblemStatement) :
  x ∈ fold_left
        (fun (acc : list ProblemStatement) ps =>
           if decide (in_id ps ∈ ids) then acc else acc ++ [stored ps])
        items acc ->
  x ∈ acc \/ exists item, item ∈ items /\ (in_id item ∉ ids) /\ x = stored item.
Proof.
  revert acc. induction items as [|item items IH]; intros acc Hx; simpl in Hx; [by left|].
  apply IH in Hx as [Hx | (item' & Hin & Hfresh & ->)].
  - destruct (decide (in_id item ∈ ids)); [by left|].
    apply elem_of_app in Hx as [Hx | ->%list_elem_of_singleton]; [by left|].
    right. exists item. split; [left | done].
  - right. exists item'. split; [by right | done].
Qed.

Lemma insertMany_elems {A} (key : A -> string) (new docs : list A) (x : A) :
  x ∈ Collection.insertMany key new docs -> x ∈ docs \/ x ∈ new.
Proof.
  revert docs. induction new as [|doc new IH]; intros docs Hx; simpl in Hx; [by left|].
  unfold Collection.insertOne in Hx. destruct (some _ docs); [by left|].
  apply IH in Hx as [[Hx | ->%list_elem_of_singleton]%elem_of_app | Hx].
  - by left.
  - right. left.
  - right. by right.
Qed.

Lemma json_import_capacity (typed : value -> Prop) (items : list ProblemInput)
    (data : Data) :
  capacityInvariant data ->
  keepsCapacity typed JsonStore.merge JsonStore.stored data (App.Import items) ->
  capacityInvariant (JsonStore.importFromJSON items data).
Proof.
  intros Hinv Hkeep. unfold JsonStore.importFromJSON.
  apply capacity_replace; [done|].
  intros x [Hx | (item & Hin & Hfresh & ->)]%import_fold_elems; [by left|].
  right. rewrite elem_of_list_to_set in Hfresh. by apply Hkeep.
Qed.

Lemma mongo_import_capacity (typed : value -> Prop) (items : list ProblemInput)
    (data : Data) :
  capacityInvariant data ->
  keepsCapacity typed (fun p u => MongoStore.applySet u p) MongoStore.stored data
                (App.Import items) ->
  capacityInvariant (MongoStore.importFromJSON items data).
Proof.
  intros Hinv Hkeep. unfold MongoStore.importFromJSON.
  apply capacity_replace; [done|].
  intros x [Hx | Hx]%insertMany_elems; [by left|].
  apply import_fold_elems in Hx as [Hx | (item & Hin & Hfresh & ->)];
    [by apply elem_of_nil in Hx|].
  right. rewrite elem_of_list_to_set in Hfresh. by apply Hkeep.
Qed.

(** What the Mongo store writes down as [maxSelections] is a number that is
    at least 1, so it admits zero registrations. *)
Lemma mongo_maxSel_ge_1 (v : value) : (1 <= MongoStore.maxSel v)%Q.
Proof. apply max1_ge_1. Qed.

(** Each store, each mutation. *)
Lemma json_run_capacity (m : App.Mutation) (data : Data) :
  uniqueIds data ->
  (forall p, p ∈ problemStatements data -> wholeNumber (maxSelections p)) ->
  capacityInvariant data ->
  keepsCapacity wholeNumber JsonStore.merge JsonStore.stored data m ->
  capacityInvariant (App.run jsonStore m data).
Proof.
  intros Hnd Htyped Hinv Hkeep.
  destruct m as [body now|team|p|target updates|target|items]; simpl.
  - destruct (register_state jsonStore body now data) as [-> | ->]; [done|].
    by apply json_register_capacity.
  - by apply json_deleteRegistration_capacity.
  - unfold App.postProblemStatement. simpl.
    pose proof (json_create_capacity wholeNumber p data Hinv Hkeep) as Hc.
    by destruct (JsonStore.createProblemStatement p data).
  - by eapply json_update_capacity.
  - by apply json_deleteProblem_capacity.
  - by eapply json_import_capacity.
Qed.

Lemma mongo_run_capacity (m : App.Mutation) (data : Data) :
  uniqueIds data ->
  (forall p, p ∈ problemStatements data -> positiveInteger (maxSelections p)) ->
  capacityInvariant data ->
  keepsCapacity positiveInteger (fun p u => MongoStore.applySet u p) MongoStore.stored
                data m ->
  capacityInvariant (App.run mongoStore m data).
Proof.
  intros Hnd Htyped Hinv Hkeep.
  destruct m as [body now|team|p|target updates|target|items]; simpl.
  - destruct (register_state mongoStore body now data) as [-> | ->]; [done|].
    by apply mongo_register_capacity.
  - by apply mongo_deleteRegistration_capacity.
  - unfold App.postProblemStatement. simpl.
    pose proof (mongo_create_capacity positiveInteger p data Hinv Hkeep) as Hc.
    by destruct (MongoStore.createProblemStatement p data).
  - by eapply mongo_update_capacity.
  - by apply mongo_deleteProblem_capacity.
  - by eapply mongo_import_capacity.
Qed.

(** ** A registration for a statement that is full *)

(** The file store returns [null] and writes nothing when the count of the
    statement found has reached its [maxSelections], a number. *)
Lemma json_full_rejected (body : RegistrationRequest) (now : string) (data : Data)
    (ps : ProblemStatement) (q : Q) :
  JsonStore.getProblemStatementById (req_problemStatementId body) data = Some ps ->
  maxSelections ps = VNum q ->
  (q <= inject_Z (Z.of_nat (ledgerCount (id ps) data)))%Q ->
  JsonStore.createRegistrationAtomic body now data = (data, None).
Proof.
  intros Hps Hq Hfull.
  destruct (json_register_outcome body now data) as [-> | (p & Hp & _ & Hroom & _)]; [done|].
  unfold JsonStore.getProblemStatementById in Hps. rewrite Hp in Hps. injection Hps as ->.
  rewrite Hq, count_ge_num, negb_false_iff, count_lt_num in Hroom.
  by apply Qlt_not_le in Hroom.
Qed.

(** The Mongo store compares the count with [Math.max(1, maxSelections)]:
    it returns [null] when the count has reached [maxSelections] and is not
    zero. *)
Lemma mongo_full_rejected (body : RegistrationRequest) (now : string) (data : Data)
    (ps : ProblemStatement) (q : Q) :
  MongoStore.getProblemStatementById (req_problemStatementId body) data = Some ps ->
  maxSelections ps = VNum q ->
  (q <= inject_Z (Z.of_nat (ledgerCount (id ps) data)))%Q ->
  (1 <= ledgerCount (id ps) data)%nat ->
  MongoStore.createRegistrationAtomic body now data = (data, None).
Proof.
  intros Hps Hq Hfull Hone.
  destruct (mongo_register_outcome body now data) as [-> | (p & Hp & _ & Hroom & _)]; [done|].
  unfold MongoStore.getProblemStatementById, Collection.findOne in Hps.
  rewrite Hp in Hps. injection Hps as ->.
  rewrite Hq, count_ge_num, negb_false_iff, count_lt_num in Hroom.
  change (MongoStore.maxSel (VNum q)) with (MongoStore.max1 q) in Hroom.
  unfold MongoStore.max1 in Hroom. destruct (Qle_bool q 1).
  - change 1%Q with (inject_Z 1) in Hroom. rewrite <- Zlt_Qlt in Hroom. lia.
  - by apply Qlt_not_le in Hroom.
Qed.

(** The answer of the handler when the store returns [null] and writes
    nothing. *)
Lemma register_rejected (db : Store) (body : RegistrationRequest) (now : string)
    (data : Data) (ps : ProblemStatement) :
  getProblemStatementById db (req_problemStatementId body) data = Some ps ->
  createRegistrationAtomic db body now data = (data, None) ->
  App.register db body now data
  = (data,
     if incomplete body then App.MissingFields400
     else if isTeamNumberTaken db (req_teamNumber body) data
          then App.TeamAlreadyRegistered409
          else App.FullOrAlreadyRegistered409).
Proof.
  intros Hps Hnull. unfold App.register. fold (incomplete body).
  destruct (incomplete body); [done|].
  destruct (isTeamNumberTaken db _ data); [done|].
  by rewrite Hps, Hnull.
Qed.

(** ** The two outcomes of a registration *)

Lemma json_register_dichotomy (body : RegistrationRequest) (now : string) (data : Data) :
  JsonStore.createRegistrationAtomic body now data
  = ({| problemStatements := problemStatements data;
        registrations :=
          registrations data ++ [newRegistration (req_teamNumber body) body now] |},
     Some {| res_id := req_teamNumber body; changes := 1 |})
  \/ JsonStore.createRegistrationAtomic body now data = (data, None).
Proof.
  destruct (json_register_outcome body now data) as [Hnull | (p & _ & _ & _ & Hok)];
    [by right | by left].
Qed.

Lemma mongo_register_dichotomy (body : RegistrationRequest) (now : string) (data : Data) :
  MongoStore.createRegistrationAtomic body now data
  = ({| problemStatements := problemStatements data;
        registrations :=
          registrations data ++ [newRegistration (trim (req_teamNumber body)) body now] |},
     Some {| res_id := trim (req_teamNumber body); changes := 1 |})
  \/ MongoStore.createRegistrationAtomic body now data = (data, None).
Proof.
  destruct (mongo_register_outcome body now data) as [Hnull | (p & _ & _ & _ & Hok)];
    [by right | by left].
Qed.

(** The handler answers 200 exactly when the store committed, and passes
    the store's result on. *)
Lemma register_handler_dichotomy (db : Store) (body : RegistrationRequest)
    (now : string) (data data' : Data) (w : WriteResult) :
  (createRegistrationAtomic db body now data = (data', Some w)
   \/ createRegistrationAtomic db body now data = (data, None)) ->
  (exists ps, App.register db body now data = (data', App.RegistrationSuccessful200 w ps))
  \/ (fst (App.register db body now data) = data
      /\ forall w' ps, snd (App.register db body now data)
                       <> App.RegistrationSuccessful200 w' ps).
Proof.
  intros Hstore. unfold App.register.
  destruct (_ || _); [by right|].
  destruct (isTeamNumberTaken db _ data); [by right|].
  destruct (getProblemStatementById db _ data) as [ps|]; [|by right].
  destruct Hstore as [-> | ->]; [left; by exists ps | by right].
Qed.

(** C2, as the code has it. On either store a registration request has
    one of two outcomes. Either exactly one record is appended to the
    Ledger, made of the request's fields (the team number as the store
    writes it down) and of the clock reading of the call as
    [registrationDateTime], the Catalog is unchanged, and the store returns
    the summary [{ id: teamNumber, changes: 1 }], which the handler passes
    on with status 200. Or the store returns [null], the handler answers
    with a rejection, and Ledger and Catalog are unchanged. *)
Theorem register_dichotomy :
  Forall (fun db : Backend =>
    forall body now data,
      let team := storedTeamNumber db (req_teamNumber body) in
      let committed :=
        {| problemStatements := problemStatements data;
           registrations := registrations data ++ [newRegistration team body now] |} in
      let summary := {| res_id := team; changes := 1 |} in
      (createRegistrationAtomic db body now data = (committed, Some summary)
       \/ createRegistrationAtomic db body now data = (data, None))
      /\ ((exists ps, App.register db body now data
                      = (committed, App.RegistrationSuccessful200 summary ps))
          \/ (fst (App.register db body now data) = data
              /\ forall w ps, snd (App.register db body now data)
                              <> App.RegistrationSuccessful200 w ps)))
    backends.
Proof.
  apply on_backends; intros body now data; simpl.
  - pose proof (json_register_dichotomy body now data) as Hd.
    split; [done|]. by apply (register_handler_dichotomy jsonStore).
  - pose proof (mongo_register_dichotomy body now data) as Hd.
    split; [done|]. by apply (register_handler_dichotomy mongoStore).
Qed.

(** C2, as stated, fails: what a successful registration returns is the
    summary [{ id, changes }], the same for two requests that append
    different records, not the appended Registration. *)
Lemma register_returns_a_summary :
  Forall (fun db : Backend =>
    let now := "2025-01-02T00:00:00.000Z" in
    snd (createRegistrationAtomic db alphaRequest now openData)
    = Some {| res_id := "T1"; changes := 1 |}
    /\ snd (createRegistrationAtomic db gammaRequest now openData)
       = Some {| res_id := "T1"; changes := 1 |}
    /\ registrations (fst (createRegistrationAtomic db alphaRequest now openData))
       <> registrations (fst (createRegistrationAtomic db gammaRequest now openData)))
    backends.
Proof. apply on_backends; vm_compute; split_and!; done. Qed.

(** ** The duplicate-team rejection *)

Lemma incomplete_empty (body : RegistrationRequest) :
  incomplete body = true
  <-> req_teamNumber body = "" \/ req_teamName body = "" \/ req_teamLeader body = ""
      \/ req_problemStatementId body = "".
Proof.
  unfold incomplete, App.missing. rewrite !orb_true_iff, !String.eqb_eq. tauto.
Qed.

Lemma json_taken (team : string) (data : Data) :
  JsonStore.isTeamNumberTaken team data = true
  <-> exists r, r ∈ registrations data /\ teamNumber r = team.
Proof. unfold JsonStore.isTeamNumberTaken. apply some_true. Qed.

(** C3, as the code has it. On either store the handler answers 400
    "missing required fields", with nothing written, exactly when one of
    the four fields of the request is the empty text, the team number as it
    came (not trimmed) included. It answers 409 "team number already
    registered", with nothing written and whatever the Catalog holds,
    exactly when no field is empty and the Ledger holds a registration
    whose team number is the trimmed team number of the request: on the
    Mongo store for every request, on the file store for a request whose
    team number has no surrounding white space. A team number of white
    space only is thus compared like any other, as the empty text. The
    stores find a team number taken under the same condition, and then
    [createRegistrationAtomic] returns [null] and writes nothing. *)
Theorem duplicate_team_rejection :
  Forall (fun db : Backend =>
    forall (body : RegistrationRequest) (now : string) (data : Data),
      (App.register db body now data = (data, App.MissingFields400)
       <-> req_teamNumber body = "" \/ req_teamName body = "" \/ req_teamLeader body = ""
           \/ req_problemStatementId body = "")
      /\ (db = mongoBackend \/ trim (req_teamNumber body) = req_teamNumber body ->
          (isTeamNumberTaken db (req_teamNumber body) data = true
           <-> exists r, r ∈ registrations data
                         /\ teamNumber r = trim (req_teamNumber body))
          /\ ((exists r, r ∈ registrations data
                         /\ teamNumber r = trim (req_teamNumber body)) ->
              createRegistrationAtomic db body now data = (data, None))
          /\ (App.register db body now data = (data, App.TeamAlreadyRegistered409)
              <-> (req_teamNumber body <> "" /\ req_teamName body <> ""
                   /\ req_teamLeader body <> "" /\ req_problemStatementId body <> "")
                  /\ exists r, r ∈ registrations data
                                /\ teamNumber r = trim (req_teamNumber body))))
    backends.
Proof.
  assert (forall (db : Store) body now data,
            (App.register db body now data = (data, App.MissingFields400)
             <-> incomplete body = true)
            /\ (App.register db body now data = (data, App.TeamAlreadyRegistered409)
                <-> incomplete body = false
                    /\ isTeamNumberTaken db (req_teamNumber body) data = true))
    as Hhandler.
  { intros db body now data. unfold App.register. fold (incomplete body).
    destruct (incomplete body); [split; split; intuition congruence|].
    destruct (isTeamNumberTaken db _ data); [split; split; intuition congruence|].
    destruct (getProblemStatementById db _ data) as [ps|];
      [|split; split; intuition congruence].
    destruct (createRegistrationAtomic db body now data) as [d' [w|]];
      split; split; intuition congruence. }
  assert (forall body : RegistrationRequest,
            incomplete body = false
            <-> req_teamNumber body <> "" /\ req_teamName body <> ""
                /\ req_teamLeader body <> "" /\ req_problemStatementId body <> "")
    as Hcomplete.
  { intros body. rewrite <- not_true_iff_false, incomplete_empty. tauto. }
  assert (forall (db : Backend) team data,
            db ∈ backends ->
            db = mongoBackend \/ trim team = team ->
            isTeamNumberTaken db team data = true
            <-> exists r, r ∈ registrations data /\ teamNumber r = trim team) as Htaken.
  { intros db team data Hdb Hwhen.
    destruct (in_backends db Hdb) as [-> | ->].
    - destruct Hwhen as [Heq | Htrim]; [discriminate (f_equal (fun b => storedTeamNumber b " x") Heq)|].
      rewrite Htrim. apply json_taken.
    - simpl. rewrite mongo_taken. apply some_true. }
  apply Forall_forall. intros db Hdb body now data.
  destruct (Hhandler db body now data) as [H400 H409]. split.
  - by rewrite H400, incomplete_empty.
  - intros Hwhen. split_and!; [by apply Htaken | |].
    + intros Hheld%(Htaken db _ data Hdb Hwhen).
      destruct (in_backends db Hdb) as [-> | ->].
      * destruct (json_register_outcome body now data)
          as [Hnull | (p & _ & Hfree & _)]; [exact Hnull|].
        simpl in Hheld. congruence.
      * destruct (mongo_register_outcome body now data)
          as [Hnull | (p & _ & Hfree & _)]; [exact Hnull|].
        simpl in Hheld. congruence.
    + by rewrite H409, Hcomplete, (Htaken db _ data Hdb Hwhen).
Qed.

(** The theorem at a second request of team T1, sent with surrounding white
    space to the Mongo store and as it is to the file store. *)
Lemma duplicate_team_rejection_witness :
  App.register mongoBackend (sampleRequest " T1 " "ps404") "2025-01-02T00:00:00.000Z" takenData
  = (takenData, App.TeamAlreadyRegistered409)
  /\ App.register jsonBackend (sampleRequest "T1" "ps404") "2025-01-02T00:00:00.000Z" takenData
     = (takenData, App.TeamAlreadyRegistered409).
Proof.
  split.
  - refine (proj2 (proj2 (proj2 (proj2
              (proj1 (Forall_forall _ _) duplicate_team_rejection mongoBackend _
                 (sampleRequest " T1 " "ps404") "2025-01-02T00:00:00.000Z" takenData) _))) _).
    + right. left.
    + by left.
    + split; [by repeat split|]. exists (sampleRegistration "T1" "ps001").
      split; [left | reflexivity].
  - refine (proj2 (proj2 (proj2 (proj2
              (proj1 (Forall_forall _ _) duplicate_team_rejection jsonBackend _
                 (sampleRequest "T1" "ps404") "2025-01-02T00:00:00.000Z" takenData) _))) _).
    + left.
    + by right.
    + split; [by repeat split|]. exists (sampleRegistration "T1" "ps001").
      split; [left | reflexivity].
Defined.

(** C3, as stated, fails: a team number that is empty after trimming is
    not rejected as a duplicate team. The empty team number is answered 400
    by the check of the required fields; a team number of one space passes
    that check and is answered 200 on either store, the file store writing
    it down as it came and the Mongo store as the empty text. *)
Lemma blank_team_is_not_duplicate :
  let now := "2025-01-02T00:00:00.000Z" in
  trim " " = ""
  /\ Forall (fun db : Backend =>
               App.register db (sampleRequest "" "ps001") now openData
               = (openData, App.MissingFields400))
            backends
  /\ App.register jsonStore (sampleRequest " " "ps001") now openData
     = ({| problemStatements := problemStatements openData;
           registrations := [newRegistration " " (sampleRequest " " "ps001") now] |},
        App.RegistrationSuccessful200 {| res_id := " "; changes := 1 |}
          (sampleProblem "ps001" (VNum 2)))
  /\ App.register mongoStore (sampleRequest " " "ps001") now openData
     = ({| problemStatements := problemStatements openData;
           registrations := [newRegistration "" (sampleRequest " " "ps001") now] |},
        App.RegistrationSuccessful200 {| res_id := ""; changes := 1 |}
          (sampleProblem "ps001" (VNum 2))).
Proof.
  split_and!; [reflexivity | apply on_backends; reflexivity | reflexivity | reflexivity].
Qed.

(** ** The coercion of [maxSelections] *)

(** What the Mongo store writes down: a number that is at least 1; it is 1
    for a number that is at most 1 and for a value that is not a number and
    whose text does not start with a positive integer. *)
Lemma mongo_maxSel_spec (v : value) :
  (1 <= MongoStore.maxSel v)%Q
  /\ match v with
     | VNum q => (q <= 1)%Q -> MongoStore.maxSel v = 1%Q
     | _ =>
         match parseInt (ToString (or_else v (VStr "0"))) with
         | Some k => k <= 1 -> MongoStore.maxSel v = 1%Q
         | None => MongoStore.maxSel v = 1%Q
         end
     end.
Proof.
  assert (forall k, k <= 1 -> MongoStore.max1 (inject_Z k) = 1%Q) as Hint.
  { intros k Hk. unfold MongoStore.max1.
    assert (Qle_bool (inject_Z k) 1 = true) as ->; [|done].
    apply Qle_bool_iff. change (inject_Z k <= inject_Z 1)%Q. by rewrite <- Zle_Qle. }
  split; [apply max1_ge_1|].
  unfold MongoStore.maxSel, MongoStore.parsedMax.
  destruct v; try (destruct (parseInt _); [apply Hint | done]).
  intros Hq. unfold MongoStore.max1. apply Qle_bool_iff in Hq. by rewrite Hq.
Qed.

(** The file store writes [maxSelections] down as it came. *)
Lemma json_stored_maxSelections (p : ProblemInput) :
  maxSelections (JsonStore.stored p) = in_maxSelections p.
Proof. reflexivity. Qed.

(** C4 at the failing inputs. The file store keeps a [maxSelections] of 0
    and one that is not a number as they came, on creation and on import;
    the Mongo store writes 1 for both. (A number with a fractional part
    above 1 is kept as it is by both.) *)
Theorem json_create_keeps_maxSelections :
  let zero := sampleInput "ps900" (VNum 0) in
  let text := sampleInput "ps901" (VStr "many") in
  let half := sampleInput "ps902" (VNum (5 # 2)) in
  let stored (db : Store) p :=
    maxSelections <$> problemStatements (fst (createProblemStatement db p openData)) in
  let imported (db : Store) p :=
    maxSelections <$> problemStatements (importFromJSON db [p] openData) in
  stored jsonStore zero = [VNum 2; VNum 0]
  /\ stored jsonStore text = [VNum 2; VStr "many"]
  /\ imported jsonStore zero = [VNum 2; VNum 0]
  /\ imported jsonStore text = [VNum 2; VStr "many"]
  /\ stored mongoStore zero = [VNum 2; VNum 1]
  /\ stored mongoStore text = [VNum 2; VNum 1]
  /\ imported mongoStore zero = [VNum 2; VNum 1]
  /\ imported mongoStore text = [VNum 2; VNum 1]
  /\ stored jsonStore half = [VNum 2; VNum (5 # 2)]
  /\ stored mongoStore half = [VNum 2; VNum (5 # 2)].
Proof. repeat split; vm_compute; reflexivity. Qed.

(** ** Deleting a problem statement *)

Lemma filter_all {A} (P : A -> Prop) `{!forall x, Decision (P x)} (l : list A) :
  (forall x, x ∈ l -> P x) -> filter P l = l.
Proof.
  induction l as [|x l IH]; intros Hall; [done|].
  rewrite filter_cons, decide_True by (apply Hall; left).
  f_equal. apply IH. intros y Hy. apply Hall. by right.
Qed.

(** Under a unique key, removing the first match removes every match. *)
Lemma deleteOne_unique {A} (key : A -> string) (k : string) (docs : list A) :
  NoDup (key <$> docs) ->
  fst (Collection.deleteOne (fun d => key d = k) docs) = filter (fun d => key d <> k) docs.
Proof.
  unfold Collection.deleteOne.
  induction docs as [|d docs IH]; intros Hnd; [done|].
  apply NoDup_cons in Hnd as [Hd Hnd]. rewrite filter_cons. simpl.
  destruct (decide (key d = k)) as [Hk|Hk].
  - rewrite decide_False by (intros Hne; by apply Hne). simpl.
    symmetry. apply filter_all. intros x Hx Hxk. apply Hd.
    rewrite Hk, <- Hxk. by apply list_elem_of_fmap_2.
  - rewrite decide_True by done. specialize (IH Hnd).
    destruct (list_find _ docs) as [[i y]|]; simpl in *; by f_equal.
Qed.

(** C5, as the code has it. With unique identifiers, deleting a problem
    statement on either store leaves the Catalog without it and the Ledger
    without the registrations that refer to it, the rest as it was, and
    [getAllRegistrations] then lists the remaining registrations only. The
    file store does so in one write; the Mongo store deletes the problem
    statement first and the registrations second. *)
Theorem delete_cascades :
  forall (target : string) (data : Data),
    NoDup (id <$> problemStatements data) ->
    let remaining := filter (fun p => id p <> target) (problemStatements data) in
    let kept := filter (fun r => problemStatementId r <> target) (registrations data) in
    let final := {| problemStatements := remaining; registrations := kept |} in
    Forall (fun db : Backend =>
              fst (deleteProblemStatement db target data) = final
              /\ getAllRegistrations db final
                 = registrationView (problemById remaining) <$> kept)
           backends
    /\ JsonStore.deleteProblemStatement_writes target data = [final]
    /\ MongoStore.deleteProblemStatement_writes target data
       = [{| problemStatements := remaining; registrations := registrations data |}; final].
Proof.
  intros target data Hnd remaining kept final.
  pose proof (deleteOne_unique id target (problemStatements data) Hnd) as Hone.
  split_and!.
  - apply on_backends; (split; [|done]); simpl.
    + done.
    + unfold MongoStore.deleteProblemStatement.
      destruct (Collection.deleteOne _ _) as [ps' n]. simpl in Hone. by rewrite Hone.
  - done.
  - unfold MongoStore.deleteProblemStatement_writes.
    destruct (Collection.deleteOne _ _) as [ps' n]. simpl in Hone. by rewrite Hone.
Qed.

(** The theorem at the full statement ps001: nothing is listed once it is
    deleted. *)
Lemma delete_cascades_witness :
  getAllRegistrations mongoStore (fst (deleteProblemStatement mongoStore "ps001" fullData))
  = [].
Proof.
  destruct (delete_cascades "ps001" fullData (NoDup_singleton "ps001")) as (Hboth & _).
  apply backends_mongo in Hboth as [Hfinal Hlist].
  change (store mongoBackend) with mongoStore in *.
  rewrite Hfinal, Hlist. reflexivity.
Defined.

(** C5, as stated, fails: on the Mongo store the state between the two
    writes holds registrations that refer to the problem statement already
    deleted. *)
Lemma mongo_delete_problem_first :
  MongoStore.deleteProblemStatement_writes "ps001" fullData
  = [{| problemStatements := []; registrations := registrations fullData |};
     {| problemStatements := []; registrations := [] |}]
  /\ exists mid r,
       MongoStore.deleteProblemStatement_writes "ps001" fullData !! 0%nat = Some mid
       /\ r ∈ registrations mid
       /\ problemStatementId r ∉ (id <$> problemStatements mid).
Proof.
  split; [reflexivity|].
  exists {| problemStatements := []; registrations := registrations fullData |},
         (sampleRegistration "T1" "ps001").
  split_and!; [reflexivity | left | by intros ?%elem_of_nil].
Qed.

(** ** Creating a problem statement *)

Lemma some_id (ps : list ProblemStatement) (k : string) :
  some (fun p => id p = k) ps = bool_decide (k ∈ id <$> ps).
Proof.
  destruct (some _ ps) eqn:Hs; symmetry.
  - apply bool_decide_eq_true. apply some_true in Hs as (p & Hp & <-).
    by apply list_elem_of_fmap_2.
  - apply bool_decide_eq_false. by apply some_id_false.
Qed.

(** C7, as the code has it. When a problem statement with the same id is
    stored, [createProblemStatement] of either store leaves the data
    unchanged and returns [{ id, changes: 0 }]; otherwise it appends the new
    record and returns [{ id, changes: 1 }]. No error is signalled in the
    first case: the handler drops the result and answers 201 either way. *)
Theorem create_duplicate_is_silent :
  forall (p : ProblemInput) (data : Data),
    let present := bool_decide (in_id p ∈ id <$> problemStatements data) in
    let result n := {| res_id := in_id p; changes := n |} in
    let appended record :=
      {| problemStatements := problemStatements data ++ [record];
         registrations := registrations data |} in
    createProblemStatement jsonStore p data
    = (if present then (data, result 0%nat)
       else (appended (JsonStore.stored p), result 1%nat))
    /\ createProblemStatement mongoStore p data
       = (if present then (data, result 0%nat)
          else (appended (MongoStore.stored p), result 1%nat))
    /\ Forall (fun db : Backend =>
                 App.postProblemStatement db p data
                 = (fst (createProblemStatement db p data), App.ProblemCreated201 (in_id p)))
              backends.
Proof.
  intros p data. simpl. split_and!.
  - unfold JsonStore.createProblemStatement. rewrite some_id.
    by destruct (bool_decide _).
  - unfold MongoStore.createProblemStatement, Collection.insertOne. simpl.
    rewrite some_id. by destruct (bool_decide _).
  - apply on_backends; unfold App.postProblemStatement;
      by destruct (createProblemStatement _ p data).
Qed.

(** C7, as stated, fails: creating a problem statement under an id that is
    stored is not rejected; the store returns a zero-change result and the
    handler answers 201 "created". *)
Lemma create_duplicate_not_rejected :
  Forall (fun db : Backend =>
    createProblemStatement db (sampleInput "ps001" (VNum 5)) openData
    = (openData, {| res_id := "ps001"; changes := 0 |})
    /\ App.postProblemStatement db (sampleInput "ps001" (VNum 5)) openData
       = (openData, App.ProblemCreated201 "ps001"))
    backends.
Proof. apply on_backends; split; reflexivity. Qed.

(** ** Updating a problem statement *)

Lemma json_merge_untouched (p : ProblemStatement) (updates : Updates) :
  untouched p updates (JsonStore.merge p updates).
Proof.
  unfold untouched, JsonStore.merge. simpl.
  split_and!; [done | intros -> ..]; try done. by intros ->.
Qed.

Lemma mongo_applySet_untouched (p : ProblemStatement) (updates : Updates) :
  untouched p updates (MongoStore.applySet updates p).
Proof.
  unfold untouched, MongoStore.applySet. simpl.
  split_and!; [done | intros -> ..]; try done. by intros ->.
Qed.

(** C8, as the code has it. On either store an update leaves the Ledger
    alone; when no problem statement has the id, nothing changes and the
    count returned is 0; otherwise the first problem statement with that id
    is replaced, every other one staying in place, by a record with the
    same id and with the stored value in every field the update does not
    provide. In that case the file store returns the count 1, and the Mongo
    store returns the number of documents modified: 1 when the update
    changed the record, 0 when the provided values are the stored ones. *)
Theorem update_frame :
  forall (target : string) (updates : Updates) (data : Data),
    let found := list_find (fun p => id p = target) (problemStatements data) in
    Forall (fun db : Backend =>
              let after := fst (updateProblemStatement db target updates data) in
              registrations after = registrations data
              /\ res_id (snd (updateProblemStatement db target updates data)) = target
              /\ match found with
                 | None =>
                     after = data
                     /\ changes (snd (updateProblemStatement db target updates data)) = 0%nat
                 | Some (i, p) =>
                     exists p', problemStatements after = <[i := p']> (problemStatements data)
                                /\ untouched p updates p'
                 end)
           backends
    /\ changes (snd (updateProblemStatement jsonStore target updates data))
       = match found with Some _ => 1%nat | None => 0%nat end
    /\ changes (snd (updateProblemStatement mongoStore target updates data))
       = match found with
         | Some (i, p) =>
             if ProblemStatement_eqb p (MongoStore.applySet updates p) then 0%nat else 1%nat
         | None => 0%nat
         end.
Proof.
  intros target updates data found. split_and!.
  - apply on_backends; simpl.
    + unfold JsonStore.updateProblemStatement. fold found.
      destruct found as [[i p]|]; simpl; split_and!; try done.
      exists (JsonStore.merge p updates). split; [done | apply json_merge_untouched].
    + unfold MongoStore.updateProblemStatement, Collection.updateOne. fold found.
      destruct found as [[i p]|]; simpl; split_and!; try done; [|by destruct data].
      exists (MongoStore.applySet updates p).
      split; [done | apply mongo_applySet_untouched].
  - simpl. unfold JsonStore.updateProblemStatement. fold found.
    by destruct found as [[i p]|].
  - simpl. unfold MongoStore.updateProblemStatement, Collection.updateOne. fold found.
    by destruct found as [[i p]|].
Qed.

(** C8, as stated, fails: on the Mongo store an update that provides the
    value a field already has returns the count 0 although a problem
    statement with that id exists. *)
Lemma mongo_update_unchanged_counts_zero :
  "ps001" ∈ (id <$> problemStatements openData)
  /\ updateProblemStatement mongoStore "ps001" sameTitle openData
     = (openData, {| res_id := "ps001"; changes := 0 |})
  /\ updateProblemStatement jsonStore "ps001" sameTitle openData
     = (openData, {| res_id := "ps001"; changes := 1 |}).
Proof. split_and!; [left | reflexivity | reflexivity]. Qed.

(** ** A committed team number stays rejected *)

Lemma deleteOne_keeps {A} (P : A -> Prop) `{!forall x, Decision (P x)}
    (docs : list A) (x : A) :
  x ∈ docs -> ~ P x -> x ∈ fst (Collection.deleteOne P docs).
Proof.
  intros Hx HP. unfold Collection.deleteOne.
  destruct (list_find P docs) as [[i y]|] eqn:Hfind; [|done]. simpl.
  apply list_find_Some in Hfind as (Hi & HPy & _).
  rewrite delete_take_drop. rewrite <- (take_drop_middle docs i y Hi) in Hx.
  apply elem_of_app in Hx as [Hx | Hx]; [apply elem_of_app; by left|].
  apply elem_of_cons in Hx as [-> | Hx]; [done|]. apply elem_of_app. by right.
Qed.

Lemma json_create_registrations (p : ProblemInput) (data : Data) :
  registrations (fst (JsonStore.createProblemStatement p data)) = registrations data.
Proof. unfold JsonStore.createProblemStatement. by destruct (some _ _). Qed.

Lemma mongo_create_registrations (p : ProblemInput) (data : Data) :
  registrations (fst (MongoStore.createProblemStatement p data)) = registrations data.
Proof.
  unfold MongoStore.createProblemStatement. by destruct (Collection.insertOne _ _ _).
Qed.

Lemma json_update_registrations (target : string) (updates : Updates) (data : Data) :
  registrations (fst (JsonStore.updateProblemStatement target updates data))
  = registrations data.
Proof.
  unfold JsonStore.updateProblemStatement. by destruct (list_find _ _) as [[i p]|].
Qed.

Lemma mongo_update_registrations (target : string) (updates : Updates) (data : Data) :
  registrations (fst (MongoStore.updateProblemStatement target updates data))
  = registrations data.
Proof.
  unfold MongoStore.updateProblemStatement.
  by destruct (Collection.updateOne _ _ _ _) as [ps' n].
Qed.

Lemma post_state (db : Store) (p : ProblemInput) (data : Data) :
  fst (App.postProblemStatement db p data) = fst (createProblemStatement db p data).
Proof.
  unfold App.postProblemStatement. by destruct (createProblemStatement db p data).
Qed.

Lemma json_run_keeps (r : Registration) (m : App.Mutation) (data : Data) :
  r ∈ registrations data -> sparing jsonBackend r m ->
  r ∈ registrations (App.run jsonStore m data).
Proof.
  intros Hr Hm. destruct m as [body now|team|p|target updates|target|items]; simpl in *.
  - destruct (register_state jsonStore body now data) as [-> | ->]; [done|]. simpl.
    destruct (json_register_dichotomy body now data) as [-> | ->]; [|done].
    simpl. apply elem_of_app. by left.
  - apply list_elem_of_filter. split; [congruence | done].
  - rewrite post_state. simpl. by rewrite json_create_registrations.
  - by rewrite json_update_registrations.
  - apply list_elem_of_filter. split; [congruence | done].
  - done.
Qed.

Lemma mongo_run_keeps (r : Registration) (m : App.Mutation) (data : Data) :
  r ∈ registrations data -> sparing mongoBackend r m ->
  r ∈ registrations (App.run mongoStore m data).
Proof.
  intros Hr Hm. destruct m as [body now|team|p|target updates|target|items]; simpl in *.
  - destruct (register_state mongoStore body now data) as [-> | ->]; [done|]. simpl.
    destruct (mongo_register_dichotomy body now data) as [-> | ->]; [|done].
    simpl. apply elem_of_app. by left.
  - unfold MongoStore.deleteRegistration.
    pose proof (deleteOne_keeps (fun r => teamNumber r = trim team) (registrations data) r)
      as Hkeep.
    destruct (Collection.deleteOne _ _) as [regs' n]. simpl in *.
    apply Hkeep; [done | congruence].
  - rewrite post_state. simpl. by rewrite mongo_create_registrations.
  - by rewrite mongo_update_registrations.
  - unfold MongoStore.deleteProblemStatement.
    destruct (Collection.deleteOne _ _) as [ps' n]. simpl.
    apply list_elem_of_filter. split; [congruence | done].
  - done.
Qed.

Lemma runAll_keeps (db : Backend) (r : Registration) :
  (forall m data, r ∈ registrations data -> sparing db r m ->
                  r ∈ registrations (App.run db m data)) ->
  forall ms data, r ∈ registrations data -> Forall (sparing db r) ms ->
                  r ∈ registrations (App.runAll db ms data).
Proof.
  intros Hstep ms. unfold App.runAll.
  induction ms as [|m ms IH]; intros data Hr Hms; simpl; [done|].
  apply Forall_cons in Hms as [Hm Hms]. apply IH; [|done]. by apply Hstep.
Qed.

Lemma json_taken_rejected (r : Registration) (body : RegistrationRequest)
    (now : string) (data : Data) :
  r ∈ registrations data -> teamNumber r = req_teamNumber body ->
  JsonStore.isTeamNumberTaken (req_teamNumber body) data = true
  /\ JsonStore.createRegistrationAtomic body now data = (data, None).
Proof.
  intros Hr Hteam.
  assert (some (fun r => teamNumber r = req_teamNumber body) (registrations data) = true)
    as Htaken by (apply some_true; eauto).
  split; [done|]. unfold JsonStore.createRegistrationAtomic. by rewrite Htaken.
Qed.

Lemma mongo_taken_rejected (r : Registration) (body : RegistrationRequest)
    (now : string) (data : Data) :
  r ∈ registrations data -> teamNumber r = trim (req_teamNumber body) ->
  MongoStore.isTeamNumberTaken (req_teamNumber body) data = true
  /\ MongoStore.createRegistrationAtomic body now data = (data, None).
Proof.
  intros Hr Hteam.
  assert (some (fun r => teamNumber r = trim (req_teamNumber body)) (registrations data)
          = true) as Htaken by (apply some_true; eauto).
  split; [by rewrite mongo_taken|].
  unfold MongoStore.createRegistrationAtomic, Collection.findOne.
  rewrite find_some in Htaken. apply bool_decide_eq_true in Htaken as [r' ->]. done.
Qed.

Lemma register_taken (db : Store) (body : RegistrationRequest) (now : string)
    (data : Data) :
  isTeamNumberTaken db (req_teamNumber body) data = true ->
  App.register db body now data
  = (data, if incomplete body then App.MissingFields400 else App.TeamAlreadyRegistered409).
Proof.
  intros Htaken. unfold App.register. fold (incomplete body).
  destruct (incomplete body); [done|]. by rewrite Htaken.
Qed.

(** A registration under the team number of the request, spared by the
    mutations that follow, keeps the request rejected. *)
Lemma stays_rejected (db : Backend) (data : Data) (r : Registration)
    (body : RegistrationRequest) (now : string) (ms : list App.Mutation) :
  db ∈ backends ->
  r ∈ registrations data ->
  teamNumber r = storedTeamNumber db (req_teamNumber body) ->
  Forall (sparing db r) ms ->
  createRegistrationAtomic db body now (App.runAll db ms data)
  = (App.runAll db ms data, None)
  /\ App.register db body now (App.runAll db ms data)
     = (App.runAll db ms data,
        if incomplete body then App.MissingFields400 else App.TeamAlreadyRegistered409).
Proof.
  intros Hdb Hr Hteam Hms. set (later := App.runAll db ms data).
  destruct (in_backends db Hdb) as [-> | ->].
  - assert (r ∈ registrations later) as Hlater
        by (apply runAll_keeps; [apply json_run_keeps | done..]).
    destruct (json_taken_rejected r body now later Hlater Hteam) as [Htaken Hnull].
    split; [done|]. by apply register_taken.
  - assert (r ∈ registrations later) as Hlater
        by (apply runAll_keeps; [apply mongo_run_keeps | done..]).
    destruct (mongo_taken_rejected r body now later Hlater Hteam) as [Htaken Hnull].
    split; [done|]. by apply register_taken.
Qed.

(** C9. On either store, once the Ledger holds a registration under the
    team number of a request (as the store writes team numbers down), and
    after any sequence of mutations none of which deletes that registration,
    the request is rejected: the store returns [null] and writes nothing,
    and the handler answers 409 "team number already registered" (400 when
    the request lacks a required field), leaving the data as they are. *)
Theorem committed_team_stays_rejected :
  forall db : Backend, db ∈ backends ->
  forall (data : Data) (r : Registration) (body : RegistrationRequest) (now : string)
         (ms : list App.Mutation),
    r ∈ registrations data ->
    teamNumber r = storedTeamNumber db (req_teamNumber body) ->
    Forall (sparing db r) ms ->
    let later := App.runAll db ms data in
    createRegistrationAtomic db body now later = (later, None)
    /\ App.register db body now later
       = (later,
          if incomplete body then App.MissingFields400 else App.TeamAlreadyRegistered409).
Proof.
  intros db Hdb data r body now ms Hr Hteam Hms later. by apply stays_rejected with r.
Qed.

(** The theorem on the Mongo store: team T1 is registered, the capacity of
    ps001 is lowered, team T2 is removed, ps002 is created, and the request
    of team " T1 " for ps002 is answered 409. *)
Lemma committed_team_stays_rejected_witness :
  let ms := [App.UpdateProblem "ps001" lowerTo1; App.DeleteRegistration "T2";
             App.CreateProblem (sampleInput "ps002" (VNum 3))] in
  let later := App.runAll mongoStore ms fullData in
  App.register mongoStore (sampleRequest " T1 " "ps002") "2025-01-02T00:00:00.000Z" later
  = (later, App.TeamAlreadyRegistered409).
Proof.
  intros ms later.
  refine (proj2 (committed_team_stays_rejected mongoBackend _ fullData
                   (sampleRegistration "T1" "ps001") (sampleRequest " T1 " "ps002")
                   "2025-01-02T00:00:00.000Z" ms _ _ _)).
  - right. left.
  - left.
  - reflexivity.
  - repeat constructor. simpl. discriminate.
Defined.

(** Calling register twice: once a request has been committed, the same
    request (with any clock reading) is rejected after any mutations that
    spare the committed registration. *)
Lemma register_twice_rejected (db : Backend) (data committed : Data) (w : WriteResult)
    (body : RegistrationRequest) (now later : string) (ms : list App.Mutation) :
  db ∈ backends ->
  createRegistrationAtomic db body now data = (committed, Some w) ->
  Forall (sparing db (newRegistration (storedTeamNumber db (req_teamNumber body)) body now))
         ms ->
  createRegistrationAtomic db body later (App.runAll db ms committed)
  = (App.runAll db ms committed, None).
Proof.
  intros Hdb Hfirst Hms.
  apply (stays_rejected db committed
           (newRegistration (storedTeamNumber db (req_teamNumber body)) body now));
    [done | | done | done].
  destruct (in_backends db Hdb) as [-> | ->].
  - simpl in *. destruct (json_register_dichotomy body now data) as [Hd | Hd];
      rewrite Hd in Hfirst; [|done].
    injection Hfirst as <- _. simpl. apply elem_of_app. right. left.
  - simpl in *. destruct (mongo_register_dichotomy body now data) as [Hd | Hd];
      rewrite Hd in Hfirst; [|done].
    injection Hfirst as <- _. simpl. apply elem_of_app. right. left.
Qed.

(** *** The team numbers of a Ledger the store wrote *)

Lemma rtrim_rtrim (s : string) : rtrim (rtrim s) = rtrim s.
Proof.
  induction s as [|c r IH]; [done|].
  cbn [rtrim]. destruct (rtrim r) as [|c' r'] eqn:Hr.
  - destruct (is_ws c) eqn:Hc; [done|]. cbn [rtrim]. by rewrite Hc.
  - change (rtrim (String c (String c' r')))
      with (match rtrim (String c' r') with
            | EmptyString => if is_ws c then EmptyString else String c EmptyString
            | r'' => String c r''
            end).
    by rewrite IH.
Qed.

Lemma rtrim_head (c : ascii) (r : string) :
  is_ws c = false -> exists r', rtrim (String c r) = String c r'.
Proof.
  intros Hc. cbn [rtrim]. destruct (rtrim r); rewrite ?Hc; eauto.
Qed.

Lemma ltrim_head (s : string) :
  ltrim s = EmptyString \/ exists c r, ltrim s = String c r /\ is_ws c = false.
Proof.
  induction s as [|c r IH]; [by left|].
  cbn [ltrim]. destruct (is_ws c) eqn:Hc; [done|]. right. eauto.
Qed.

(** Trimming a trimmed string changes nothing. *)
Lemma trim_trim (s : string) : trim (trim s) = trim s.
Proof.
  unfold trim. destruct (ltrim_head s) as [-> | (c & r & -> & Hc)]; [done|].
  destruct (rtrim_head c r Hc) as [r' Hr']. rewrite Hr'.
  cbn [ltrim]. rewrite Hc, <- Hr'. apply rtrim_rtrim.
Qed.

Lemma storedTeamNumber_idempotent (db : Backend) (team : string) :
  db ∈ backends ->
  storedTeamNumber db (storedTeamNumber db team) = storedTeamNumber db team.
Proof.
  intros [-> | ->]%in_backends; [done | apply trim_trim].
Qed.

(** Every mutation keeps the Ledger as the store writes it. *)
Lemma ledgerAsWritten_run (db : Backend) (m : App.Mutation) (data : Data) :
  db ∈ backends -> ledgerAsWritten db data -> ledgerAsWritten db (App.run db m data).
Proof.
  intros Hdb Hwritten.
  assert (forall r, r ∈ registrations (App.run db m data) ->
            r ∈ registrations data
            \/ exists body now,
                 r = newRegistration (storedTeamNumber db (req_teamNumber body)) body now)
    as Helems.
  { destruct (in_backends db Hdb) as [-> | ->].
    - intros r. destruct m as [body now|team|p|target updates|target|items]; simpl.
      + destruct (register_state jsonStore body now data) as [-> | ->]; [by left|]. simpl.
        destruct (json_register_dichotomy body now data) as [-> | ->]; [|by left].
        simpl. intros [Hr | ->%list_elem_of_singleton]%elem_of_app; [by left|].
        right. by exists body, now.
      + intros [_ Hr]%list_elem_of_filter. by left.
      + rewrite post_state. simpl. rewrite json_create_registrations. by left.
      + rewrite json_update_registrations. by left.
      + intros [_ Hr]%list_elem_of_filter. by left.
      + by left.
    - intros r. destruct m as [body now|team|p|target updates|target|items]; simpl.
      + destruct (register_state mongoStore body now data) as [-> | ->]; [by left|]. simpl.
        destruct (mongo_register_dichotomy body now data) as [-> | ->]; [|by left].
        simpl. intros [Hr | ->%list_elem_of_singleton]%elem_of_app; [by left|].
        right. by exists body, now.
      + unfold MongoStore.deleteRegistration.
        pose proof (deleteOne_sublist (fun r => teamNumber r = trim team)
                      (registrations data)) as Hs.
        destruct (Collection.deleteOne _ _) as [regs' n]. simpl in *.
        intros Hr. left. by eapply elem_of_sublist.
      + rewrite post_state. simpl. rewrite mongo_create_registrations. by left.
      + rewrite mongo_update_registrations. by left.
      + unfold MongoStore.deleteProblemStatement.
        destruct (Collection.deleteOne _ _) as [ps' n]. simpl.
        intros [_ Hr]%list_elem_of_filter. by left.
      + by left. }
  intros r [Hr | (body & now & ->)]%Helems; [by apply Hwritten|].
  simpl. by apply storedTeamNumber_idempotent.
Qed.

(** In a Ledger the store wrote, a request under the very team number of a
    registration is rejected, also after mutations that spare it. *)
Lemma same_team_number_rejected (db : Backend) (data : Data) (r : Registration)
    (body : RegistrationRequest) (now : string) (ms : list App.Mutation) :
  db ∈ backends -> ledgerAsWritten db data ->
  r ∈ registrations data -> teamNumber r = req_teamNumber body ->
  Forall (sparing db r) ms ->
  createRegistrationAtomic db body now (App.runAll db ms data)
  = (App.runAll db ms data, None).
Proof.
  intros Hdb Hwritten Hr Hteam Hms.
  apply (stays_rejected db data r body now ms); [done | done | | done].
  rewrite <- Hteam. symmetry. by apply Hwritten.
Qed.

(** ** The two stores side by side *)

Lemma count_ge_max1 (n : nat) (q : Q) :
  (1 <= q)%Q -> count_ge n (VNum (MongoStore.max1 q)) = count_ge n (VNum q).
Proof.
  intros Hq. rewrite !count_ge_num. f_equal.
  unfold count_lt, ToNumber, number_lt.
  destruct (Qltb _ q) eqn:Hlt.
  - apply Qltb_true. rewrite (max1_id q Hq). by apply Qltb_true.
  - apply Qltb_false. rewrite (max1_id q Hq). by apply Qltb_false.
Qed.

(** On a request whose team number has no surrounding white space, and
    with every stored [maxSelections] a number that is at least 1, the two
    stores take the same decision and write the same record. *)
Lemma backends_agree_on_normalised (body : RegistrationRequest) (now : string)
    (data : Data) :
  trim (req_teamNumber body) = req_teamNumber body ->
  (forall p, p ∈ problemStatements data ->
             exists q, maxSelections p = VNum q /\ (1 <= q)%Q) ->
  JsonStore.createRegistrationAtomic body now data
  = MongoStore.createRegistrationAtomic body now data.
Proof.
  intros Htrim Hmax.
  unfold JsonStore.createRegistrationAtomic, MongoStore.createRegistrationAtomic,
    Collection.findOne, Collection.countDocuments, Collection.insertOne.
  rewrite Htrim, find_some.
  destruct (find _ (registrations data)) as [r|] eqn:Hr.
  { by rewrite bool_decide_eq_true_2 by eauto. }
  rewrite bool_decide_eq_false_2 by (intros [? ?]; done).
  destruct (find _ (problemStatements data)) as [p|] eqn:Hp; [|done].
  fold (ledgerCount (id p) data).
  destruct (Hmax p (proj1 (find_Some _ _ _ Hp))) as (q & Hq & Hq1).
  rewrite Hq. unfold MongoStore.maxSel. simpl MongoStore.parsedMax.
  rewrite count_ge_max1 by done.
  destruct (count_ge _ _); [done|].
  cbn [teamNumber newRegistration].
  assert (some (fun r => teamNumber r = req_teamNumber body) (registrations data)
          = false) as ->; [|done].
  apply some_false. exact (proj1 (find_None _ _) Hr).
Qed.

(** C10 at the failing inputs. With team T1 registered, the request of
    team " T1" is accepted by the file store, which writes the team number
    down with its space, and rejected by the Mongo store. With a problem
    statement stored with [maxSelections] 0, the first request is rejected
    by the file store and accepted by the Mongo store. *)
Theorem backends_disagree :
  let now := "2025-01-02T00:00:00.000Z" in
  createRegistrationAtomic jsonStore (sampleRequest " T1" "ps001") now takenData
  = ({| problemStatements := problemStatements takenData;
        registrations :=
          registrations takenData
          ++ [newRegistration " T1" (sampleRequest " T1" "ps001") now] |},
     Some {| res_id := " T1"; changes := 1 |})
  /\ createRegistrationAtomic mongoStore (sampleRequest " T1" "ps001") now takenData
     = (takenData, None)
  /\ createRegistrationAtomic jsonStore (sampleRequest "T1" "ps900") now zeroData
     = (zeroData, None)
  /\ createRegistrationAtomic mongoStore (sampleRequest "T1" "ps900") now zeroData
     = ({| problemStatements := problemStatements zeroData;
           registrations := [newRegistration "T1" (sampleRequest "T1" "ps900") now] |},
        Some {| res_id := "T1"; changes := 1 |}).
Proof. repeat split; vm_compute; reflexivity. Qed.

(** * Further properties of the stores and of the handlers *)

(** ** What a mutation does to the Ledger *)

(** A mutation of either store removes registrations, or leaves the
    Ledger as it is, or appends one registration: for a problem statement of
    the Catalog, under a team number no registration has, the Catalog staying
    as it is. *)
Lemma run_ledger (db : Backend) (m : App.Mutation) (data : Data) :
  db ∈ backends ->
  registrations (App.run db m data) `sublist_of` registrations data
  \/ exists body now p,
       App.run db m data
       = {| problemStatements := problemStatements data;
            registrations :=
              registrations data
              ++ [newRegistration (storedTeamNumber db (req_teamNumber body)) body now] |}
       /\ p ∈ problemStatements data /\ id p = req_problemStatementId body
       /\ forall r, r ∈ registrations data ->
                    teamNumber r <> storedTeamNumber db (req_teamNumber body).
Proof.
  intros [-> | ->]%in_backends;
    destruct m as [body now|team|p|target updates|target|items]; simpl.
  - destruct (register_state jsonStore body now data) as [-> | ->]; [by left|]. simpl.
    destruct (json_register_outcome body now data)
      as [-> | (p & [Hp Hid]%find_Some & Hfree & _ & Hok)]; [by left|].
    right. exists body, now, p. rewrite Hok. simpl. split_and!; [done..|].
    exact (proj1 (some_false _ _) Hfree).
  - left. apply sublist_filter.
  - left. rewrite post_state. simpl. by rewrite json_create_registrations.
  - left. by rewrite json_update_registrations.
  - left. apply sublist_filter.
  - by left.
  - destruct (register_state mongoStore body now data) as [-> | ->]; [by left|]. simpl.
    destruct (mongo_register_outcome body now data)
      as [-> | (p & [Hp Hid]%find_Some & Hfree & _ & Hok)]; [by left|].
    right. exists body, now, p. rewrite Hok. simpl. split_and!; [done..|].
    rewrite mongo_taken in Hfree. exact (proj1 (some_false _ _) Hfree).
  - left. unfold MongoStore.deleteRegistration.
    pose proof (deleteOne_sublist (fun r => teamNumber r = trim team)
                  (registrations data)) as Hs.
    by destruct (Collection.deleteOne _ _) as [regs' n].
  - left. rewrite post_state. simpl. by rewrite mongo_create_registrations.
  - left. by rewrite mongo_update_registrations.
  - left. unfold MongoStore.deleteProblemStatement.
    destruct (Collection.deleteOne _ _) as [ps' n]. simpl. apply sublist_filter.
  - by left.
Qed.

(** X1. Team numbers stay unique: on either store, no mutation (a
    registration through the handler included) makes two registrations
    share a team number. *)
Theorem unique_teams_preserved :
  forall (db : Backend) (m : App.Mutation) (data : Data),
    db ∈ backends -> uniqueTeams data -> uniqueTeams (App.run db m data).
Proof.
  intros db m data Hdb Hnd. unfold uniqueTeams in *.
  destruct (run_ledger db m data Hdb) as [Hs | (body & now & p & -> & _ & _ & Hfree)].
  - eapply sublist_NoDup; [exact Hnd|]. by apply fmap_sublist.
  - simpl. rewrite fmap_app. apply NoDup_app. split_and!; [done | | apply NoDup_singleton].
    intros t [r [-> Hr]]%list_elem_of_fmap [Heq | []%elem_of_nil]%elem_of_cons.
    by apply (Hfree r Hr).
Qed.

(** The theorem on the Mongo store, for the registration of team T3 with
    ps001 full: T1 and T2 stay the only teams. *)
Lemma unique_teams_preserved_witness :
  uniqueTeams (App.run mongoBackend
                 (App.Register (sampleRequest "T3" "ps001") "2025-01-02T00:00:00.000Z")
                 fullData).
Proof.
  apply (unique_teams_preserved mongoBackend).
  - right. left.
  - unfold uniqueTeams. apply (bool_decide_unpack _). vm_compute. exact I.
Defined.

(** ** What a mutation does to the Catalog *)

Lemma register_catalog (db : Backend) (body : RegistrationRequest) (now : string)
    (data : Data) :
  db ∈ backends ->
  problemStatements (fst (App.register db body now data)) = problemStatements data.
Proof.
  intros Hdb. destruct (register_state db body now data) as [-> | ->]; [done|].
  destruct (in_backends db Hdb) as [-> | ->]; simpl.
  - by destruct (json_register_dichotomy body now data) as [-> | ->].
  - by destruct (mongo_register_dichotomy body now data) as [-> | ->].
Qed.

Lemma deleteRegistration_catalog (db : Backend) (team : string) (data : Data) :
  db ∈ backends ->
  problemStatements (fst (deleteRegistration db team data)) = problemStatements data.
Proof.
  intros [-> | ->]%in_backends; simpl; [done|].
  unfold MongoStore.deleteRegistration. by destruct (Collection.deleteOne _ _).
Qed.

(** The loop of [importFromJSON] appends, in order, the items whose
    identifier is not in the set. *)
Lemma import_fold_closed (stored : ProblemInput -> ProblemStatement) (ids : gset string)
    (items : list ProblemInput) (acc : list ProblemStatement) :
  fold_left
    (fun (acc : list ProblemStatement) ps =>
       if decide (in_id ps ∈ ids) then acc else acc ++ [stored ps])
    items acc
  = acc ++ (stored <$> filter (fun item => in_id item ∉ ids) items).
Proof.
  revert acc. induction items as [|item items IH]; intros acc; simpl.
  - by rewrite app_nil_r.
  - rewrite IH, filter_cons. destruct (decide (in_id item ∈ ids)) as [Hin|Hin].
    + by rewrite decide_False by (intros Hn; by apply Hn).
    + rewrite decide_True by done. by rewrite fmap_cons, <- app_assoc.
Qed.

(** What ordered [insertMany] leaves: the collection followed by some of
    the new documents, with keys still unique if they were. *)
Lemma insertMany_app {A} (key : A -> string) (new docs : list A) :
  exists added,
    Collection.insertMany key new docs = docs ++ added
    /\ added `sublist_of` new
    /\ (NoDup (key <$> docs) -> NoDup (key <$> docs ++ added)).
Proof.
  revert docs. induction new as [|doc new IH]; intros docs; simpl.
  - exists []. rewrite app_nil_r. done.
  - unfold Collection.insertOne. destruct (some _ docs) eqn:Hsome.
    + exists []. rewrite app_nil_r. split_and!; [done | apply sublist_nil_l | done].
    + destruct (IH (docs ++ [doc])) as (added & -> & Hsub & Hnd).
      exists (doc :: added). rewrite <- app_assoc. split_and!; [done | by constructor |].
      intros Hdocs. rewrite (assoc_L (++) docs [doc] added : docs ++ doc :: added = _).
      apply Hnd. rewrite fmap_app. apply NoDup_app. split_and!; [done | | apply NoDup_singleton].
      intros k [d [-> Hd]]%list_elem_of_fmap [Heq | []%elem_of_nil]%elem_of_cons.
      by apply (proj1 (some_false _ _) Hsome d Hd).
Qed.

(** When the new documents carry different keys, none of them in the
    collection, all of them are inserted. *)
Lemma insertMany_all {A} (key : A -> string) (new docs : list A) :
  NoDup (key <$> new) -> (forall x, x ∈ new -> key x ∉ (key <$> docs)) ->
  Collection.insertMany key new docs = docs ++ new.
Proof.
  revert docs. induction new as [|doc new IH]; intros docs Hnd Hfresh; simpl.
  - by rewrite app_nil_r.
  - rewrite fmap_cons in Hnd. apply NoDup_cons in Hnd as [Hdoc Hnd].
    unfold Collection.insertOne.
    assert (some (fun d => key d = key doc) docs = false) as ->.
    { apply some_false. intros d Hd Heq. apply (Hfresh doc); [left|].
      rewrite <- Heq. by apply list_elem_of_fmap_2. }
    rewrite IH, <- app_assoc; [done | done |].
    intros x Hx. rewrite fmap_app. intros [Hk | Hk]%elem_of_app.
    + apply (Hfresh x); [by right | done].
    + apply list_elem_of_singleton in Hk. apply Hdoc. rewrite <- Hk.
      by apply list_elem_of_fmap_2.
Qed.

Lemma fresh_filter (ps : list ProblemStatement) (items : list ProblemInput) :
  filter (fun item => in_id item ∉ (list_to_set (id <$> ps) : gset string)) items
  = filter (fun item => in_id item ∉ (id <$> ps)) items.
Proof. apply list_filter_iff. intros item. by rewrite elem_of_list_to_set. Qed.

(** [importFromJSON] of the file store in closed form. *)
Lemma json_import_closed (items : list ProblemInput) (data : Data) :
  JsonStore.importFromJSON items data
  = {| problemStatements :=
         problemStatements data
         ++ (JsonStore.stored
               <$> filter (fun item => in_id item ∉ (id <$> problemStatements data)) items);
       registrations := registrations data |}.
Proof.
  unfold JsonStore.importFromJSON. by rewrite import_fold_closed, fresh_filter.
Qed.

(** The documents [importFromJSON] of the Mongo store hands to
    [insertMany]. *)
Lemma mongo_import_closed (items : list ProblemInput) (data : Data) :
  MongoStore.importFromJSON items data
  = {| problemStatements :=
         Collection.insertMany id
           (MongoStore.stored
              <$> filter (fun item => in_id item ∉ (id <$> problemStatements data)) items)
           (problemStatements data);
       registrations := registrations data |}.
Proof.
  unfold MongoStore.importFromJSON. by rewrite import_fold_closed, fresh_filter.
Qed.

Lemma ids_insert (ps : list ProblemStatement) (i : nat) (p p' : ProblemStatement) :
  ps !! i = Some p -> id p' = id p -> id <$> <[i := p']> ps = id <$> ps.
Proof.
  intros Hi Hid. rewrite list_fmap_insert, Hid. apply list_insert_id.
  by rewrite list_lookup_fmap, Hi.
Qed.

Lemma json_update_ids (target : string) (updates : Updates) (data : Data) :
  id <$> problemStatements (fst (JsonStore.updateProblemStatement target updates data))
  = id <$> problemStatements data.
Proof.
  unfold JsonStore.updateProblemStatement.
  destruct (list_find _ _) as [[i p]|] eqn:Hfind; [|done]. simpl.
  apply list_find_Some in Hfind as (Hi & _). by eapply ids_insert.
Qed.

Lemma mongo_update_ids (target : string) (updates : Updates) (data : Data) :
  id <$> problemStatements (fst (MongoStore.updateProblemStatement target updates data))
  = id <$> problemStatements data.
Proof.
  unfold MongoStore.updateProblemStatement, Collection.updateOne.
  destruct (list_find _ _) as [[i p]|] eqn:Hfind; [|done]. simpl.
  apply list_find_Some in Hfind as (Hi & _). by eapply ids_insert.
Qed.

(** An identifier stays in the Catalog unless its problem statement is
    deleted. *)
Lemma run_ids_kept (db : Backend) (m : App.Mutation) (data : Data) (k : string) :
  db ∈ backends ->
  k ∈ (id <$> problemStatements data) -> m <> App.DeleteProblem k ->
  k ∈ (id <$> problemStatements (App.run db m data)).
Proof.
  intros Hdb Hk Hm.
  destruct m as [body now|team|p|target updates|target|items].
  - simpl. by rewrite register_catalog.
  - simpl. by rewrite deleteRegistration_catalog.
  - simpl. rewrite post_state. destruct (in_backends db Hdb) as [-> | ->]; simpl.
    + unfold JsonStore.createProblemStatement. destruct (some _ _); [done|]. simpl.
      rewrite fmap_app. apply elem_of_app. by left.
    + unfold MongoStore.createProblemStatement, Collection.insertOne.
      destruct (some _ _); [done|]. simpl. rewrite fmap_app. apply elem_of_app. by left.
  - destruct (in_backends db Hdb) as [-> | ->]; simpl.
    + by rewrite json_update_ids.
    + by rewrite mongo_update_ids.
  - apply list_elem_of_fmap in Hk as (p & -> & Hp).
    assert (id p <> target) as Hne by congruence.
    apply list_elem_of_fmap_2.
    destruct (in_backends db Hdb) as [-> | ->]; simpl.
    + apply list_elem_of_filter. done.
    + unfold MongoStore.deleteProblemStatement.
      pose proof (deleteOne_keeps (fun p => id p = target) (problemStatements data) p Hp Hne)
        as Hkeep.
      by destruct (Collection.deleteOne _ _) as [ps' n].
  - destruct (in_backends db Hdb) as [-> | ->].
    + change (App.run jsonBackend (App.Import items) data)
        with (JsonStore.importFromJSON items data).
      rewrite json_import_closed. simpl. rewrite fmap_app. apply elem_of_app. by left.
    + change (App.run mongoBackend (App.Import items) data)
        with (MongoStore.importFromJSON items data).
      rewrite mongo_import_closed. simpl.
      destruct (insertMany_app id
                  (MongoStore.stored
                     <$> filter (fun item => in_id item ∉ (id <$> problemStatements data))
                                items)
                  (problemStatements data)) as (added & -> & _).
      rewrite fmap_app. apply elem_of_app. by left.
Qed.

(** Deleting a problem statement leaves no registration that refers to
    it. *)
Lemma deleteProblem_cascade (db : Backend) (target : string) (data : Data)
    (r : Registration) :
  db ∈ backends ->
  r ∈ registrations (fst (deleteProblemStatement db target data)) ->
  problemStatementId r <> target.
Proof.
  intros [-> | ->]%in_backends; simpl.
  - by intros [Hne _]%list_elem_of_filter.
  - unfold MongoStore.deleteProblemStatement.
    destruct (Collection.deleteOne _ _) as [ps' n]. simpl.
    by intros [Hne _]%list_elem_of_filter.
Qed.

(** X2. Referential validity is kept: on either store, if every
    registration refers to a stored problem statement, the same holds after
    any mutation; deleting a problem statement takes its registrations
    along. *)
Theorem referential_validity_preserved :
  forall (db : Backend) (m : App.Mutation) (data : Data),
    db ∈ backends -> referentiallyValid data -> referentiallyValid (App.run db m data).
Proof.
  intros db m data Hdb Hvalid r Hr.
  destruct (run_ledger db m data Hdb)
    as [Hs | (body & now & p & Hrun & Hp & Hid & _)].
  - assert (r ∈ registrations data) as Hold by (by eapply elem_of_sublist).
    apply run_ids_kept; [done | by apply Hvalid |].
    intros ->. simpl in Hr. by apply (deleteProblem_cascade db _ data r Hdb Hr).
  - rewrite Hrun in *. simpl in *.
    apply elem_of_app in Hr as [Hr | ->%list_elem_of_singleton]; [by apply Hvalid|].
    simpl. rewrite <- Hid. by apply list_elem_of_fmap_2.
Qed.

(** The theorem on the file store: after ps001 is deleted from the full
    sample, no registration is left without its problem statement. *)
Lemma referential_validity_preserved_witness :
  referentiallyValid (App.run jsonBackend (App.DeleteProblem "ps001") fullData).
Proof.
  apply (referential_validity_preserved jsonBackend).
  - left.
  - intros r Hr. simpl in *.
    repeat (apply elem_of_cons in Hr as [-> | Hr]; [left|]). by apply elem_of_nil in Hr.
Defined.

(** ** Unique identifiers *)

Lemma json_stored_ids (items : list ProblemInput) :
  id <$> (JsonStore.stored <$> items) = in_id <$> items.
Proof. induction items as [|item items IH]; [done|]. rewrite !fmap_cons. by f_equal. Qed.

Lemma mongo_stored_ids (items : list ProblemInput) :
  id <$> (MongoStore.stored <$> items) = in_id <$> items.
Proof. induction items as [|item items IH]; [done|]. rewrite !fmap_cons. by f_equal. Qed.

Lemma append_fresh_ids (ps : list ProblemStatement) (p : ProblemStatement) :
  NoDup (id <$> ps) -> some (fun q => id q = id p) ps = false ->
  NoDup (id <$> ps ++ [p]).
Proof.
  intros Hnd Hfresh. rewrite fmap_app. apply NoDup_app.
  split_and!; [done | | apply NoDup_singleton].
  intros k Hk [Heq | []%elem_of_nil]%elem_of_cons. subst k.
  by apply (some_id_false ps (id p)).
Qed.

Lemma json_run_uniqueIds (m : App.Mutation) (data : Data) :
  uniqueIds data -> distinctImport m -> uniqueIds (App.run jsonStore m data).
Proof.
  unfold uniqueIds. intros Hnd Hm.
  destruct m as [body now|team|p|target updates|target|items].
  - simpl. by rewrite (register_catalog jsonBackend) by left.
  - done.
  - simpl. rewrite post_state. simpl. unfold JsonStore.createProblemStatement.
    destruct (some _ _) eqn:Hsome; [done|]. simpl. by apply append_fresh_ids.
  - simpl. by rewrite json_update_ids.
  - simpl. eapply sublist_NoDup; [exact Hnd|]. apply fmap_sublist, sublist_filter.
  - change (App.run jsonStore (App.Import items) data)
      with (JsonStore.importFromJSON items data).
    rewrite json_import_closed. simpl in *. rewrite fmap_app, json_stored_ids.
    apply NoDup_app. split_and!; [done | |].
    + intros k Hk [item [-> [Hfresh _]%list_elem_of_filter]]%list_elem_of_fmap. done.
    + eapply sublist_NoDup; [exact Hm|]. apply fmap_sublist, sublist_filter.
Qed.

Lemma mongo_run_uniqueIds (m : App.Mutation) (data : Data) :
  uniqueIds data -> uniqueIds (App.run mongoStore m data).
Proof.
  unfold uniqueIds. intros Hnd.
  destruct m as [body now|team|p|target updates|target|items].
  - simpl. by rewrite (register_catalog mongoBackend) by (right; left).
  - simpl. by rewrite (deleteRegistration_catalog mongoBackend) by (right; left).
  - simpl. rewrite post_state. simpl.
    unfold MongoStore.createProblemStatement, Collection.insertOne.
    destruct (some _ _) eqn:Hsome; [done|]. simpl. by apply append_fresh_ids.
  - simpl. by rewrite mongo_update_ids.
  - simpl. unfold MongoStore.deleteProblemStatement.
    pose proof (deleteOne_sublist (fun p => id p = target) (problemStatements data)) as Hs.
    destruct (Collection.deleteOne _ _) as [ps' n]. simpl in *.
    eapply sublist_NoDup; [exact Hnd|]. by apply fmap_sublist.
  - change (App.run mongoStore (App.Import items) data)
      with (MongoStore.importFromJSON items data).
    rewrite mongo_import_closed. simpl.
    destruct (insertMany_app id
                (MongoStore.stored
                   <$> filter (fun item => in_id item ∉ (id <$> problemStatements data))
                              items)
                (problemStatements data)) as (added & -> & _ & Hkeep).
    by apply Hkeep.
Qed.

(** X3. Identifiers stay unique: on the Mongo store after every mutation
    (the unique index refuses the rest), on the file store after every
    mutation except the import of a list that repeats an identifier. *)
Theorem unique_ids_preserved :
  forall (m : App.Mutation) (data : Data),
    uniqueIds data ->
    uniqueIds (App.run mongoStore m data)
    /\ (distinctImport m -> uniqueIds (App.run jsonStore m data)).
Proof.
  intros m data Hnd. split; [by apply mongo_run_uniqueIds|].
  intros Hm. by apply json_run_uniqueIds.
Qed.

(** The theorem for the import of ps001 (stored) and ps002 (new) into the
    open sample, on the file store. *)
Lemma unique_ids_preserved_witness :
  uniqueIds (App.run jsonStore
               (App.Import [sampleInput "ps001" (VNum 5); sampleInput "ps002" (VNum 3)])
               openData).
Proof.
  apply (unique_ids_preserved
           (App.Import [sampleInput "ps001" (VNum 5); sampleInput "ps002" (VNum 3)])
           openData).
  - unfold uniqueIds. apply (bool_decide_unpack _). vm_compute. exact I.
  - simpl. apply (bool_decide_unpack _). vm_compute. exact I.
Defined.

(** X4. The file store checks the items of an import against the
    identifiers stored before the call only: an item with a new identifier
    that comes twice in the list is stored twice. *)
Theorem json_import_repeats :
  forall (item : ProblemInput) (data : Data),
    in_id item ∉ (id <$> problemStatements data) ->
    problemStatements (importFromJSON jsonStore [item; item] data)
    = problemStatements data ++ [JsonStore.stored item; JsonStore.stored item]
    /\ ~ uniqueIds (importFromJSON jsonStore [item; item] data).
Proof.
  intros item data Hfresh.
  change (importFromJSON jsonStore [item; item] data)
    with (JsonStore.importFromJSON [item; item] data).
  rewrite json_import_closed. unfold uniqueIds. cbn [problemStatements].
  rewrite !filter_cons, filter_nil, !decide_True by done. split; [done|].
  rewrite fmap_app. intros (_ & _ & Hnd)%NoDup_app.
  rewrite !fmap_cons in Hnd. apply NoDup_cons in Hnd as [Hin _]. apply Hin. left.
Qed.

Lemma json_import_repeats_witness :
  ~ uniqueIds (importFromJSON jsonStore
                 [sampleInput "ps002" (VNum 3); sampleInput "ps002" (VNum 3)] openData).
Proof.
  apply (json_import_repeats (sampleInput "ps002" (VNum 3)) openData).
  simpl. intros [[=] | []%elem_of_nil]%elem_of_cons.
Defined.

(** ** The capacities the Mongo store writes *)

Lemma mongo_stored_normalised (v : value) :
  exists q, VNum (MongoStore.maxSel v) = VNum q /\ (1 <= q)%Q.
Proof. exists (MongoStore.maxSel v). split; [done | apply mongo_maxSel_ge_1]. Qed.

(** X5. The Mongo store keeps every stored [maxSelections] a number that
    is at least 1: if that holds of the Catalog, it holds after any
    mutation, whatever the values sent. *)
Theorem mongo_capacities_normalised :
  forall (m : App.Mutation) (data : Data),
    capacitiesNormalised data -> capacitiesNormalised (App.run mongoStore m data).
Proof.
  intros m data Hnorm x Hx.
  destruct m as [body now|team|p|target updates|target|items].
  - simpl in Hx. rewrite (register_catalog mongoBackend) in Hx by (right; left).
    by apply Hnorm.
  - simpl in Hx. rewrite (deleteRegistration_catalog mongoBackend) in Hx by (right; left).
    by apply Hnorm.
  - simpl in Hx. rewrite post_state in Hx. simpl in Hx.
    unfold MongoStore.createProblemStatement, Collection.insertOne in Hx.
    destruct (some _ _); [by apply Hnorm|]. simpl in Hx.
    apply elem_of_app in Hx as [Hx | ->%list_elem_of_singleton]; [by apply Hnorm|].
    apply mongo_stored_normalised.
  - simpl in Hx. unfold MongoStore.updateProblemStatement, Collection.updateOne in Hx.
    destruct (list_find _ _) as [[i p]|] eqn:Hfind; [|by apply Hnorm]. simpl in Hx.
    apply list_find_Some in Hfind as (Hi & _).
    apply elem_of_insert_inv in Hx as [-> | Hx]; [|by apply Hnorm].
    unfold MongoStore.applySet. simpl. destruct (_ || _).
    + apply mongo_stored_normalised.
    + apply Hnorm. by eapply list_elem_of_lookup_2.
  - simpl in Hx. unfold MongoStore.deleteProblemStatement in Hx.
    pose proof (deleteOne_sublist (fun p => id p = target) (problemStatements data)) as Hs.
    destruct (Collection.deleteOne _ _) as [ps' n]. simpl in *.
    apply Hnorm. by eapply elem_of_sublist.
  - change (App.run mongoStore (App.Import items) data)
      with (MongoStore.importFromJSON items data) in Hx.
    rewrite mongo_import_closed in Hx. simpl in Hx.
    apply insertMany_elems in Hx as [Hx | Hx]; [by apply Hnorm|].
    apply list_elem_of_fmap in Hx as (item & -> & _). apply mongo_stored_normalised.
Qed.

Lemma openData_normalised : capacitiesNormalised openData.
Proof.
  intros p ->%list_elem_of_singleton. exists 2%Q. split; [done|]. vm_compute. discriminate.
Qed.

(** The theorem for an update that sends the text "many" as
    [maxSelections]. *)
Lemma mongo_capacities_normalised_witness :
  capacitiesNormalised
    (App.run mongoStore
       (App.UpdateProblem "ps001"
          {| u_title := VUndef; u_description := VUndef; u_max_selections := VUndef;
             u_maxSelections := VStr "many"; u_category := VUndef; u_difficulty := VUndef;
             u_technologies := VUndef |})
       openData).
Proof. apply mongo_capacities_normalised. apply openData_normalised. Defined.

(** ** The two stores on normalised data *)

Lemma count_lt_max1 (n : nat) (q : Q) :
  (1 <= q)%Q -> count_lt n (VNum (MongoStore.max1 q)) = count_lt n (VNum q).
Proof.
  intros Hq. pose proof (count_ge_max1 n q Hq) as Hge. rewrite !count_ge_num in Hge.
  by destruct (count_lt n (VNum (MongoStore.max1 q))), (count_lt n (VNum q)).
Qed.

(** X6. On a Catalog whose every [maxSelections] is a number that is at
    least 1, the two stores report the same selected counts and the same
    availability, and they answer a registration request whose team number
    has no surrounding white space alike, with the same record written. *)
Theorem stores_agree_on_normalised :
  forall data : Data,
    capacitiesNormalised data ->
    selected_count <$> getAllProblemStatements jsonStore data
    = selected_count <$> getAllProblemStatements mongoStore data
    /\ is_available <$> getAllProblemStatements jsonStore data
       = is_available <$> getAllProblemStatements mongoStore data
    /\ forall body now,
         trim (req_teamNumber body) = req_teamNumber body ->
         createRegistrationAtomic jsonStore body now data
         = createRegistrationAtomic mongoStore body now data.
Proof.
  intros data Hnorm. simpl.
  unfold JsonStore.getAllProblemStatements, MongoStore.getAllProblemStatements.
  rewrite <- !list_fmap_compose. split_and!.
  - done.
  - apply list_fmap_ext. intros i p Hp. simpl.
    destruct (Hnorm p) as (q & -> & Hq); [by eapply list_elem_of_lookup_2|].
    unfold MongoStore.maxSel. simpl. by rewrite count_lt_max1.
  - intros body now Htrim. by apply backends_agree_on_normalised.
Qed.

Lemma stores_agree_on_normalised_witness :
  createRegistrationAtomic jsonStore alphaRequest "2025-01-02T00:00:00.000Z" openData
  = createRegistrationAtomic mongoStore alphaRequest "2025-01-02T00:00:00.000Z" openData.
Proof.
  apply (stores_agree_on_normalised openData openData_normalised). reflexivity.
Defined.

(** ** Registering and deleting a registration *)

Lemma deleteOne_last {A} (P : A -> Prop) `{!forall x, Decision (P x)}
    (docs : list A) (y : A) :
  (forall x, x ∈ docs -> ~ P x) -> P y ->
  Collection.deleteOne P (docs ++ [y]) = (docs, 1%nat).
Proof.
  intros Hno Hy. unfold Collection.deleteOne.
  assert (list_find P (docs ++ [y]) = Some (length docs, y)) as ->.
  { apply list_find_Some. split_and!.
    - by rewrite list_lookup_middle.
    - done.
    - intros j x Hj Hlt. apply Hno. rewrite lookup_app_l in Hj by done.
      by eapply list_elem_of_lookup_2. }
  by rewrite delete_middle, app_nil_r.
Qed.

(** X7. Deleting the registration of the team just registered undoes the
    registration: on either store, after [createRegistrationAtomic] has
    committed a request, [deleteRegistration] with the team number of the
    request returns the change count 1 and leaves the data exactly as they
    were before the registration. *)
Theorem register_then_delete :
  forall (db : Backend) (body : RegistrationRequest) (now : string)
         (data committed : Data) (w : WriteResult),
    db ∈ backends ->
    createRegistrationAtomic db body now data = (committed, Some w) ->
    deleteRegistration db (req_teamNumber body) committed = (data, 1%nat).
Proof.
  intros db body now data committed w [-> | ->]%in_backends; simpl.
  - destruct (json_register_outcome body now data)
      as [-> | (p & _ & Hfree & _ & ->)]; [done|].
    intros [= <- _]. unfold JsonStore.deleteRegistration. simpl.
    assert (filter (fun r => teamNumber r <> req_teamNumber body)
                   (registrations data
                    ++ [newRegistration (req_teamNumber body) body now])
            = registrations data) as ->.
    { rewrite filter_app, filter_cons, decide_False by (intros Hn; by apply Hn).
      rewrite filter_nil, app_nil_r. apply filter_all.
      exact (proj1 (some_false _ _) Hfree). }
    rewrite length_app. simpl. destruct data. simpl. f_equal. lia.
  - destruct (mongo_register_outcome body now data)
      as [-> | (p & _ & Hfree & _ & ->)]; [done|].
    intros [= <- _]. unfold MongoStore.deleteRegistration. simpl.
    rewrite mongo_taken in Hfree.
    rewrite (deleteOne_last (fun r => teamNumber r = trim (req_teamNumber body)));
      [by destruct data | exact (proj1 (some_false _ _) Hfree) | done].
Qed.

Lemma register_then_delete_witness :
  deleteRegistration mongoStore " T1 "
    (fst (createRegistrationAtomic mongoStore (sampleRequest " T1 " "ps001")
            "2025-01-02T00:00:00.000Z" openData))
  = (openData, 1%nat).
Proof.
  apply (register_then_delete mongoBackend (sampleRequest " T1 " "ps001")
           "2025-01-02T00:00:00.000Z" openData _
           {| res_id := "T1"; changes := 1 |}).
  - right. left.
  - reflexivity.
Defined.

(** ** Acceptance and the availability shown *)

Lemma count_ge_lt (n : nat) (v : value) :
  ToNumber v <> NaN -> count_ge n v = negb (count_lt n v).
Proof.
  unfold count_ge, count_lt, number_ge. by destruct (ToNumber v).
Qed.

Lemma count_NaN (n : nat) (v : value) :
  ToNumber v = NaN -> count_ge n v = false /\ count_lt n v = false.
Proof. unfold count_ge, count_lt. by intros ->. Qed.

Lemma countByProblem_count (regs : list Registration) (k : string) :
  default 0%nat (countByProblem regs !! k)
  = length (filter (fun r => problemStatementId r = k) regs).
Proof. unfold countByProblem. by rewrite countByProblem_fold, lookup_empty. Qed.

(** [createRegistrationAtomic] commits exactly when the team number is free
    and the first problem statement with the identifier has not reached the
    capacity the store compares with. *)
Lemma json_accept_iff (body : RegistrationRequest) (now : string) (data : Data) :
  is_Some (snd (JsonStore.createRegistrationAtomic body now data))
  <-> JsonStore.isTeamNumberTaken (req_teamNumber body) data = false
      /\ exists i p,
           list_find (fun p => id p = req_problemStatementId body) (problemStatements data)
           = Some (i, p)
           /\ count_ge (ledgerCount (id p) data) (maxSelections p) = false.
Proof.
  unfold JsonStore.createRegistrationAtomic, JsonStore.isTeamNumberTaken, find.
  destruct (some _ (registrations data)).
  { split; [by intros [? [=]] | by intros [[=] _]]. }
  destruct (list_find _ (problemStatements data)) as [[i p]|]; simpl.
  - fold (ledgerCount (id p) data). destruct (count_ge _ _) eqn:Hge; simpl.
    + split; [by intros [? [=]] | intros (_ & i' & p' & [= <- <-] & Hge')]. congruence.
    + split; [intros _; split; [done|]; by exists i, p | by eauto].
  - split; [by intros [? [=]] | by intros (_ & i & p & [=] & _)].
Qed.

Lemma mongo_accept_iff (body : RegistrationRequest) (now : string) (data : Data) :
  is_Some (snd (MongoStore.createRegistrationAtomic body now data))
  <-> MongoStore.isTeamNumberTaken (req_teamNumber body) data = false
      /\ exists i p,
           list_find (fun p => id p = req_problemStatementId body) (problemStatements data)
           = Some (i, p)
           /\ count_ge (ledgerCount (id p) data)
                       (VNum (MongoStore.maxSel (maxSelections p))) = false.
Proof.
  split.
  - destruct (mongo_register_outcome body now data)
      as [-> | (p & Hp & Hfree & Hroom & _)]; [by intros [? [=]]|].
    intros _. split; [done|]. unfold find in Hp.
    destruct (list_find _ _) as [[i p']|]; [|done]. injection Hp as ->. by exists i, p.
  - intros (Hfree & i & p & Hfind & Hroom). rewrite mongo_taken in Hfree.
    unfold MongoStore.createRegistrationAtomic, Collection.findOne,
      Collection.countDocuments, Collection.insertOne.
    rewrite find_some in Hfree. apply bool_decide_eq_false in Hfree.
    destruct (find _ (registrations data)) as [r|] eqn:Hr; [by destruct Hfree|].
    unfold find at 1. rewrite Hfind. simpl. fold (ledgerCount (id p) data).
    rewrite Hroom. simpl.
    assert (some (fun r => teamNumber r = trim (req_teamNumber body)) (registrations data)
            = false) as ->; [|by eauto].
    apply some_false. exact (proj1 (find_None _ _) Hr).
Qed.

(** X8. Registration and listing agree on availability. On the Mongo
    store, [createRegistrationAtomic] commits a request exactly when the
    team number is free and the first problem statement with the requested
    id is listed by [getAllProblemStatements] with [is_available] true. The
    same holds on the file store when every stored [maxSelections] converts
    to a number. *)
Theorem accepted_iff_available :
  forall (body : RegistrationRequest) (now : string) (data : Data),
    let shown (db : Store) :=
      exists i p v,
        list_find (fun p => id p = req_problemStatementId body) (problemStatements data)
        = Some (i, p)
        /\ getAllProblemStatements db data !! i = Some v
        /\ is_available v = true in
    (is_Some (snd (createRegistrationAtomic mongoStore body now data))
     <-> isTeamNumberTaken mongoStore (req_teamNumber body) data = false
         /\ shown mongoStore)
    /\ ((forall p, p ∈ problemStatements data -> ToNumber (maxSelections p) <> NaN) ->
        (is_Some (snd (createRegistrationAtomic jsonStore body now data))
         <-> isTeamNumberTaken jsonStore (req_teamNumber body) data = false
             /\ shown jsonStore)).
Proof.
  intros body now data shown. split.
  - simpl. rewrite mongo_accept_iff. apply and_iff_compat_l. unfold shown. simpl.
    unfold MongoStore.getAllProblemStatements. split.
    + intros (i & p & Hfind & Hroom). exists i, p. eexists. split; [done|].
      apply list_find_Some in Hfind as Hi. destruct Hi as (Hi & _).
      rewrite list_lookup_fmap, Hi. simpl. split; [done|]. simpl.
      rewrite countByProblem_count. fold (ledgerCount (id p) data).
      rewrite count_ge_num in Hroom. by apply negb_false_iff.
    + intros (i & p & v & Hfind & Hv & Hav). exists i, p. split; [done|].
      apply list_find_Some in Hfind as Hi. destruct Hi as (Hi & _).
      rewrite list_lookup_fmap, Hi in Hv. simpl in Hv. injection Hv as <-.
      simpl in Hav. rewrite countByProblem_count in Hav.
      fold (ledgerCount (id p) data) in Hav. by rewrite count_ge_num, Hav.
  - intros Hnum. simpl. rewrite json_accept_iff. apply and_iff_compat_l.
    unfold shown. simpl. unfold JsonStore.getAllProblemStatements. split.
    + intros (i & p & Hfind & Hroom). exists i, p. eexists. split; [done|].
      apply list_find_Some in Hfind as Hi. destruct Hi as (Hi & _).
      rewrite list_lookup_fmap, Hi. simpl. split; [done|]. simpl.
      rewrite countByProblem_count. fold (ledgerCount (id p) data).
      rewrite count_ge_lt in Hroom by (apply Hnum; by eapply list_elem_of_lookup_2).
      by apply negb_false_iff.
    + intros (i & p & v & Hfind & Hv & Hav). exists i, p. split; [done|].
      apply list_find_Some in Hfind as Hi. destruct Hi as (Hi & _).
      rewrite list_lookup_fmap, Hi in Hv. simpl in Hv. injection Hv as <-.
      simpl in Hav. rewrite countByProblem_count in Hav.
      fold (ledgerCount (id p) data) in Hav.
      rewrite count_ge_lt by (apply Hnum; by eapply list_elem_of_lookup_2).
      by rewrite Hav.
Qed.

(** The theorem on the file store and the open sample: team T1 is
    accepted, so ps001 is listed as available. *)
Lemma accepted_iff_available_witness :
  exists i p v,
    list_find (fun p => id p = "ps001") (problemStatements openData) = Some (i, p)
    /\ getAllProblemStatements jsonStore openData !! i = Some v
    /\ is_available v = true.
Proof.
  destruct (accepted_iff_available alphaRequest "2025-01-02T00:00:00.000Z" openData)
    as [_ Hjson].
  assert (forall p, p ∈ problemStatements openData -> ToNumber (maxSelections p) <> NaN)
    as Hnum by (by intros p ->%list_elem_of_singleton).
  apply (proj1 (Hjson Hnum)). by eexists.
Defined.

(** X9. On the file store a stored [maxSelections] that does not convert
    to a number (a text such as "many", or a missing value) sets no limit:
    the problem statement is listed as not available, and every request of
    a free team number for it is committed all the same. *)
Theorem json_unlimited_without_number :
  forall (body : RegistrationRequest) (now : string) (data : Data)
         (i : nat) (p : ProblemStatement),
    list_find (fun p => id p = req_problemStatementId body) (problemStatements data)
    = Some (i, p) ->
    ToNumber (maxSelections p) = NaN ->
    isTeamNumberTaken jsonStore (req_teamNumber body) data = false ->
    is_Some (snd (createRegistrationAtomic jsonStore body now data))
    /\ is_available <$> (getAllProblemStatements jsonStore data !! i) = Some false.
Proof.
  intros body now data i p Hfind Hnan Hfree. split.
  - simpl. apply json_accept_iff. split; [done|]. exists i, p. split; [done|].
    by apply count_NaN.
  - simpl. unfold JsonStore.getAllProblemStatements.
    apply list_find_Some in Hfind as (Hi & _). rewrite list_lookup_fmap, Hi. simpl.
    f_equal. by apply count_NaN.
Qed.

Lemma json_unlimited_without_number_witness :
  is_Some (snd (createRegistrationAtomic jsonStore (sampleRequest "T9" "ps001")
                  "2025-01-02T00:00:00.000Z"
                  {| problemStatements := [sampleProblem "ps001" (VStr "many")];
                     registrations := registrations fullData |})).
Proof.
  apply (json_unlimited_without_number (sampleRequest "T9" "ps001")
           "2025-01-02T00:00:00.000Z"
           {| problemStatements := [sampleProblem "ps001" (VStr "many")];
              registrations := registrations fullData |}
           0%nat (sampleProblem "ps001" (VStr "many"))); reflexivity.
Defined.

(** ** The listings after a registration *)

(** X10. A committed registration counts once: on either store, after
    [createRegistrationAtomic] has committed a request,
    [getAllProblemStatements] shows every selected count as before, except
    the counts of the statements with the requested id, which are one
    higher, and [getAllRegistrations] lists one registration more. *)
Theorem commit_counts_once :
  forall (db : Backend) (body : RegistrationRequest) (now : string)
         (data committed : Data) (w : WriteResult),
    db ∈ backends ->
    createRegistrationAtomic db body now data = (committed, Some w) ->
    selected_count <$> getAllProblemStatements db committed
    = (fun v => (selected_count v
                 + if decide (pv_id v = req_problemStatementId body) then 1 else 0)%nat)
        <$> getAllProblemStatements db data
    /\ length (getAllRegistrations db committed)
       = S (length (getAllRegistrations db data)).
Proof.
  intros db body now data committed w Hdb Hcommit.
  assert (exists team,
            committed = {| problemStatements := problemStatements data;
                           registrations :=
                             registrations data ++ [newRegistration team body now] |})
    as [team ->].
  { destruct (in_backends db Hdb) as [-> | ->]; simpl in Hcommit.
    - destruct (json_register_dichotomy body now data) as [Hd | Hd];
        rewrite Hd in Hcommit; [|done]. injection Hcommit as <- _. by eexists.
    - destruct (mongo_register_dichotomy body now data) as [Hd | Hd];
        rewrite Hd in Hcommit; [|done]. injection Hcommit as <- _. by eexists. }
  assert (forall k,
            default 0%nat
              (countByProblem (registrations data ++ [newRegistration team body now]) !! k)
            = (default 0%nat (countByProblem (registrations data) !! k)
               + if decide (k = req_problemStatementId body) then 1 else 0)%nat) as Hcount.
  { intros k. rewrite !countByProblem_count, filter_app, length_app, filter_cons. simpl.
    destruct (decide (req_problemStatementId body = k)),
      (decide (k = req_problemStatementId body)); simpl; congruence. }
  destruct (in_backends db Hdb) as [-> | ->]; simpl.
  - unfold JsonStore.getAllProblemStatements, JsonStore.getAllRegistrations. simpl.
    rewrite <- !list_fmap_compose, !length_fmap, length_app. simpl.
    split; [|lia]. apply list_fmap_ext. intros i p _. simpl. apply Hcount.
  - unfold MongoStore.getAllProblemStatements, MongoStore.getAllRegistrations. simpl.
    rewrite <- !list_fmap_compose, !length_fmap, length_app. simpl.
    split; [|lia]. apply list_fmap_ext. intros i p _. simpl. apply Hcount.
Qed.

Lemma commit_counts_once_witness :
  selected_count
    <$> getAllProblemStatements jsonStore
          (fst (createRegistrationAtomic jsonStore alphaRequest
                  "2025-01-02T00:00:00.000Z" openData))
  = [1%nat].
Proof.
  pose proof (commit_counts_once jsonBackend alphaRequest "2025-01-02T00:00:00.000Z"
                openData _ {| res_id := "T1"; changes := 1 |}
                (list_elem_of_here _ _) eq_refl) as [Hcounts _].
  exact Hcounts.
Defined.

(** ** The registrations of one problem statement *)

(** X11. On either store [getRegistrationsByProblemStatement] lists, in
    Ledger order, exactly the registrations that refer to the id; their
    number is the selected count [getAllProblemStatements] shows for every
    problem statement with that id; each carries the title of the first
    problem statement with the id, or the empty text when there is none or
    its title is empty. *)
Theorem registrations_by_problem :
  forall (target : string) (data : Data),
    let referring := filter (fun r => problemStatementId r = target) (registrations data) in
    let shownTitle :=
      or_else (from_option title VUndef
                 (find (fun p => id p = target) (problemStatements data)))
              (VStr "") in
    JsonStore.getRegistrationsByProblemStatement target data
    = MongoStore.getRegistrationsByProblemStatement target data
    /\ prv_team_number <$> JsonStore.getRegistrationsByProblemStatement target data
       = teamNumber <$> referring
    /\ Forall (fun v => prv_problem_title v = shownTitle)
              (JsonStore.getRegistrationsByProblemStatement target data)
    /\ Forall (fun db : Backend =>
                 Forall (fun v =>
                           pv_id v = target ->
                           selected_count v
                           = length (JsonStore.getRegistrationsByProblemStatement
                                       target data))
                        (getAllProblemStatements db data))
              backends.
Proof.
  intros target data referring shownTitle.
  unfold JsonStore.getRegistrationsByProblemStatement. split_and!.
  - done.
  - by rewrite <- list_fmap_compose.
  - apply Forall_fmap, Forall_forall. by intros r _.
  - rewrite length_fmap.
    apply on_backends; simpl;
      [unfold JsonStore.getAllProblemStatements
      |unfold MongoStore.getAllProblemStatements];
      apply Forall_fmap, Forall_forall; intros p _; simpl; intros ->;
      apply countByProblem_count.
Qed.

(** ** The joined listing of registrations *)

Lemma problemById_fold (ps : list ProblemStatement) (m : gmap string ProblemStatement)
    (k : string) :
  k ∉ (id <$> ps) -> fold_left (fun m p => <[id p := p]> m) ps m !! k = m !! k.
Proof.
  revert m. induction ps as [|p ps IH]; intros m Hk; simpl; [done|].
  rewrite fmap_cons in Hk. apply not_elem_of_cons in Hk as [Hne Hk].
  rewrite IH by done. by rewrite lookup_insert_ne.
Qed.

Lemma find_cons {A} (P : A -> Prop) `{!forall x, Decision (P x)} (x : A) (l : list A) :
  find P (x :: l) = if decide (P x) then Some x else find P l.
Proof.
  unfold find. simpl. destruct (decide (P x)); [done|].
  by destruct (list_find P l) as [[i y]|].
Qed.

(** With unique identifiers the [Map] of the listing finds what [find]
    finds. *)
Lemma problemById_fold_find (ps : list ProblemStatement)
    (m : gmap string ProblemStatement) (k : string) :
  NoDup (id <$> ps) ->
  fold_left (fun m p => <[id p := p]> m) ps m !! k
  = from_option Some (m !! k) (find (fun p => id p = k) ps).
Proof.
  revert m. induction ps as [|p ps IH]; intros m Hnd; [done|].
  rewrite fmap_cons in Hnd. apply NoDup_cons in Hnd as [Hp Hnd].
  simpl. rewrite find_cons. destruct (decide (id p = k)) as [<- | Hne].
  - rewrite problemById_fold by done. by rewrite lookup_insert_eq.
  - rewrite IH by done. by rewrite lookup_insert_ne.
Qed.

Lemma problemById_find (ps : list ProblemStatement) (k : string) :
  NoDup (id <$> ps) -> problemById ps !! k = find (fun p => id p = k) ps.
Proof.
  intros Hnd. unfold problemById. rewrite problemById_fold_find by done.
  rewrite lookup_empty. by destruct (find _ ps).
Qed.

(** X12. The joined listing: with unique identifiers, on either store
    [getAllRegistrations] lists the Ledger in order, each registration with
    the title (the empty text if empty), the category and the difficulty
    (null if empty) of the problem statement it refers to; a registration
    whose problem statement is not stored is listed with an empty title and
    null category and difficulty. *)
Theorem registrations_joined :
  forall (db : Backend) (data : Data),
    db ∈ backends -> uniqueIds data ->
    getAllRegistrations db data
    = (fun r =>
         let ps := find (fun p => id p = problemStatementId r) (problemStatements data) in
         {| team_number := teamNumber r;
            team_name := teamName r;
            team_leader := teamLeader r;
            problem_title :=
              match ps with Some p => or_else (title p) (VStr "") | None => VStr "" end;
            problem_category :=
              match ps with Some p => or_else (category p) VNull | None => VNull end;
            problem_difficulty :=
              match ps with Some p => or_else (difficulty p) VNull | None => VNull end;
            registration_date_time := registrationDateTime r |})
      <$> registrations data.
Proof.
  intros db data Hdb Hnd.
  assert (getAllRegistrations db data
          = registrationView (problemById (problemStatements data)) <$> registrations data)
    as -> by (by destruct (in_backends db Hdb) as [-> | ->]).
  apply list_fmap_ext. intros i r _. unfold registrationView.
  rewrite problemById_find by done. by destruct (find _ _).
Qed.

(** The theorem on the Mongo store, for a registration whose problem
    statement is not stored. *)
Lemma registrations_joined_witness :
  problem_title
    <$> getAllRegistrations mongoStore
          {| problemStatements := []; registrations := [sampleRegistration "T1" "ps001"] |}
  = [VStr ""].
Proof.
  change mongoStore with (store mongoBackend).
  rewrite (registrations_joined mongoBackend
             {| problemStatements := []; registrations := [sampleRegistration "T1" "ps001"] |}).
  - reflexivity.
  - right. left.
  - apply NoDup_nil_2.
Defined.

(** ** Initialisation and reset *)

Lemma length_zero_nil {A} (l : list A) : (length l =? 0)%nat = true <-> l = [].
Proof. rewrite Nat.eqb_eq. split; [apply length_zero_iff_nil | by intros ->]. Qed.

(** X13. [init] of the file store: whatever the file held, afterwards the
    Catalog is not empty and the Ledger is the one of the file (empty when
    there was no file); a Catalog that is not empty is left as it is, an
    empty one is replaced by the three defaults; running [init] again
    changes nothing. *)
Theorem json_init_seeds_once :
  forall file : option Data,
    let data := default defaultData file in
    problemStatements (JsonStore.init file) <> []
    /\ registrations (JsonStore.init file) = registrations data
    /\ JsonStore.init file
       = (if decide (problemStatements data = []) then
            {| problemStatements := defaults; registrations := registrations data |}
          else data)
    /\ JsonStore.init (Some (JsonStore.init file)) = JsonStore.init file.
Proof.
  intros file data.
  assert (JsonStore.init file
          = if decide (problemStatements data = []) then
              {| problemStatements := defaults; registrations := registrations data |}
            else data) as Hinit.
  { unfold JsonStore.init. fold data. destruct (decide (problemStatements data = [])) as [He|He].
    - by rewrite (proj2 (length_zero_nil _) He).
    - destruct (length (problemStatements data) =? 0)%nat eqn:Hl; [|done].
      by apply length_zero_nil in Hl. }
  split_and!; [| |done|]; rewrite Hinit;
    destruct (decide (problemStatements data = [])) as [He|He]; try done.
Qed.

Lemma deleteMany_all {A} (docs : list A) : Collection.deleteMany (fun _ => True) docs = [].
Proof.
  unfold Collection.deleteMany. induction docs as [|d docs IH]; [done|].
  by rewrite filter_cons, decide_False by (intros Hn; by apply Hn).
Qed.

(** X14. [resetAll] of the Mongo store leaves both collections empty,
    whatever they held and whether or not the store was connected: the
    closing call of [init] finds the store connected and returns at once, so
    the defaults are not inserted again. *)
Theorem mongo_resetAll_empties :
  forall (connected : bool) (data : Data),
    MongoStore.resetAll connected data = (defaultData, true).
Proof.
  intros connected data. unfold MongoStore.resetAll. by rewrite !deleteMany_all.
Qed.

(** X15. [init] of the Mongo store returns at once on a connected store.
    On a store that is not connected it leaves the data as [init] of the
    file store leaves a file of the same content: the Catalog is not empty
    afterwards, an empty one holding the three defaults, and the Ledger is
    kept; initialising again changes nothing. *)
Theorem mongo_init_seeds_empty :
  forall data : Data,
    MongoStore.init true data = data
    /\ MongoStore.init false data = JsonStore.init (Some data)
    /\ problemStatements (MongoStore.init false data) <> []
    /\ registrations (MongoStore.init false data) = registrations data
    /\ MongoStore.init false (MongoStore.init false data) = MongoStore.init false data.
Proof.
  intros data.
  assert (MongoStore.init false data = JsonStore.init (Some data)) as Hsame.
  { unfold MongoStore.init, JsonStore.init. simpl.
    destruct (length (problemStatements data) =? 0)%nat eqn:Hl; [|done].
    apply length_zero_nil in Hl. rewrite Hl. reflexivity. }
  assert (problemStatements (MongoStore.init false data) <> []) as Hfull.
  { rewrite Hsame. unfold JsonStore.init. simpl.
    destruct (length (problemStatements data) =? 0)%nat eqn:Hl; [done|].
    intros He. by rewrite He in Hl. }
  split_and!; [done | done | done | |].
  - rewrite Hsame. unfold JsonStore.init. simpl.
    by destruct (length (problemStatements data) =? 0)%nat.
  - unfold MongoStore.init at 1.
    destruct (length (problemStatements (MongoStore.init false data)) =? 0)%nat eqn:Hl;
      [|done].
    by apply length_zero_nil in Hl.
Qed.

(** ** Removing a registration through the handler *)

Lemma json_deleteRegistration_count (team : string) (data : Data) :
  snd (JsonStore.deleteRegistration team data) = 0%nat
  <-> JsonStore.isTeamNumberTaken team data = false.
Proof.
  unfold JsonStore.deleteRegistration, JsonStore.isTeamNumberTaken. simpl.
  pose proof (length_filter (fun r => teamNumber r <> team) (registrations data)) as Hle.
  split.
  - intros Hzero. apply some_false. intros r Hr Heq.
    pose proof (length_filter_lt (fun r => teamNumber r <> team) (registrations data) r Hr)
      as Hlt.
    assert (~ teamNumber r <> team) as Hn by (intros Hn; by apply Hn). specialize (Hlt Hn). lia.
  - intros Hfree. rewrite filter_all; [lia|].
    exact (proj1 (some_false _ _) Hfree).
Qed.

Lemma mongo_deleteRegistration_count (team : string) (data : Data) :
  snd (MongoStore.deleteRegistration team data) = 0%nat
  <-> MongoStore.isTeamNumberTaken team data = false.
Proof.
  unfold MongoStore.deleteRegistration, MongoStore.isTeamNumberTaken,
    Collection.deleteOne, Collection.findOne, find.
  by destruct (list_find _ (registrations data)) as [[i r]|].
Qed.

(** X16. The handler that removes a registration answers 404 exactly when
    the store reports no registration under the team number, and then the
    data are as before; otherwise it answers 200. After the call the file
    store reports the team number free, whatever the Ledger held; the Mongo
    store, which removes one registration, does so when team numbers were
    unique. *)
Theorem remove_registration_answers :
  forall (db : Backend) (team : string) (data : Data),
    db ∈ backends ->
    (snd (Admin.removeRegistration db team data) = Admin.RegistrationNotFound404
     <-> isTeamNumberTaken db team data = false)
    /\ (isTeamNumberTaken db team data = false
        -> fst (Admin.removeRegistration db team data) = data)
    /\ (db = jsonBackend \/ uniqueTeams data
        -> isTeamNumberTaken db team (fst (Admin.removeRegistration db team data)) = false).
Proof.
  intros db team data Hdb.
  assert (snd (deleteRegistration db team data) = 0%nat
          <-> isTeamNumberTaken db team data = false) as Hcount.
  { destruct (in_backends db Hdb) as [-> | ->];
      [apply json_deleteRegistration_count | apply mongo_deleteRegistration_count]. }
  assert (fst (Admin.removeRegistration db team data) = fst (deleteRegistration db team data))
    as Hstate.
  { unfold Admin.removeRegistration. destruct (deleteRegistration db team data) as [d' n].
    by destruct (n =? 0)%nat. }
  split_and!.
  - rewrite <- Hcount. unfold Admin.removeRegistration.
    destruct (deleteRegistration db team data) as [d' n]. simpl.
    destruct (n =? 0)%nat eqn:Hn; simpl.
    + apply Nat.eqb_eq in Hn. done.
    + apply Nat.eqb_neq in Hn. done.
  - intros Hfree. rewrite Hstate.
    destruct (in_backends db Hdb) as [-> | ->]; simpl in *.
    + unfold JsonStore.deleteRegistration. simpl.
      rewrite filter_all; [by destruct data|]. exact (proj1 (some_false _ _) Hfree).
    + unfold MongoStore.deleteRegistration, Collection.deleteOne.
      unfold MongoStore.isTeamNumberTaken, Collection.findOne, find in Hfree.
      destruct (list_find _ (registrations data)) as [[i r]|]; [done|]. by destruct data.
  - intros Hwhen. rewrite Hstate.
    assert (isTeamNumberTaken jsonBackend team
              (fst (deleteRegistration jsonBackend team data)) = false) as Hjson.
    { simpl. apply some_false. intros r [Hne _]%list_elem_of_filter. done. }
    destruct Hwhen as [-> | Hnd]; [done|].
    destruct (in_backends db Hdb) as [-> | ->]; [done|]. simpl.
    rewrite mongo_taken. apply some_false. unfold MongoStore.deleteRegistration.
    pose proof (deleteOne_unique teamNumber (trim team) (registrations data) Hnd) as Hone.
    destruct (Collection.deleteOne _ _) as [regs' n]. simpl in *. rewrite Hone.
    intros r [Hne _]%list_elem_of_filter. done.
Qed.

(** The theorem at the removal of team T1 from the full sample: the file
    store answers 200 and reports the team number free afterwards. *)
Lemma remove_registration_answers_witness :
  snd (Admin.removeRegistration jsonBackend "T1" fullData) = Admin.RegistrationDeleted200
  /\ isTeamNumberTaken jsonBackend "T1"
       (fst (Admin.removeRegistration jsonBackend "T1" fullData)) = false.
Proof.
  split; [reflexivity|].
  refine (proj2 (proj2 (remove_registration_answers jsonBackend "T1" fullData _)) _).
  - left.
  - by left.
Defined.

(** ** The team list *)

Lemma addRow_wellFormed (map : gmap string Teams.Team) (line : string) :
  teamsWellFormed map -> teamsWellFormed (Teams.addRow map line).
Proof.
  intros Hmap. unfold Teams.addRow.
  destruct (Teams.split "," line) as [|p0 [|p1 [|p2 rest]]]; try done.
  destruct (String.eqb (trim p0) "") eqn:Hempty; [done|].
  apply String.eqb_neq in Hempty.
  intros k team. destruct (decide (k = trim p0)) as [-> | Hk].
  - rewrite lookup_insert_eq. intros [= <-]. simpl.
    by rewrite !trim_trim.
  - rewrite lookup_insert_ne by done. apply Hmap.
Qed.

Lemma addRows_wellFormed (rows : list string) (map : gmap string Teams.Team) :
  teamsWellFormed map -> teamsWellFormed (fold_left Teams.addRow rows map).
Proof.
  revert map. induction rows as [|line rows IH]; intros map Hmap; simpl; [done|].
  by apply IH, addRow_wellFormed.
Qed.

Lemma loadTeamsCSV_wellFormed (file : option string) :
  teamsWellFormed (Teams.loadTeamsCSV file).
Proof.
  destruct file as [content|]; simpl.
  - apply addRows_wellFormed. intros k team. by rewrite lookup_empty.
  - intros k team. by rewrite lookup_empty.
Qed.

(** X17. A team the lookup [GET /api/teams/:teamNumber] answers with,
    whatever the content of [teams.csv], carries the trimmed team number
    that was asked for, which is not empty, and a trimmed name and
    leader. *)
Theorem team_lookup_answers_the_asked :
  forall (file : option string) (asked : string) (team : Teams.Team),
    Teams.getTeam (Teams.loadTeamsCSV file) asked = Some team ->
    Teams.team_teamNumber team = trim asked
    /\ trim asked <> ""
    /\ trim (Teams.team_teamName team) = Teams.team_teamName team
    /\ trim (Teams.team_teamLeader team) = Teams.team_teamLeader team.
Proof.
  intros file asked team Hget. unfold Teams.getTeam in Hget.
  destruct (loadTeamsCSV_wellFormed file _ _ Hget) as (Hk & Hne & _ & Hname & Hleader).
  done.
Qed.

Lemma team_lookup_answers_the_asked_witness :
  Teams.team_teamNumber teamT1 = trim " T1 ".
Proof.
  apply (team_lookup_answers_the_asked (Some sampleTeamsFile) " T1 " teamT1).
  vm_compute. reflexivity.
Defined.

(** ** The summary of the export *)

Lemma length_filter_split {A} (P : A -> Prop) `{!forall x, Decision (P x)} (l : list A) :
  (length (filter P l) + length (filter (fun x => ~ P x) l) = length l)%nat.
Proof.
  induction l as [|x l IH]; [done|]. rewrite !filter_cons.
  destruct (decide (P x)) as [HP|HP].
  - rewrite decide_False by (intros Hn; by apply Hn). simpl. lia.
  - rewrite decide_True by done. simpl. lia.
Qed.

(** An identifier that occurs once in [ks] is counted once. *)
Lemma sum_indicator (ks : list string) (k : string) :
  NoDup ks -> k ∈ ks ->
  sum_list_with (fun k' => if decide (k = k') then 1%nat else 0%nat) ks = 1%nat.
Proof.
  induction ks as [|k' ks IH]; intros Hnd Hk; [by apply elem_of_nil in Hk|].
  apply NoDup_cons in Hnd as [Hk' Hnd]. simpl.
  destruct (decide (k = k')) as [-> | Hne].
  - assert (sum_list_with (fun k'' => if decide (k' = k'') then 1%nat else 0%nat) ks = 0%nat)
      as ->; [|done].
    clear IH Hk Hnd. induction ks as [|j ks IH]; [done|]. simpl.
    apply not_elem_of_cons in Hk' as [Hj Hks]. rewrite decide_False by done.
    by rewrite IH.
  - apply elem_of_cons in Hk as [Heq | Hk]; [done|]. by rewrite IH.
Qed.

(** The counts per identifier add up to the number of registrations when
    the identifiers are unique and every registration refers to one. *)
Lemma sum_counts (ks : list string) (regs : list Registration) :
  NoDup ks -> (forall r, r ∈ regs -> problemStatementId r ∈ ks) ->
  sum_list_with (fun k => length (filter (fun r => problemStatementId r = k) regs)) ks
  = length regs.
Proof.
  intros Hnd. induction regs as [|r regs IH]; intros Hin.
  - clear. induction ks as [|k ks IHk]; [done|]. cbn [sum_list_with]. by rewrite IHk.
  - assert (sum_list_with
              (fun k => length (filter (fun r0 => problemStatementId r0 = k) (r :: regs))) ks
            = (sum_list_with
                 (fun k => if decide (problemStatementId r = k) then 1%nat else 0%nat) ks
               + sum_list_with
                   (fun k => length (filter (fun r0 => problemStatementId r0 = k) regs)) ks)%nat)
      as ->.
    { clear. induction ks as [|k ks IHk]; [done|]. simpl. rewrite IHk, filter_cons.
      destruct (decide (problemStatementId r = k)); simpl; lia. }
    rewrite sum_indicator by (done || apply Hin; left).
    rewrite IH by (intros r' Hr'; apply Hin; by right). done.
Qed.

Lemma sum_list_with_fmap {A B} (f : B -> nat) (g : A -> B) (l : list A) :
  sum_list_with f (g <$> l) = sum_list_with (fun x => f (g x)) l.
Proof.
  induction l as [|x l IH]; [done|]. rewrite fmap_cons. cbn [sum_list_with]. by rewrite IH.
Qed.

Lemma selected_counts (db : Store) (data : Data) :
  db = jsonStore \/ db = mongoStore ->
  sum_list_with selected_count (getAllProblemStatements db data)
  = sum_list_with (fun k => ledgerCount k data) (id <$> problemStatements data).
Proof.
  intros [-> | ->]; simpl;
    unfold JsonStore.getAllProblemStatements, MongoStore.getAllProblemStatements;
    rewrite !sum_list_with_fmap; simpl;
    induction (problemStatements data) as [|p ps IH]; try done; simpl;
    by rewrite IH, countByProblem_lookup.
Qed.

(** X18. The summary of [GET /api/export/all/json], on either store: the
    available and the full problem statements together are all of them, the
    totals are the sizes of the Catalog and of the Ledger, and when the
    identifiers are unique and every registration refers to a stored
    problem statement the selected counts of the listing add up to the
    total of registrations. *)
Theorem export_summary_adds_up :
  forall (db : Backend) (data : Data),
    db ∈ backends ->
    let summary := Admin.exportSummary db data in
    (Admin.availableProblems summary + Admin.fullProblems summary
     = Admin.totalProblems summary)%nat
    /\ Admin.totalProblems summary = length (problemStatements data)
    /\ Admin.totalRegistrations summary = length (registrations data)
    /\ (uniqueIds data -> referentiallyValid data ->
        sum_list_with selected_count (getAllProblemStatements db data)
        = Admin.totalRegistrations summary).
Proof.
  intros db data Hdb summary. subst summary. unfold Admin.exportSummary. simpl.
  assert (length (getAllProblemStatements db data) = length (problemStatements data))
    as Hproblems.
  { destruct (in_backends db Hdb) as [-> | ->]; simpl; apply length_fmap. }
  assert (length (getAllRegistrations db data) = length (registrations data))
    as Hregs.
  { destruct (in_backends db Hdb) as [-> | ->]; simpl; apply length_fmap. }
  split_and!.
  - apply length_filter_split.
  - done.
  - done.
  - intros Hids Hrefs. rewrite Hregs, selected_counts.
    + unfold ledgerCount. by apply sum_counts.
    + destruct (in_backends db Hdb) as [-> | ->]; [by left | by right].
Qed.

Lemma export_summary_adds_up_witness :
  (Admin.availableProblems (Admin.exportSummary jsonStore fullData)
   + Admin.fullProblems (Admin.exportSummary jsonStore fullData)
   = Admin.totalProblems (Admin.exportSummary jsonStore fullData))%nat.
Proof.
  apply (export_summary_adds_up jsonBackend fullData). left.
Defined.

(** ** Importing twice *)

Lemma filter_none {A} (P : A -> Prop) `{!forall x, Decision (P x)} (l : list A) :
  (forall x, x ∈ l -> ~ P x) -> filter P l = [].
Proof.
  induction l as [|x l IH]; intros Hno; [done|].
  rewrite filter_cons, decide_False by (apply Hno; left).
  apply IH. intros y Hy. apply Hno. by right.
Qed.

(** After an import that stored every new item, no item is new. *)
Lemma nothing_new_after (stored : ProblemInput -> ProblemStatement)
    (ps : list ProblemStatement) (items : list ProblemInput) :
  (forall item, id (stored item) = in_id item) ->
  filter
    (fun item =>
       in_id item
       ∉ (id <$> ps ++ (stored <$> filter (fun item => in_id item ∉ (id <$> ps)) items)))
    items
  = [].
Proof.
  intros Hid. apply filter_none. intros item Hitem Hnew. apply Hnew.
  rewrite fmap_app. apply elem_of_app.
  destruct (decide (in_id item ∈ (id <$> ps))) as [Hold | Hfresh]; [by left|].
  right. rewrite <- (Hid item). apply list_elem_of_fmap_2, list_elem_of_fmap_2.
  by apply list_elem_of_filter.
Qed.

(** X19. An import, on either store, leaves the Ledger as it is and the
    stored problem statements in their places: it only appends to the
    Catalog, and every statement it appends carries the identifier of an
    item of the import that was not stored before. *)
Theorem import_only_appends :
  forall (db : Backend) (items : list ProblemInput) (data : Data),
    db ∈ backends ->
    exists added,
      importFromJSON db items data
      = {| problemStatements := problemStatements data ++ added;
           registrations := registrations data |}
      /\ forall p, p ∈ added ->
           (id p ∉ (id <$> problemStatements data))
           /\ exists item, item ∈ items /\ in_id item = id p.
Proof.
  intros db items data Hdb. destruct (in_backends db Hdb) as [-> | ->].
  - change (importFromJSON jsonBackend items data)
      with (JsonStore.importFromJSON items data).
    rewrite json_import_closed. eexists. split; [done|].
    intros p (item & -> & [Hfresh Hitem]%list_elem_of_filter)%list_elem_of_fmap.
    split; [done|]. by exists item.
  - change (importFromJSON mongoBackend items data)
      with (MongoStore.importFromJSON items data).
    rewrite mongo_import_closed.
    destruct (insertMany_app id
                (MongoStore.stored
                   <$> filter (fun item => in_id item ∉ (id <$> problemStatements data))
                              items)
                (problemStatements data)) as (added & -> & Hsub & _).
    exists added. split; [done|]. intros p Hp.
    assert (p ∈ MongoStore.stored
                  <$> filter (fun item => in_id item ∉ (id <$> problemStatements data)) items)
      as (item & -> & [Hfresh Hitem]%list_elem_of_filter)%list_elem_of_fmap.
    { eapply elem_of_sublist; [exact Hp | exact Hsub]. }
    split; [done|]. by exists item.
Qed.

Lemma import_only_appends_witness :
  exists added,
    importFromJSON jsonBackend [sampleInput "ps002" (VNum 3)] openData
    = {| problemStatements := problemStatements openData ++ added;
         registrations := registrations openData |}
    /\ forall p, p ∈ added ->
         (id p ∉ (id <$> problemStatements openData))
         /\ exists item, item ∈ [sampleInput "ps002" (VNum 3)] /\ in_id item = id p.
Proof.
  apply (import_only_appends jsonBackend [sampleInput "ps002" (VNum 3)] openData). left.
Defined.

(** X20. Importing the same items a second time changes nothing: on the
    file store always, on the Mongo store when the items carry different
    identifiers. *)
Theorem import_twice :
  forall (items : list ProblemInput) (data : Data),
    JsonStore.importFromJSON items (JsonStore.importFromJSON items data)
    = JsonStore.importFromJSON items data
    /\ (NoDup (in_id <$> items) ->
        MongoStore.importFromJSON items (MongoStore.importFromJSON items data)
        = MongoStore.importFromJSON items data).
Proof.
  intros items data. split.
  - rewrite (json_import_closed items (JsonStore.importFromJSON items data)).
    rewrite json_import_closed. simpl.
    rewrite nothing_new_after by done. simpl. by rewrite app_nil_r.
  - intros Hnd.
    assert (MongoStore.importFromJSON items data
            = {| problemStatements :=
                   problemStatements data
                   ++ (MongoStore.stored
                         <$> filter (fun item => in_id item ∉ (id <$> problemStatements data))
                                    items);
                 registrations := registrations data |}) as Hfirst.
    { rewrite mongo_import_closed. f_equal. apply insertMany_all.
      - rewrite mongo_stored_ids. eapply sublist_NoDup; [exact Hnd|].
        apply fmap_sublist, sublist_filter.
      - intros p (item & -> & [Hfresh _]%list_elem_of_filter)%list_elem_of_fmap. done. }
    rewrite Hfirst at 1. rewrite mongo_import_closed. cbn [problemStatements registrations].
    rewrite nothing_new_after by done. by rewrite Hfirst.
Qed.

(** X21. On the Mongo store an import that repeats an identifier is cut
    short at the repetition: of the new items [a], [a'] with the identifier
    of [a], and [b], the first import stores [a] only, and importing the
    same items again stores [b] as well. *)
Theorem mongo_import_resumes :
  forall (a a' b : ProblemInput) (data : Data),
    in_id a ∉ (id <$> problemStatements data) ->
    in_id b ∉ (id <$> problemStatements data) ->
    in_id a' = in_id a -> in_id b <> in_id a ->
    MongoStore.importFromJSON [a; a'; b] data
    = {| problemStatements := problemStatements data ++ [MongoStore.stored a];
         registrations := registrations data |}
    /\ MongoStore.importFromJSON [a; a'; b] (MongoStore.importFromJSON [a; a'; b] data)
       = {| problemStatements :=
              problemStatements data ++ [MongoStore.stored a; MongoStore.stored b];
            registrations := registrations data |}.
Proof.
  intros a a' b data Ha Hb Ha' Hne.
  assert (MongoStore.importFromJSON [a; a'; b] data
          = {| problemStatements := problemStatements data ++ [MongoStore.stored a];
               registrations := registrations data |}) as Hfirst.
  { rewrite mongo_import_closed. rewrite !filter_cons, filter_nil.
    rewrite !decide_True by (done || by rewrite Ha'). simpl.
    unfold Collection.insertOne.
    assert (some (fun d => id d = id (MongoStore.stored a)) (problemStatements data) = false)
      as ->.
    { rewrite some_id. by apply bool_decide_eq_false. }
    assert (some (fun d => id d = id (MongoStore.stored a'))
                 (problemStatements data ++ [MongoStore.stored a]) = true) as ->; [|done].
    apply some_true. exists (MongoStore.stored a). split; [|by simpl].
    apply elem_of_app. right. left. }
  split; [done|]. rewrite Hfirst, mongo_import_closed. simpl.
  rewrite !filter_cons, filter_nil.
  assert (in_id a ∈ id <$> problemStatements data ++ [MongoStore.stored a]) as Hin.
  { rewrite fmap_app. apply elem_of_app. right. left. }
  assert (in_id b ∉ id <$> problemStatements data ++ [MongoStore.stored a]) as Hout.
  { rewrite fmap_app. intros [Hold | Hnew%list_elem_of_singleton]%elem_of_app; done. }
  rewrite (decide_False (P := in_id a ∉ _)) by (intros Hn; by apply Hn).
  rewrite (decide_False (P := in_id a' ∉ _)) by (rewrite Ha'; intros Hn; by apply Hn).
  rewrite decide_True by done. simpl. unfold Collection.insertOne.
  assert (some (fun d => id d = id (MongoStore.stored b))
               (problemStatements data ++ [MongoStore.stored a]) = false) as ->.
  { rewrite some_id. by apply bool_decide_eq_false. }
  by rewrite <- app_assoc.
Qed.

Lemma mongo_import_resumes_witness :
  MongoStore.importFromJSON
    [sampleInput "ps002" (VNum 3); sampleInput "ps002" (VNum 5); sampleInput "ps003" (VNum 1)]
    openData
  = {| problemStatements :=
         problemStatements openData ++ [MongoStore.stored (sampleInput "ps002" (VNum 3))];
       registrations := registrations openData |}.
Proof.
  apply (mongo_import_resumes (sampleInput "ps002" (VNum 3)) (sampleInput "ps002" (VNum 5))
           (sampleInput "ps003" (VNum 1)) openData).
  - apply (bool_decide_unpack _). vm_compute. exact I.
  - apply (bool_decide_unpack _). vm_compute. exact I.
  - reflexivity.
  - simpl. discriminate.
Defined.

Lemma import_twice_witness :
  MongoStore.importFromJSON [sampleInput "ps002" (VNum 3)]
    (MongoStore.importFromJSON [sampleInput "ps002" (VNum 3)] openData)
  = MongoStore.importFromJSON [sampleInput "ps002" (VNum 3)] openData.
Proof.
  apply (proj2 (import_twice [sampleInput "ps002" (VNum 3)] openData)).
  apply (bool_decide_unpack _). vm_compute. exact I.
Defined.

(** ** Looking a problem statement up after a write *)

Lemma find_app {A} (P : A -> Prop) `{!forall x, Decision (P x)} (l k : list A) :
  find P (l ++ k) = match find P l with Some x => Some x | None => find P k end.
Proof.
  induction l as [|x l IH]; simpl.
  - by destruct (find P k).
  - rewrite !find_cons. by destruct (decide (P x)).
Qed.

Lemma find_filter {A} (P Q : A -> Prop) `{!forall x, Decision (P x)}
    `{!forall x, Decision (Q x)} (l : list A) :
  (forall x, P x -> Q x) -> find P (filter Q l) = find P l.
Proof.
  intros HPQ. induction l as [|x l IH]; [done|].
  rewrite filter_cons, (find_cons P x l). destruct (decide (Q x)) as [HQ|HQ].
  - by rewrite find_cons, IH.
  - rewrite decide_False by (intros HP; by apply HQ, HPQ). done.
Qed.

Lemma find_insert_other {A} (P : A -> Prop) `{!forall x, Decision (P x)}
    (l : list A) (i : nat) (x y : A) :
  l !! i = Some x -> ~ P x -> ~ P y -> find P (<[i := y]> l) = find P l.
Proof.
  revert i. induction l as [|z l IH]; intros i Hi Hx Hy; [done|].
  destruct i as [|i]; simpl in *.
  - injection Hi as ->. by rewrite !find_cons, !decide_False.
  - rewrite !find_cons. destruct (decide (P z)); [done|]. by apply IH.
Qed.

Lemma find_insert_first {A} (P : A -> Prop) `{!forall x, Decision (P x)}
    (l : list A) (i : nat) (x y : A) :
  list_find P l = Some (i, x) -> P y -> find P (<[i := y]> l) = Some y.
Proof.
  intros (Hi & HP & Hbefore)%list_find_Some Hy. unfold find.
  assert (list_find P (<[i := y]> l) = Some (i, y)) as ->; [|done].
  apply list_find_Some. split_and!.
  - apply list_lookup_insert_eq. by eapply lookup_lt_Some.
  - done.
  - intros j z Hj Hlt. rewrite list_lookup_insert_ne in Hj by lia. by eapply Hbefore.
Qed.

Lemma find_delete_other {A} (P : A -> Prop) `{!forall x, Decision (P x)}
    (l : list A) (i : nat) (x : A) :
  l !! i = Some x -> ~ P x -> find P (delete i l) = find P l.
Proof.
  revert i. induction l as [|z l IH]; intros i Hi Hx; [done|].
  destruct i as [|i]; simpl in *.
  - injection Hi as ->. by rewrite find_cons, decide_False.
  - rewrite !find_cons. destruct (decide (P z)); [done|]. by apply IH.
Qed.

(** X22. Looking a problem statement up after a deletion: on the file
    store the deleted identifier is no longer found; on the Mongo store it
    is no longer found when identifiers were unique; on either store every
    other identifier is found as before. *)
Theorem lookup_after_delete :
  forall (db : Backend) (target k : string) (data : Data),
    db ∈ backends ->
    let after := fst (deleteProblemStatement db target data) in
    (k <> target -> getProblemStatementById db k after = getProblemStatementById db k data)
    /\ (uniqueIds data -> getProblemStatementById db target after = None)
    /\ getProblemStatementById jsonStore target
         (fst (deleteProblemStatement jsonStore target data)) = None.
Proof.
  intros db target k data Hdb after. subst after.
  assert (forall l : list ProblemStatement,
            find (fun p => id p = target) (filter (fun p => id p <> target) l) = None)
    as Hgone.
  { intros l. apply find_None. by intros p [Hne _]%list_elem_of_filter. }
  split_and!.
  - intros Hk. destruct (in_backends db Hdb) as [-> | ->]; simpl.
    + unfold JsonStore.getProblemStatementById. simpl.
      apply find_filter. intros p Hp. congruence.
    + unfold MongoStore.getProblemStatementById, MongoStore.deleteProblemStatement,
        Collection.deleteOne, Collection.findOne.
      destruct (list_find (fun p => id p = target) (problemStatements data))
        as [[i x]|] eqn:Hfind; simpl; [|done].
      apply list_find_Some in Hfind as (Hi & Hx & _).
      eapply find_delete_other; [exact Hi | congruence].
  - intros Hnd. destruct (in_backends db Hdb) as [-> | ->]; simpl.
    + apply Hgone.
    + unfold MongoStore.getProblemStatementById, MongoStore.deleteProblemStatement,
        Collection.findOne.
      pose proof (deleteOne_unique id target (problemStatements data) Hnd) as Hone.
      destruct (Collection.deleteOne _ _) as [ps' n]. simpl in *. rewrite Hone.
      apply Hgone.
  - apply Hgone.
Qed.

Lemma lookup_after_delete_witness :
  getProblemStatementById mongoBackend "ps001"
    (fst (deleteProblemStatement mongoBackend "ps001" fullData)) = None.
Proof.
  refine (proj1 (proj2 (lookup_after_delete mongoBackend "ps001" "ps001" fullData _)) _).
  - right. left.
  - apply (bool_decide_unpack _). vm_compute. exact I.
Defined.

(** X23. Looking a problem statement up after an update, on either store:
    an identifier that was not found is not found; the updated identifier is
    found with the stored value in every field the update does not provide;
    every other identifier is found as before. *)
Theorem lookup_after_update :
  forall (db : Backend) (target k : string) (updates : Updates) (data : Data),
    db ∈ backends ->
    let after := fst (updateProblemStatement db target updates data) in
    match getProblemStatementById db k data with
    | None => getProblemStatementById db k after = None
    | Some p =>
        exists p', getProblemStatementById db k after = Some p'
                   /\ if decide (k = target) then untouched p updates p' else p' = p
    end.
Proof.
  intros db target k updates data Hdb after. subst after.
  assert (forall (set : ProblemStatement -> ProblemStatement) i current,
            (forall p, id (set p) = id p) ->
            (forall p, untouched p updates (set p)) ->
            list_find (fun p => id p = target) (problemStatements data) = Some (i, current) ->
            match find (fun p => id p = k) (problemStatements data) with
            | None =>
                find (fun p => id p = k) (<[i := set current]> (problemStatements data)) = None
            | Some p =>
                exists p',
                  find (fun p => id p = k) (<[i := set current]> (problemStatements data))
                  = Some p'
                  /\ if decide (k = target) then untouched p updates p' else p' = p
            end) as Hset.
  { intros set i current Hid Hframe Hfind.
    destruct (decide (k = target)) as [-> | Hk].
    - unfold find at 1. rewrite Hfind. simpl. exists (set current). split; [|done].
      apply list_find_Some in Hfind as Hcur. destruct Hcur as (_ & Hcur & _).
      eapply find_insert_first; [exact Hfind|]. by rewrite Hid.
    - apply list_find_Some in Hfind as (Hi & Hcur & _).
      rewrite (find_insert_other _ _ i current (set current) Hi)
        by (rewrite ?Hid; congruence).
      destruct (find _ (problemStatements data)) as [p|]; [by exists p | done]. }
  assert (list_find (fun p => id p = target) (problemStatements data) = None ->
          match find (fun p => id p = k) (problemStatements data) with
          | None => find (fun p => id p = k) (problemStatements data) = None
          | Some p =>
              exists p',
                find (fun p => id p = k) (problemStatements data) = Some p'
                /\ if decide (k = target) then untouched p updates p' else p' = p
          end) as Hnone.
  { intros Hfind. destruct (find _ (problemStatements data)) as [p|] eqn:Hk; [|done].
    exists p. split; [done|]. destruct (decide (k = target)) as [-> | Hne]; [|done].
    unfold find in Hk. by rewrite Hfind in Hk. }
  destruct (in_backends db Hdb) as [-> | ->]; simpl.
  - unfold JsonStore.getProblemStatementById, JsonStore.updateProblemStatement.
    destruct (list_find _ (problemStatements data)) as [[i current]|] eqn:Hfind; simpl.
    + apply (Hset (fun p => JsonStore.merge p updates)); [done | | done].
      intros p. apply json_merge_untouched.
    + by apply Hnone.
  - unfold MongoStore.getProblemStatementById, MongoStore.updateProblemStatement,
      Collection.updateOne, Collection.findOne.
    destruct (list_find _ (problemStatements data)) as [[i current]|] eqn:Hfind; simpl.
    + apply (Hset (MongoStore.applySet updates)); [done | | done].
      intros p. apply mongo_applySet_untouched.
    + by apply Hnone.
Qed.

Lemma lookup_after_update_witness :
  exists p',
    getProblemStatementById jsonBackend "ps001"
      (fst (updateProblemStatement jsonBackend "ps001" lowerTo1 fullData)) = Some p'
    /\ untouched (sampleProblem "ps001" (VNum 2)) lowerTo1 p'.
Proof.
  apply (lookup_after_update jsonBackend "ps001" "ps001" lowerTo1 fullData). left.
Defined.

Lemma find_id_None (ps : list ProblemStatement) (k : string) :
  find (fun p => id p = k) ps = None <-> k ∉ (id <$> ps).
Proof.
  rewrite find_None. split.
  - intros Hno (p & -> & Hp)%list_elem_of_fmap. by apply (Hno p).
  - intros Hk p Hp Heq. apply Hk. rewrite <- Heq. by apply list_elem_of_fmap_2.
Qed.

(** X24. Looking a problem statement up after [createProblemStatement], on
    either store: the identifier of the request is found, and it is the
    statement that was stored under it before when there was one; every
    other identifier is found as before. *)
Theorem lookup_after_create :
  forall (db : Backend) (p : ProblemInput) (k : string) (data : Data),
    db ∈ backends ->
    let after := fst (createProblemStatement db p data) in
    (k <> in_id p -> getProblemStatementById db k after = getProblemStatementById db k data)
    /\ (exists q, getProblemStatementById db (in_id p) after = Some q /\ id q = in_id p)
    /\ (forall q, getProblemStatementById db (in_id p) data = Some q ->
                  getProblemStatementById db (in_id p) after = Some q).
Proof.
  intros db p k data Hdb after. subst after.
  assert (forall (record : ProblemStatement) (after : Data),
            id record = in_id p ->
            after = (if some (fun q => id q = in_id p) (problemStatements data) then data
                     else {| problemStatements := problemStatements data ++ [record];
                             registrations := registrations data |}) ->
            (k <> in_id p ->
             find (fun q => id q = k) (problemStatements after)
             = find (fun q => id q = k) (problemStatements data))
            /\ (exists q, find (fun q => id q = in_id p) (problemStatements after) = Some q
                          /\ id q = in_id p)
            /\ (forall q, find (fun q => id q = in_id p) (problemStatements data) = Some q ->
                          find (fun q => id q = in_id p) (problemStatements after) = Some q))
    as Hcases.
  { intros record after Hid ->. rewrite find_some.
    destruct (find (fun q => id q = in_id p) (problemStatements data)) as [q|] eqn:Hfind.
    - rewrite bool_decide_eq_true_2 by eauto. rewrite Hfind. split_and!; [done | | done].
      exists q. split; [done|]. by apply find_Some in Hfind as [_ Hq].
    - rewrite bool_decide_eq_false_2 by (intros [? ?]; done). simpl.
      split_and!.
      + intros Hk. rewrite find_app, find_cons, decide_False by congruence.
        destruct (find (fun q => id q = k) (problemStatements data)); reflexivity.
      + exists record. by rewrite find_app, Hfind, find_cons, decide_True.
      + done. }
  destruct (in_backends db Hdb) as [-> | ->]; simpl.
  - apply (Hcases (JsonStore.stored p)); [done|].
    unfold JsonStore.createProblemStatement. by destruct (some _ _).
  - apply (Hcases (MongoStore.stored p)); [done|].
    unfold MongoStore.createProblemStatement, Collection.insertOne. simpl.
    by destruct (some _ _).
Qed.

Lemma lookup_after_create_witness :
  exists q,
    getProblemStatementById jsonBackend "ps002"
      (fst (createProblemStatement jsonBackend (sampleInput "ps002" (VNum 3)) openData))
    = Some q
    /\ id q = "ps002".
Proof.
  refine (proj1 (proj2 (lookup_after_create jsonBackend (sampleInput "ps002" (VNum 3))
                          "ps002" openData _))).
  left.
Defined.

(** ** The change count of a deletion *)

Lemma count_unique (ps : list ProblemStatement) (k : string) :
  NoDup (id <$> ps) -> (length (filter (fun p => id p = k) ps) <= 1)%nat.
Proof.
  induction ps as [|p ps IH]; intros Hnd; [simpl; lia|].
  rewrite fmap_cons in Hnd. apply NoDup_cons in Hnd as [Hp Hnd].
  rewrite filter_cons. destruct (decide (id p = k)) as [Hk|Hk]; [|by apply IH].
  assert (length (filter (fun q => id q = k) ps) = 0%nat) as Hnone.
  { apply length_filter_none. intros q Hq Heq. apply Hp. rewrite Hk, <- Heq.
    by apply list_elem_of_fmap_2. }
  rewrite length_cons, Hnone. lia.
Qed.

(** X25. The change count [deleteProblemStatement] returns: the file store
    counts the problem statements with the identifier, the Mongo store
    counts the one it deleted, so that on either store the count is 0
    exactly when the identifier is not stored, the two counts agree when
    identifiers are unique, and a deletion of an identifier that is not
    stored leaves the Catalog as it is and still removes the registrations
    that refer to it. *)
Theorem delete_problem_changes :
  forall (target : string) (data : Data),
    let stored := length (filter (fun p => id p = target) (problemStatements data)) in
    changes (snd (deleteProblemStatement jsonStore target data)) = stored
    /\ changes (snd (deleteProblemStatement mongoStore target data)) = Nat.min 1 stored
    /\ (stored = 0%nat <-> target ∉ (id <$> problemStatements data))
    /\ (uniqueIds data -> Nat.min 1 stored = stored)
    /\ Forall (fun db : Backend =>
                 res_id (snd (deleteProblemStatement db target data)) = target
                 /\ (target ∉ (id <$> problemStatements data) ->
                     fst (deleteProblemStatement db target data)
                     = {| problemStatements := problemStatements data;
                          registrations :=
                            filter (fun r => problemStatementId r <> target)
                                   (registrations data) |}))
              backends.
Proof.
  intros target data stored. subst stored.
  assert (length (filter (fun p => id p = target) (problemStatements data)) = 0%nat
          <-> target ∉ (id <$> problemStatements data)) as Hzero.
  { split.
    - intros Hlen (p & -> & Hp)%list_elem_of_fmap.
      assert (p ∈ filter (fun q => id q = id p) (problemStatements data)) as Hin
        by by apply list_elem_of_filter.
      apply length_zero_iff_nil in Hlen. rewrite Hlen in Hin. by apply elem_of_nil in Hin.
    - intros Hk. apply length_filter_none. intros p Hp Heq. apply Hk.
      rewrite <- Heq. by apply list_elem_of_fmap_2. }
  split_and!.
  - simpl.
    pose proof (length_filter_split (fun p => id p = target) (problemStatements data)) as Hs.
    lia.
  - simpl. unfold MongoStore.deleteProblemStatement, Collection.deleteOne.
    destruct (list_find _ (problemStatements data)) as [[i x]|] eqn:Hfind; simpl.
    + apply list_find_Some in Hfind as (Hi & Hx & _).
      assert (x ∈ filter (fun p => id p = target) (problemStatements data)) as Hin.
      { apply list_elem_of_filter. split; [done|]. by eapply list_elem_of_lookup_2. }
      destruct (filter _ (problemStatements data)); [by apply elem_of_nil in Hin|].
      simpl. lia.
    + apply list_find_None in Hfind.
      rewrite (length_filter_none (fun p => id p = target) (problemStatements data)); [done|].
      intros p Hp. by apply (proj1 (Forall_forall _ _) Hfind).
  - done.
  - intros Hnd. pose proof (count_unique (problemStatements data) target Hnd). lia.
  - apply on_backends; (split; [|intros Hk]); simpl.
    + done.
    + f_equal. apply filter_all. intros p Hp Heq. apply Hk. rewrite <- Heq.
      by apply list_elem_of_fmap_2.
    + unfold MongoStore.deleteProblemStatement. by destruct (Collection.deleteOne _ _).
    + unfold MongoStore.deleteProblemStatement, Collection.deleteOne.
      destruct (list_find _ (problemStatements data)) as [[i x]|] eqn:Hfind; [|done].
      apply list_find_Some in Hfind as (Hi & Hx & _). destruct Hk. rewrite <- Hx.
      apply list_elem_of_fmap_2. by eapply list_elem_of_lookup_2.
Qed.

(** ** The answers of the registration handler *)

Lemma getProblemStatementById_find (db : Backend) (k : string) (data : Data) :
  db ∈ backends ->
  getProblemStatementById db k data = find (fun p => id p = k) (problemStatements data).
Proof. by intros [-> | ->]%in_backends. Qed.

(** X26. A complete request with a free team number, on either store: the
    handler answers 404 with nothing written exactly when no stored problem
    statement has the requested identifier; it answers 409 "full" exactly
    when one has and the store commits nothing; and a 200 answer carries the
    first stored problem statement with the requested identifier together
    with the result of the store. *)
Theorem register_answers :
  forall (db : Backend) (body : RegistrationRequest) (now : string) (data : Data),
    db ∈ backends ->
    incomplete body = false ->
    isTeamNumberTaken db (req_teamNumber body) data = false ->
    (App.register db body now data = (data, App.ProblemNotFound404)
     <-> req_problemStatementId body ∉ (id <$> problemStatements data))
    /\ (snd (App.register db body now data) = App.FullOrAlreadyRegistered409
        <-> req_problemStatementId body ∈ (id <$> problemStatements data)
            /\ snd (createRegistrationAtomic db body now data) = None)
    /\ (forall data' w ps,
          App.register db body now data = (data', App.RegistrationSuccessful200 w ps) ->
          find (fun p => id p = req_problemStatementId body) (problemStatements data) = Some ps
          /\ id ps = req_problemStatementId body
          /\ createRegistrationAtomic db body now data = (data', Some w)).
Proof.
  intros db body now data Hdb Hcomplete Hfree.
  unfold App.register. unfold incomplete in Hcomplete. rewrite Hcomplete, Hfree.
  rewrite (getProblemStatementById_find db _ data Hdb).
  destruct (find _ (problemStatements data)) as [ps|] eqn:Hfind.
  - assert (req_problemStatementId body ∈ id <$> problemStatements data) as Hin.
    { apply find_Some in Hfind as [Hps <-]. by apply list_elem_of_fmap_2. }
    destruct (createRegistrationAtomic db body now data) as [data' [w|]]; simpl.
    + split_and!.
      * split; [done | by intros Hout].
      * split; [done | by intros [_ ?]].
      * intros data'' w' ps' [= <- <- <-]. split_and!; [done | | done].
        by apply find_Some in Hfind as [_ ?].
    + split_and!.
      * split; [done | by intros Hout].
      * done.
      * done.
  - assert (req_problemStatementId body ∉ id <$> problemStatements data) as Hout
      by by apply find_id_None.
    split_and!.
    + done.
    + simpl. split; [done | by intros [? _]].
    + done.
Qed.

Lemma register_answers_witness :
  App.register jsonBackend (sampleRequest "T9" "ps404") "2025-01-01T00:00:00.000Z" openData
  = (openData, App.ProblemNotFound404).
Proof.
  apply (register_answers jsonBackend (sampleRequest "T9" "ps404")
           "2025-01-01T00:00:00.000Z" openData).
  - left.
  - reflexivity.
  - reflexivity.
  - apply (bool_decide_unpack _). vm_compute. exact I.
Defined.

(** ** The start of the application *)

(** X27. The migration of [initializeDatabase] never imports: [db.init()]
    has seeded an empty Catalog by the time the listing is read, so the
    listing is not empty and the data are left as [init] left them, whatever
    [data.json] holds. *)
Theorem migration_never_imports :
  forall (file : option Data) (dataFile : option (list ProblemInput)),
    initializeDatabase file dataFile = JsonStore.init file
    /\ JsonStore.getAllProblemStatements (initializeDatabase file dataFile) <> [].
Proof.
  intros file dataFile.
  assert (JsonStore.getAllProblemStatements (JsonStore.init file) <> []) as Hlisted.
  { unfold JsonStore.getAllProblemStatements. intros Hnil%fmap_nil_inv. revert Hnil.
    unfold JsonStore.init.
    destruct (length (problemStatements (default defaultData file)) =? 0)%nat eqn:Hlen;
      [done|].
    intros Hnil. rewrite Hnil in Hlen. done. }
  assert (initializeDatabase file dataFile = JsonStore.init file) as Hsame.
  { unfold initializeDatabase. destruct dataFile as [items|]; [|done].
    destruct (length (JsonStore.getAllProblemStatements (JsonStore.init file)) =? 0)%nat
      eqn:Hlen; [|done].
    apply Nat.eqb_eq, length_zero_iff_nil in Hlen. done. }
  split; [done|]. by rewrite Hsame.
Qed.

Lemma delete_problem_changes_witness :
  Nat.min 1 (length (filter (fun p => id p = "ps001") (problemStatements fullData)))
  = length (filter (fun p => id p = "ps001") (problemStatements fullData)).
Proof.
  refine (proj1 (proj2 (proj2 (proj2 (delete_problem_changes "ps001" fullData)))) _).
  apply (bool_decide_unpack _). vm_compute. exact I.
Defined.

(** ** The capacity invariant *)

(** The kind of the stored [maxSelections] under the mutations. *)
Lemma json_run_typed (typed : value -> Prop) (m : App.Mutation) (data : Data) :
  (forall p, p ∈ problemStatements data -> typed (maxSelections p)) ->
  keepsCapacity typed JsonStore.merge JsonStore.stored data m ->
  forall p, p ∈ problemStatements (App.run jsonStore m data) -> typed (maxSelections p).
Proof.
  intros Htyped Hkeep. destruct m as [body now|team|p|target updates|target|items].
  - simpl. by rewrite (register_catalog jsonBackend) by left.
  - done.
  - simpl. rewrite post_state. simpl. unfold JsonStore.createProblemStatement.
    destruct (some _ _) eqn:Hsome; [done|]. simpl.
    intros x [Hx | ->%list_elem_of_singleton]%elem_of_app; [by apply Htyped|].
    apply Hkeep. by apply some_id_false.
  - simpl. unfold JsonStore.updateProblemStatement.
    destruct (list_find _ _) as [[i p]|] eqn:Hfind; [|done]. simpl.
    apply list_find_Some in Hfind as (Hi & Hid & _).
    intros x [-> | Hx]%elem_of_insert_inv; [|by apply Htyped].
    apply (Hkeep p); [by eapply list_elem_of_lookup_2 | done].
  - simpl. intros x [_ Hx]%list_elem_of_filter. by apply Htyped.
  - change (App.run jsonStore (App.Import items) data)
      with (JsonStore.importFromJSON items data).
    rewrite json_import_closed. simpl.
    intros x [Hx | (item & -> & [Hfresh Hitem]%list_elem_of_filter)%list_elem_of_fmap]
             %elem_of_app; [by apply Htyped|].
    by apply Hkeep.
Qed.

Lemma mongo_run_typed (typed : value -> Prop) (m : App.Mutation) (data : Data) :
  (forall p, p ∈ problemStatements data -> typed (maxSelections p)) ->
  keepsCapacity typed (fun p u => MongoStore.applySet u p) MongoStore.stored data m ->
  forall p, p ∈ problemStatements (App.run mongoStore m data) -> typed (maxSelections p).
Proof.
  intros Htyped Hkeep. destruct m as [body now|team|p|target updates|target|items].
  - simpl. by rewrite (register_catalog mongoBackend) by (right; left).
  - simpl. by rewrite (deleteRegistration_catalog mongoBackend) by (right; left).
  - simpl. rewrite post_state. simpl.
    unfold MongoStore.createProblemStatement, Collection.insertOne.
    destruct (some _ _) eqn:Hsome; [done|]. simpl.
    intros x [Hx | ->%list_elem_of_singleton]%elem_of_app; [by apply Htyped|].
    apply Hkeep. by apply some_id_false.
  - simpl. unfold MongoStore.updateProblemStatement, Collection.updateOne.
    destruct (list_find _ _) as [[i p]|] eqn:Hfind; [|by destruct data]. simpl.
    apply list_find_Some in Hfind as (Hi & Hid & _).
    intros x [-> | Hx]%elem_of_insert_inv; [|by apply Htyped].
    apply (Hkeep p); [by eapply list_elem_of_lookup_2 | done].
  - simpl. unfold MongoStore.deleteProblemStatement.
    pose proof (deleteOne_sublist (fun p => id p = target) (problemStatements data)) as Hs.
    destruct (Collection.deleteOne _ _) as [ps' n]. simpl in *.
    intros x Hx. apply Htyped. by eapply elem_of_sublist.
  - change (App.run mongoStore (App.Import items) data)
      with (MongoStore.importFromJSON items data).
    rewrite mongo_import_closed. simpl.
    intros x [Hx | (item & -> & [Hfresh Hitem]%list_elem_of_filter)%list_elem_of_fmap]
             %insertMany_elems; [by apply Htyped|].
    by apply Hkeep.
Qed.

Lemma json_run_sound (m : App.Mutation) (data : Data) :
  capacitySound wholeNumber data -> jsonKeeps data m ->
  capacitySound wholeNumber (App.run jsonStore m data).
Proof.
  intros (Hnd & Htyped & Hinv) [Hkeep Hdistinct]. split_and!.
  - by apply json_run_uniqueIds.
  - by apply json_run_typed.
  - by apply json_run_capacity.
Qed.

Lemma mongo_run_sound (m : App.Mutation) (data : Data) :
  capacitySound positiveInteger data -> mongoKeeps data m ->
  capacitySound positiveInteger (App.run mongoStore m data).
Proof.
  intros (Hnd & Htyped & Hinv) Hkeep. split_and!.
  - by apply mongo_run_uniqueIds.
  - by apply mongo_run_typed.
  - by apply mongo_run_capacity.
Qed.

Lemma runAll_sound (sound : Data -> Prop) (keeps : Data -> App.Mutation -> Prop)
    (db : Store) :
  (forall data m, sound data -> keeps data m -> sound (App.run db m data)) ->
  forall ms data, sound data -> keepsAll keeps db data ms -> sound (App.runAll db ms data).
Proof.
  intros Hstep. unfold App.runAll.
  induction ms as [|m ms IH]; intros data Hsound Hkeeps; simpl; [done|].
  destruct Hkeeps as [Hm Hrest]. apply IH; [by apply Hstep | done].
Qed.

(** C1, as the code has it. On either store, over states whose identifiers
    are unique and whose every [maxSelections] is a whole number (at least
    1 on the Mongo store, which compares with [Math.max(1, maxSelections)]):
    if no problem statement holds more registrations than its
    [maxSelections], the same is true, and the state is of that kind again,
    after a registration, the deletion of a registration or of a problem
    statement, and after an update, a creation or an import that writes no
    [maxSelections] down but a whole number that is not below the number of
    registrations which refer to the identifier (on the file store an
    import of different identifiers); hence after every sequence of such
    mutations, and after [createRegistrationAtomic] called on its own. In
    any state, whatever it holds, a registration for a problem statement
    whose count has reached its [maxSelections], a number, is rejected: the
    store returns [null] and writes nothing, and the handler answers with a
    rejection, 409 full-or-registered for a complete request of a team that
    is not registered; on the Mongo store, provided the count is not
    zero. *)
Theorem capacity_invariant_preserved :
  (forall data m,
     capacitySound wholeNumber data -> jsonKeeps data m ->
     capacitySound wholeNumber (App.run jsonStore m data))
  /\ (forall data m,
        capacitySound positiveInteger data -> mongoKeeps data m ->
        capacitySound positiveInteger (App.run mongoStore m data))
  /\ (forall data ms,
        capacitySound wholeNumber data -> keepsAll jsonKeeps jsonStore data ms ->
        capacitySound wholeNumber (App.runAll jsonStore ms data))
  /\ (forall data ms,
        capacitySound positiveInteger data -> keepsAll mongoKeeps mongoStore data ms ->
        capacitySound positiveInteger (App.runAll mongoStore ms data))
  /\ (forall body now data,
        capacitySound wholeNumber data ->
        capacitySound wholeNumber (fst (createRegistrationAtomic jsonStore body now data)))
  /\ (forall body now data,
        capacitySound positiveInteger data ->
        capacitySound positiveInteger (fst (createRegistrationAtomic mongoStore body now data)))
  /\ Forall (fun db : Backend =>
       forall body now data ps q,
         getProblemStatementById db (req_problemStatementId body) data = Some ps ->
         maxSelections ps = VNum q ->
         (q <= inject_Z (Z.of_nat (ledgerCount (id ps) data)))%Q ->
         (db = jsonBackend \/ 1 <= ledgerCount (id ps) data)%nat ->
         createRegistrationAtomic db body now data = (data, None)
         /\ App.register db body now data
            = (data,
               if incomplete body then App.MissingFields400
               else if isTeamNumberTaken db (req_teamNumber body) data
                    then App.TeamAlreadyRegistered409
                    else App.FullOrAlreadyRegistered409))
       backends.
Proof.
  split_and!.
  - intros data m. apply json_run_sound.
  - intros data m. apply mongo_run_sound.
  - intros data ms. apply runAll_sound. intros d m. apply json_run_sound.
  - intros data ms. apply runAll_sound. intros d m. apply mongo_run_sound.
  - intros body now data (Hnd & Htyped & Hinv).
    change (createRegistrationAtomic jsonStore body now data)
      with (JsonStore.createRegistrationAtomic body now data).
    split_and!; [| |by apply json_register_capacity];
      destruct (json_register_outcome body now data) as [-> | (p & _ & _ & _ & ->)]; done.
  - intros body now data (Hnd & Htyped & Hinv).
    change (createRegistrationAtomic mongoStore body now data)
      with (MongoStore.createRegistrationAtomic body now data).
    split_and!; [| |by apply mongo_register_capacity];
      destruct (mongo_register_outcome body now data) as [-> | (p & _ & _ & _ & ->)]; done.
  - apply on_backends; intros body now data ps q Hps Hq Hfull Hone.
    + assert (JsonStore.createRegistrationAtomic body now data = (data, None)) as Hnull
        by by eapply json_full_rejected.
      split; [done|]. by apply register_rejected with ps.
    + destruct Hone as [Heq | Hone];
        [discriminate (f_equal (fun b => storedTeamNumber b " x") Heq)|].
      assert (MongoStore.createRegistrationAtomic body now data = (data, None)) as Hnull
        by by eapply mongo_full_rejected.
      split; [done|]. by apply register_rejected with ps.
Qed.

Lemma openData_sound : capacitySound wholeNumber openData.
Proof.
  split_and!.
  - apply NoDup_singleton.
  - intros p ->%list_elem_of_singleton. by exists 2%Q, 2.
  - intros p ->%list_elem_of_singleton. apply withinCapacity_num. vm_compute. discriminate.
Qed.

(** The theorem at two places. The first registration for ps001 in the
    open sample is committed on the file store, so that the Ledger grows,
    and the state it leaves is within capacity. In the state the lowering
    update leaves, two registrations against a [maxSelections] of 1, the
    Mongo store rejects a third registration. *)
Lemma capacity_invariant_preserved_witness :
  let now := "2025-01-02T00:00:00.000Z" in
  let over := App.run mongoStore (App.UpdateProblem "ps001" lowerTo1) fullData in
  (length (registrations (App.run jsonStore (App.Register (sampleRequest "T1" "ps001") now)
                                  openData)) = 1%nat
   /\ capacitySound wholeNumber
        (App.run jsonStore (App.Register (sampleRequest "T1" "ps001") now) openData))
  /\ createRegistrationAtomic mongoBackend (sampleRequest "T3" "ps001") now over
     = (over, None).
Proof.
  intros now over.
  destruct capacity_invariant_preserved as (Hjson & _ & _ & _ & _ & _ & Hfull).
  split; [split; [reflexivity|]|].
  - apply Hjson; [exact openData_sound | by split].
  - refine (proj1 (proj1 (Forall_forall _ _) Hfull mongoBackend _
                     (sampleRequest "T3" "ps001") now over
                     (sampleProblem "ps001" (VNum 1)) 1%Q _ _ _ _)).
    + right. left.
    + reflexivity.
    + reflexivity.
    + vm_compute. discriminate.
    + right. vm_compute. lia.
Defined.

(** C1, as stated, fails. An update that lowers [maxSelections] below the
    number of registrations held is accepted by both stores. A registration
    is committed, and brings the count above [maxSelections], when
    [maxSelections] is 2.5 and two teams are registered, and when a second
    statement with the same identifier has a smaller [maxSelections]; the
    Mongo store also commits a registration for a statement stored with
    [maxSelections] 0, whose count is not below it. *)
Lemma capacity_invariant_broken :
  let now := "2025-01-02T00:00:00.000Z" in
  (capacityInvariant fullData
   /\ ~ capacityInvariant (App.run jsonStore (App.UpdateProblem "ps001" lowerTo1) fullData)
   /\ ~ capacityInvariant (App.run mongoStore (App.UpdateProblem "ps001" lowerTo1) fullData))
  /\ (capacityInvariant fractionData
      /\ ~ capacityInvariant
             (App.run jsonStore (App.Register (sampleRequest "T3" "ps001") now) fractionData)
      /\ ~ capacityInvariant
             (App.run mongoStore (App.Register (sampleRequest "T3" "ps001") now)
                      fractionData))
  /\ (capacityInvariant doubleData
      /\ ~ capacityInvariant
             (App.run jsonStore (App.Register (sampleRequest "T2" "ps001") now) doubleData)
      /\ ~ capacityInvariant
             (App.run mongoStore (App.Register (sampleRequest "T2" "ps001") now) doubleData))
  /\ (capacityInvariant zeroData
      /\ snd (createRegistrationAtomic mongoStore (sampleRequest "T1" "ps900") now zeroData)
         = Some {| res_id := "T1"; changes := 1 |}
      /\ ~ capacityInvariant
             (App.run mongoStore (App.Register (sampleRequest "T1" "ps900") now) zeroData)).
Proof.
  intros now.
  assert (forall (n : nat) (q : Q), Qle_bool (inject_Z (Z.of_nat n)) q = false ->
                                    ~ withinCapacity n (VNum q)) as Hover.
  { intros n q Hb Hle%withinCapacity_num. apply Qle_bool_iff in Hle. congruence. }
  assert (forall (data : Data),
            Forall (fun p => Qle_bool (inject_Z (Z.of_nat (ledgerCount (id p) data)))
                               (MongoStore.parsedMax (maxSelections p)) = true
                             /\ maxSelections p
                                = VNum (MongoStore.parsedMax (maxSelections p)))
                   (problemStatements data) ->
            capacityInvariant data) as Hwithin.
  { intros data Hall p Hp. destruct (proj1 (Forall_forall _ _) Hall p Hp) as [Hb Hq].
    rewrite Hq. apply withinCapacity_num. by apply Qle_bool_iff. }
  split_and!.
  - apply Hwithin. by repeat constructor.
  - intros Hinv. apply (Hover 2%nat 1%Q); [done|].
    apply (Hinv (sampleProblem "ps001" (VNum 1))). vm_compute. left.
  - intros Hinv. apply (Hover 2%nat 1%Q); [done|].
    apply (Hinv (sampleProblem "ps001" (VNum 1))). vm_compute. left.
  - apply Hwithin. by repeat constructor.
  - intros Hinv. apply (Hover 3%nat (5 # 2)%Q); [done|].
    apply (Hinv (sampleProblem "ps001" (VNum (5 # 2)))). vm_compute. left.
  - intros Hinv. apply (Hover 3%nat (5 # 2)%Q); [done|].
    apply (Hinv (sampleProblem "ps001" (VNum (5 # 2)))). vm_compute. left.
  - apply Hwithin. by repeat constructor.
  - intros Hinv. apply (Hover 2%nat 1%Q); [done|].
    apply (Hinv (sampleProblem "ps001" (VNum 1))). vm_compute. right. left.
  - intros Hinv. apply (Hover 2%nat 1%Q); [done|].
    apply (Hinv (sampleProblem "ps001" (VNum 1))). vm_compute. right. left.
  - apply Hwithin. by repeat constructor.
  - reflexivity.
  - intros Hinv. apply (Hover 1%nat 0%Q); [done|].
    apply (Hinv (sampleProblem "ps900" (VNum 0))). vm_compute. left.
Qed.
